(** * BCE.WeatherAPI: the collector's aggregation engine and the read API

    A shallow embedding of
      - src/lambdas/weather_collector/handler.py
          (the fetch_data of the five provider clients, get_api_keys,
           calculate_data_quality_score, aggregate_weather_data,
           convert_to_dynamodb_format, store_in_dynamodb, lambda_handler)
      - src/lambdas/weather_api/handler.py
          (create_response, get_current_weather, get_historical_weather,
           get_data_sources, get_health_status, lambda_handler)
    followed by the properties the specification states about them, and by
    further properties of the code.

    Conventions of the embedding.
      - A Python dict is an association list in insertion order, as CPython
        keeps it; a JSON-like Python object is a [value].
      - A Python number (int, float, Decimal) is the rational [Q] it denotes.
        Arithmetic on floats rounds: the collector's functions take the
        [rounding] applied to the exact result of each operation, [binary64]
        for CPython's doubles and [exact] for arithmetic without rounding
        error. [round(x, 2)] is round-half-to-even at the second decimal, which
        is what Python does for floats (on the exact value) and for Decimal.
        [Decimal(str(x))] is the shortest decimal that is read back as the
        double [x]: a number other than [x] unless [x] is that decimal.
      - A Python str is the string of the bytes of its UTF-8 encoding.
      - A Python exception is a [Raise] in the [outcome] type; try/except is a
        match on it.
      - What the handlers reach outside the process (the clock, Secrets
        Manager, the provider adapters, the DynamoDB table) is an explicit
        environment record or a state that is passed along. *)

From Stdlib Require Import ZArith QArith Qround Qabs List String Ascii Bool Lia Lqa.
From Stdlib Require Import DecimalString Sorted.
Import ListNotations.

Set Implicit Arguments.

(* ================================================================== *)
(** * Python values, dicts, exceptions *)
(* ================================================================== *)

Module Py.

Local Open Scope Q_scope.

#[warnings="-register-all"]
Inductive value : Type :=
| VNone
| VNum (q : Q)
| VStr (s : string)
| VList (l : list value)
| VDict (d : list (string * value)).

Definition dict : Type := list (string * value).

(** The exceptions the two handlers can meet. [Exception msg] is the bare
    [Exception(msg)] the collector raises itself. *)
Inductive exn : Type :=
| TypeError
| ValueError
| AttributeError
| OverflowError
| KeyError
| IndexError
| ClientError
| Exception (msg : string)
| OtherError (cls : string).

Inductive outcome (A : Type) : Type :=
| Ok (a : A)
| Raise (e : exn).

Arguments Ok {A} a.
Arguments Raise {A} e.

Definition bind {A B : Type} (m : outcome A) (k : A -> outcome B) : outcome B :=
  match m with
  | Ok a => k a
  | Raise e => Raise e
  end.

Definition omap {A B : Type} (f : A -> B) (m : outcome A) : outcome B :=
  bind m (fun a => Ok (f a)).

Notation "x <- m ;; k" := (bind m (fun x => k))
  (at level 61, m at next level, right associativity).

(** [str(e)]: the message of an [Exception(msg)]; the interpreter's wording
    for the built-in ones is left to [builtin_message]. *)
Definition str_exn (builtin_message : exn -> string) (e : exn) : string :=
  match e with
  | Exception msg => msg
  | _ => builtin_message e
  end.

(** [x is None] *)
Definition is_none (v : value) : bool :=
  match v with
  | VNone => true
  | _ => false
  end.

(** Truth value of an object, as [if v:] tests it. *)
Definition truthy (v : value) : bool :=
  match v with
  | VNone => false
  | VNum q => negb (Qeq_bool q 0)
  | VStr s => negb (String.eqb s EmptyString)
  | VList l => match l with [] => false | _ => true end
  | VDict d => match d with [] => false | _ => true end
  end.

(** ** dict operations *)

Fixpoint lookup (d : dict) (k : string) : option value :=
  match d with
  | [] => None
  | (k', v) :: d' => if String.eqb k' k then Some v else lookup d' k
  end.

(** [d.get(k, default)] *)
Definition get_default (d : dict) (k : string) (default : value) : value :=
  match lookup d k with
  | Some v => v
  | None => default
  end.

(** [d.get(k)] *)
Definition get (d : dict) (k : string) : value := get_default d k VNone.

(** [d[k] = v]: an existing key keeps its place, a new one goes last. *)
Fixpoint set (d : dict) (k : string) (v : value) : dict :=
  match d with
  | [] => [(k, v)]
  | (k', v') :: d' =>
      if String.eqb k' k then (k', v) :: d' else (k', v') :: set d' k v
  end.

(** [list(d.values())] and [len(d)] *)
Definition values (d : dict) : list value := map snd d.
Definition len (d : dict) : nat := List.length d.

(** [d.pop(k, None)], used to compare records up to one key. *)
Definition remove (d : dict) (k : string) : dict :=
  filter (fun kv => negb (String.eqb (fst kv) k)) d.

(** [v.get(k, default)] on an arbitrary object: only a dict has the method. *)
Definition attr_get_default (v : value) (k : string) (default : value)
  : outcome value :=
  match v with
  | VDict d => Ok (get_default d k default)
  | _ => Raise AttributeError
  end.

Definition attr_get (v : value) (k : string) : outcome value :=
  attr_get_default v k VNone.

(** ** numbers *)

Definition num_of_nat (n : nat) : Q := inject_Z (Z.of_nat n).

(** Nearest integer, ties to the even one. *)
Definition round_half_even (x : Q) : Z :=
  let n := Qfloor x in
  match Qcompare (x - inject_Z n) (1 # 2) with
  | Lt => n
  | Gt => (n + 1)%Z
  | Eq => if Z.even n then n else (n + 1)%Z
  end.

(** [x] at two decimal places. *)
Definition round2 (x : Q) : Q := Qred (round_half_even (x * 100) # 100).

(** How a number system rounds the exact result of an operation. *)
Definition rounding : Type := Q -> Q.

(** Arithmetic without rounding error. *)
Definition exact : rounding := fun q => q.

(** [floor(log2(a))] for [a > 0]. *)
Definition floor_log2 (a : Q) : Z :=
  let k := (Z.log2 (Qnum a) - Z.log2 (Zpos (Qden a)))%Z in
  if Qle_bool (2 ^ k) a then k else (k - 1)%Z.

(** IEEE-754 binary64, round to nearest, ties to even: the double nearest to
    [q], for [q] in the range of normal doubles (53 significant bits). *)
Definition binary64 : rounding :=
  fun q =>
    if Qeq_bool q 0 then 0
    else
      let a := Qabs q in
      let e := (floor_log2 a - 52)%Z in
      let r := Qred (inject_Z (round_half_even (a / 2 ^ e)) * 2 ^ e) in
      if Qle_bool 0 q then r else Qred (- r).

(** [round(x, 2)] on a float: the float nearest to the decimal. *)
Definition round (fl : rounding) (x : Q) : Q := fl (round2 x).

(** ** Decimal(str(x)) *)

(** [floor(log10(a))] for [a > 0], from an estimate that is at most one
    off. *)
Definition floor_log10 (a : Q) : Z :=
  let k := (floor_log2 a * 30103 / 100000)%Z in
  if Qle_bool (10 ^ (k + 1)) a then (k + 1)%Z
  else if Qle_bool (10 ^ k) a then k
  else (k - 1)%Z.

(** The decimals of [p] significant digits on either side of [q], when one
    of them is read back as the double [q]: the nearer of the two if both
    are. [e10] is the decimal exponent of [q]. *)
Definition shortest_at (q : Q) (e10 p : Z) : option Q :=
  let scale := 10 ^ (e10 - p + 1) in
  let m := Qfloor (Qabs q / scale) in
  let signed := fun c : Q => if Qle_bool 0 q then Qred c else Qred (- c) in
  let lo := signed (inject_Z m * scale) in
  let hi := signed (inject_Z (m + 1) * scale) in
  match Qeq_bool (binary64 lo) q, Qeq_bool (binary64 hi) q with
  | true, true =>
      match Qcompare (Qabs (q - lo)) (Qabs (hi - q)) with
      | Lt => Some lo
      | Gt => Some hi
      | Eq => Some (if Z.even m then lo else hi)
      end
  | true, false => Some lo
  | false, true => Some hi
  | false, false => None
  end.

Fixpoint shortest_from (q : Q) (e10 p : Z) (more : nat) : Q :=
  match more with
  | O => q
  | S more' =>
      match shortest_at q e10 p with
      | Some c => c
      | None => shortest_from q e10 (p + 1) more'
      end
  end.

(** [Decimal(str(x))]: [str] prints a float with the fewest digits that are
    read back as the same double (17 always suffice), and [Decimal] reads
    them exactly. The result of the model is the number the Decimal
    denotes. A number that is no double is not a float: it is an int or a
    Decimal, which the callers leave as it is; an int below [2 ^ 53] is its
    own shortest decimal, so that a call on it changes nothing either. *)
Definition Decimal_str (q : Q) : Q :=
  if Qeq_bool q 0 then 0
  else if Qeq_bool (binary64 q) q then
    shortest_from q (floor_log10 (Qabs q)) 1 17
  else q.

(** [sum(xs)]: left to right from 0; [0 + x] raises TypeError when [x] is
    not a number. *)
Fixpoint sum_from (fl : rounding) (acc : Q) (xs : list value) : outcome Q :=
  match xs with
  | [] => Ok acc
  | VNum q :: xs' => sum_from fl (fl (acc + q)) xs'
  | _ :: _ => Raise TypeError
  end.

Definition sum (fl : rounding) (xs : list value) : outcome Q :=
  sum_from fl 0 xs.

(** The running minimum / maximum of [min(xs)] / [max(xs)]: the first
    extremal element is kept. *)
Fixpoint min_from (cur : Q) (xs : list Q) : Q :=
  match xs with
  | [] => cur
  | x :: xs' => min_from (if Qlt_le_dec x cur then x else cur) xs'
  end.

Fixpoint max_from (cur : Q) (xs : list Q) : Q :=
  match xs with
  | [] => cur
  | x :: xs' => max_from (if Qlt_le_dec cur x then x else cur) xs'
  end.

(** The numbers of a list, or TypeError at the first element that is not
    one. *)
Fixpoint numbers (xs : list value) : outcome (list Q) :=
  match xs with
  | [] => Ok []
  | VNum q :: xs' => bind (numbers xs') (fun qs => Ok (q :: qs))
  | _ :: _ => Raise TypeError
  end.

(** [min(xs)] and [max(xs)] where the result is used as a number: on an empty
    list Python raises ValueError; an element that is not a number ends in
    TypeError, at a comparison or in the arithmetic that follows. *)
Definition min (xs : list value) : outcome Q :=
  bind (numbers xs) (fun qs =>
    match qs with
    | [] => Raise ValueError
    | q :: qs' => Ok (min_from q qs')
    end).

Definition max (xs : list value) : outcome Q :=
  bind (numbers xs) (fun qs =>
    match qs with
    | [] => Raise ValueError
    | q :: qs' => Ok (max_from q qs')
    end).

(** ** collections.Counter *)

(** Keys of a Counter must be hashable: lists and dicts are not. *)
Definition hashable (v : value) : bool :=
  match v with
  | VList _ | VDict _ => false
  | _ => true
  end.

(** [a == b] on hashable values. *)
Definition key_eqb (a b : value) : bool :=
  match a, b with
  | VNone, VNone => true
  | VNum p, VNum q => Qeq_bool p q
  | VStr s, VStr t => String.eqb s t
  | _, _ => false
  end.

(** A Counter is a dict from elements to counts, in first-insertion order. *)
Definition counter : Type := list (value * nat).

Fixpoint counter_incr (c : counter) (x : value) : counter :=
  match c with
  | [] => [(x, 1%nat)]
  | (y, n) :: c' =>
      if key_eqb y x then (y, S n) :: c' else (y, n) :: counter_incr c' x
  end.

(** [Counter(xs)] *)
Definition Counter (xs : list value) : outcome counter :=
  fold_left
    (fun acc x =>
       bind acc (fun c =>
         if hashable x then Ok (counter_incr c x) else Raise TypeError))
    xs (Ok []).

(** [max(items, key=itemgetter(1))], which is what [most_common(1)] runs:
    a later item replaces the current best only when its count is strictly
    larger. *)
Fixpoint max_by_count (best : value * nat) (c : counter) : value * nat :=
  match c with
  | [] => best
  | item :: c' =>
      max_by_count (if Nat.ltb (snd best) (snd item) then item else best) c'
  end.

(** [c.most_common(1)] *)
Definition most_common_1 (c : counter) : list (value * nat) :=
  match c with
  | [] => []
  | item :: c' => [max_by_count item c']
  end.

(** ** int(), float(), len(), str() *)

(** A str is held as its UTF-8 encoding: [code_points] reads the characters
    back. A byte that belongs to no character, which the encoding of a str
    never holds, is read as U+FFFD. *)
Definition continuation (b : N) : bool := ((128 <=? b) && (b <=? 191))%N.

Fixpoint code_points (bs : list N) : list N :=
  match bs with
  | [] => []
  | b :: bs1 =>
      if (b <? 128)%N then b :: code_points bs1
      else
        match bs1 with
        | c1 :: bs2 =>
            if ((194 <=? b) && (b <=? 223))%N && continuation c1 then
              ((b - 192) * 64 + (c1 - 128))%N :: code_points bs2
            else
              match bs2 with
              | c2 :: bs3 =>
                  if ((224 <=? b) && (b <=? 239))%N && continuation c1
                     && continuation c2 then
                    ((b - 224) * 4096 + (c1 - 128) * 64 + (c2 - 128))%N
                    :: code_points bs3
                  else
                    match bs3 with
                    | c3 :: bs4 =>
                        if ((240 <=? b) && (b <=? 244))%N && continuation c1
                           && continuation c2 && continuation c3 then
                          ((b - 240) * 262144 + (c1 - 128) * 4096
                           + (c2 - 128) * 64 + (c3 - 128))%N
                          :: code_points bs4
                        else 65533%N :: code_points bs1
                    | [] => 65533%N :: code_points bs1
                    end
              | [] => 65533%N :: code_points bs1
              end
        | [] => [65533%N]
        end
  end.

(** [Py_UNICODE_ISSPACE]: the characters [str.isspace] accepts. *)
Definition Py_UNICODE_ISSPACE (c : N) : bool :=
  ((9 <=? c) && (c <=? 13) || (28 <=? c) && (c <=? 32)
   || (c =? 133) || (c =? 160) || (c =? 5760)
   || (8192 <=? c) && (c <=? 8202)
   || (c =? 8232) || (c =? 8233) || (c =? 8239) || (c =? 8287)
   || (c =? 12288))%N.

(** The digit zero of every script that has decimal digits (Unicode 14, the
    table of CPython 3.11); the nine other digits follow it. *)
Definition DECIMAL_ZEROS : list N :=
  [48; 1632; 1776; 1984; 2406; 2534; 2662; 2790; 2918; 3046; 3174; 3302;
   3430; 3558; 3664; 3792; 3872; 4160; 4240; 6112; 6160; 6470; 6608; 6784;
   6800; 6992; 7088; 7232; 7248; 42528; 43216; 43264; 43472; 43504; 43600;
   44016; 65296; 66720; 68912; 69734; 69872; 69942; 70096; 70384; 70736;
   70864; 71248; 71360; 71472; 71904; 72016; 72784; 73040; 73120; 92768;
   92864; 93008; 120782; 120792; 120802; 120812; 120822; 123200; 123632;
   125264; 130032]%N.

(** [Py_UNICODE_TODECIMAL] *)
Definition Py_UNICODE_TODECIMAL (c : N) : option N :=
  match find (fun z => ((z <=? c) && (c <? z + 10))%N) DECIMAL_ZEROS with
  | Some z => Some (c - z)%N
  | None => None
  end.

(** What [int] makes of one character before it parses: a character below
    127 is kept, a space from above becomes [' '], a decimal digit from
    above becomes its ASCII digit, and anything else becomes ['?'], at
    which the parse fails. *)
Definition to_ascii (c : N) : ascii :=
  if (c <? 127)%N then ascii_of_N c
  else if Py_UNICODE_ISSPACE c then " "%char
  else
    match Py_UNICODE_TODECIMAL c with
    | Some d => ascii_of_N (48 + d)
    | None => "?"%char
    end.

Definition transform_decimal_and_space (s : string) : list ascii :=
  map to_ascii (code_points (map N_of_ascii (list_ascii_of_string s))).

(** [Py_ISSPACE], the whitespace the parser skips at both ends. *)
Definition is_space (c : ascii) : bool :=
  let n := nat_of_ascii c in
  ((9 <=? n) && (n <=? 13) || (n =? 32))%nat.

Definition is_digit (c : ascii) : bool :=
  let n := nat_of_ascii c in ((48 <=? n) && (n <=? 57))%nat.

Definition digit_value (c : ascii) : Z := Z.of_nat (nat_of_ascii c - 48).

Definition underscore : ascii := "_"%char.

(** Decimal digits, a single underscore allowed between two of them. *)
Fixpoint digits (acc : Z) (after_digit : bool) (cs : list ascii) : option Z :=
  match cs with
  | [] => if after_digit then Some acc else None
  | c :: cs' =>
      if is_digit c then digits (10 * acc + digit_value c)%Z true cs'
      else if Ascii.eqb c underscore && after_digit then
        match cs' with
        | d :: _ => if is_digit d then digits acc false cs' else None
        | [] => None
        end
      else None
  end.

Fixpoint lstrip (cs : list ascii) : list ascii :=
  match cs with
  | c :: cs' => if is_space c then lstrip cs' else cs
  | [] => []
  end.

Definition strip (cs : list ascii) : list ascii :=
  rev (lstrip (rev (lstrip cs))).

(** [sys.int_info.default_max_str_digits]: a longer run of digits is a
    ValueError. *)
Definition MAX_STR_DIGITS : nat := 4300.

(** [int(s)] on a str, base 10: surrounding whitespace, an optional sign,
    digits. [None] is ValueError. *)
Definition int_of_string (s : string) : option Z :=
  let cs := strip (transform_decimal_and_space s) in
  if (MAX_STR_DIGITS <? List.length (filter is_digit cs))%nat then None
  else
    match cs with
    | "-"%char :: cs => option_map Z.opp (digits 0 false cs)
    | "+"%char :: cs => digits 0 false cs
    | cs => digits 0 false cs
    end.

(** [int(v)]: a number is truncated towards zero. *)
Definition int (v : value) : outcome Z :=
  match v with
  | VNum q => Ok (Z.quot (Qnum q) (Zpos (Qden q)))
  | VStr s =>
      match int_of_string s with
      | Some z => Ok z
      | None => Raise ValueError
      end
  | _ => Raise TypeError
  end.

(** [float(v)]: the double nearest to a number; [parse] is [float] on a
    str, [None] for ValueError. *)
Definition float (parse : string -> option Q) (v : value) : outcome Q :=
  match v with
  | VNum q => Ok (binary64 q)
  | VStr s =>
      match parse s with
      | Some q => Ok q
      | None => Raise ValueError
      end
  | _ => Raise TypeError
  end.

(** [len(v)] *)
Definition len_of (v : value) : outcome nat :=
  match v with
  | VStr s => Ok (String.length s)
  | VList l => Ok (List.length l)
  | VDict d => Ok (List.length d)
  | _ => Raise TypeError
  end.

(** [str(n)] for an int *)
Definition str_of_int (n : Z) : string := NilZero.string_of_int (Z.to_int n).

(** [v == s] for a str literal [s] *)
Definition eq_str (v : value) (s : string) : bool :=
  match v with
  | VStr t => String.eqb t s
  | _ => false
  end.

(** [xs[0]] *)
Definition first {A : Type} (xs : list A) : outcome A :=
  match xs with
  | [] => Raise IndexError
  | x :: _ => Ok x
  end.

(** [d[k]] *)
Definition subscript (d : dict) (k : string) : outcome value :=
  match lookup d k with
  | Some v => Ok v
  | None => Raise KeyError
  end.

End Py.

(* ================================================================== *)
(** * weather_collector/handler.py *)
(* ================================================================== *)

Module Collector.
Import Py.

Local Open Scope Q_scope.
Local Open Scope string_scope.

(** The field list both loops of [aggregate_weather_data] run over. *)
Definition NUMERIC_FIELDS : list string :=
  ["temperature"; "feels_like"; "humidity"; "pressure"; "wind_speed";
   "wind_direction"; "clouds"; "visibility"; "uv_index"].

(** ** calculate_data_quality_score *)

(** One turn of the loop: [if point:] skips [None] and the empty dict. *)
Definition add_point_score (fl : rounding) (total_score : Q)
    (point : option dict) : Q :=
  match point with
  | Some p =>
      if truthy (VDict p) then
        let valid_fields :=
          List.length (filter (fun v => negb (is_none v)) (values p)) in
        let total_fields := len p in
        fl (total_score + fl (num_of_nat valid_fields / num_of_nat total_fields))
      else total_score
  | None => total_score
  end.

(** [fl] is the arithmetic of the floats. *)
Definition calculate_data_quality_score (fl : rounding)
    (data_points : list (option dict)) : Q :=
  match data_points with
  | [] => 0
  | _ :: _ =>
      let total_score := fold_left (add_point_score fl) data_points 0 in
      round fl (fl (total_score / num_of_nat (List.length data_points)))
  end.

(** ** aggregate_weather_data *)

(** The local dict [aggregated]: a list of collected values per key. *)
Definition collected : Type := list (string * list value).

Definition aggregated_init : collected :=
  [("temperature", []); ("feels_like", []); ("humidity", []);
   ("pressure", []); ("wind_speed", []); ("wind_direction", []);
   ("clouds", []); ("visibility", []); ("uv_index", []); ("sources", [])].

(** [aggregated[k]] *)
Fixpoint item (a : collected) (k : string) : list value :=
  match a with
  | [] => []
  | (k', xs) :: a' => if String.eqb k' k then xs else item a' k
  end.

(** [aggregated[k].append(v)] *)
Fixpoint append_to (a : collected) (k : string) (v : value) : collected :=
  match a with
  | [] => []
  | (k', xs) :: a' =>
      if String.eqb k' k then (k', (xs ++ [v])%list) :: a'
      else (k', xs) :: append_to a' k v
  end.

Definition collect_field (data : dict) (a : collected) (field : string)
  : collected :=
  let value := get data field in
  if is_none value then a else append_to a field value.

Definition collect_point (a : collected) (data : dict) : collected :=
  fold_left (collect_field data) NUMERIC_FIELDS
    (append_to a "sources" (get data "source")).

(** The body of the second loop, for one field. *)
Definition field_stats (fl : rounding) (aggregated : collected) (result : dict)
    (field : string) : outcome dict :=
  let xs := item aggregated field in
  if truthy (VList xs) then
    s <- sum fl xs ;;
    let result :=
      set result (field ++ "_avg")
        (VNum (round fl (fl (s / num_of_nat (List.length xs))))) in
    lo <- min xs ;;
    let result := set result (field ++ "_min") (VNum (round fl lo)) in
    hi <- max xs ;;
    let result := set result (field ++ "_max") (VNum (round fl hi)) in
    Ok (set result (field ++ "_count") (VNum (num_of_nat (List.length xs))))
  else Ok result.

(** [[d for d in data_points if d is not None]] *)
Definition not_none (data_points : list (option dict)) : list dict :=
  flat_map (fun d => match d with Some p => [p] | None => [] end) data_points.

(** [[d.get("weather") for d in valid_data if d.get("weather")]] *)
Definition weather_descriptions (valid_data : list dict) : list value :=
  filter truthy (map (fun d => get d "weather") valid_data).

(** [fl] is the arithmetic of the floats; [now] is the reading
    [datetime.now(timezone.utc).isoformat()] takes when the result dict is
    built. *)
Definition aggregate_weather_data (fl : rounding) (now : string)
    (data_points : list (option dict)) : outcome dict :=
  match data_points with
  | [] => Ok []
  | _ :: _ =>
      let valid_data := not_none data_points in
      match valid_data with
      | [] => Ok []
      | _ :: _ =>
          let aggregated := fold_left collect_point valid_data aggregated_init in
          let result :=
            [("sources", VList (item aggregated "sources"));
             ("timestamp", VStr now);
             ("raw_data", VList (map VDict valid_data))] in
          result <-
            fold_left
              (fun acc field => r <- acc ;; field_stats fl aggregated r field)
              NUMERIC_FIELDS (Ok result) ;;
          let descriptions := weather_descriptions valid_data in
          if truthy (VList descriptions) then
            c <- Counter descriptions ;;
            top <- first (most_common_1 c) ;;
            Ok (set result "weather_consensus" (fst top))
          else Ok result
      end
  end.

(** ** the collection cycle: lambda_handler *)

(** One reading of the clock: what [datetime.now(timezone.utc).isoformat()]
    and [int(time.time())] give at that moment. *)
Record instant : Type := { iso : string; epoch : Z }.

(** What a cycle reads from outside the process. *)
Record env : Type := {
  LOCATION : string;
  (** [get_secret_value] followed by [json.loads]: the parsed secret, or the
      exception one of the two raised *)
  secret : outcome value;
  (** [client.fetch_data()] of the client with that [api_name]; each adapter
      turns its own failures into [None] *)
  fetch_data : string -> option dict;
  (** the successive readings of the clock *)
  clock : nat -> instant;
  (** the exception [table.put_item] raises, if it fails *)
  put_item_error : option exn;
  (** the arithmetic of the interpreter's floats *)
  float_arithmetic : rounding;
  builtin_message : exn -> string
}.

(** What a cycle changes: the items of the table, the adapters called so
    far (in call order), and how often the clock has been read. *)
Record state : Type := {
  table : list dict;
  attempted : list string;
  ticks : nat
}.

(** Stateful code that may raise: the state reached is kept either way. *)
Definition M (A : Type) : Type := state -> outcome A * state.

Definition ret {A : Type} (a : A) : M A := fun s => (Ok a, s).

Definition throw {A : Type} (e : exn) : M A := fun s => (Raise e, s).

Definition lift {A : Type} (o : outcome A) : M A := fun s => (o, s).

Definition mbind {A B : Type} (m : M A) (k : A -> M B) : M B :=
  fun s =>
    match m s with
    | (Ok a, s') => k a s'
    | (Raise e, s') => (Raise e, s')
    end.

(** [try: m  except Exception as e: h e] *)
Definition catch {A : Type} (m : M A) (h : exn -> M A) : M A :=
  fun s =>
    match m s with
    | (Ok a, s') => (Ok a, s')
    | (Raise e, s') => h e s'
    end.

Notation "x <~ m ;; k" := (mbind m (fun x => k))
  (at level 61, m at next level, right associativity).

Definition read_clock (e : env) : M instant :=
  fun s =>
    (Ok (clock e (ticks s)),
     {| table := table s; attempted := attempted s; ticks := S (ticks s) |}).

(** [get_api_keys]: only a [ClientError] is turned into the empty dict. *)
Definition get_api_keys (e : env) : outcome value :=
  match secret e with
  | Raise ClientError => Ok (VDict [])
  | r => r
  end.

(** A client object: its [api_name] and [api_key]. *)
Record client : Type := { api_name : string; api_key : value }.

(** [if api_keys.get(name): clients.append(Client(name, api_keys[name]))] *)
Definition client_if_key (api_keys : value) (name : string)
  : outcome (list client) :=
  k <- attr_get api_keys name ;;
  if truthy k then Ok [{| api_name := name; api_key := k |}] else Ok [].

Definition make_clients (api_keys : value) : outcome (list client) :=
  c1 <- client_if_key api_keys "openweathermap" ;;
  c2 <- client_if_key api_keys "weatherapi" ;;
  c3 <- client_if_key api_keys "visualcrossing" ;;
  let c4 := [{| api_name := "openmeteo"; api_key := VNone |}] in
  c5 <- client_if_key api_keys "tomorrow_io" ;;
  Ok (c1 ++ c2 ++ c3 ++ c4 ++ c5)%list.

(** [data = client.fetch_data()] *)
Definition call_fetch (e : env) (c : client) : M (option dict) :=
  fun s =>
    (Ok (fetch_data e (api_name c)),
     {| table := table s;
        attempted := (attempted s ++ [api_name c])%list;
        ticks := ticks s |}).

(** The loop over [clients]; [if data:] drops [None] and the empty dict. *)
Fixpoint fetch_all (e : env) (clients : list client) (all_data : list dict)
  : M (list dict) :=
  match clients with
  | [] => ret all_data
  | c :: clients' =>
      data <~ call_fetch e c ;;
      match data with
      | Some d =>
          if truthy (VDict d) then fetch_all e clients' (all_data ++ [d])%list
          else fetch_all e clients' all_data
      | None => fetch_all e clients' all_data
      end
  end.

(** The inner [convert_value]: a float becomes [Decimal(str(value))], a dict
    and a list are converted value by value, anything else is returned as it
    is. *)
Fixpoint convert_value (v : value) : value :=
  match v with
  | VNum q => VNum (Decimal_str q)
  | VDict d =>
      VDict (map (fun kv => let '(k, x) := kv in (k, convert_value x)) d)
  | VList l => VList (map convert_value l)
  | _ => v
  end.

Definition convert_to_dynamodb_format (data : dict) : dict :=
  match convert_value (VDict data) with
  | VDict d => d
  | _ => data
  end.

(** [table.put_item(Item=item)]: an item with the same primary key
    (location, timestamp) is replaced. *)
Definition same_key (a b : dict) : bool :=
  key_eqb (get a "location") (get b "location")
  && key_eqb (get a "timestamp") (get b "timestamp").

Definition put_item (e : env) (item : dict) : M unit :=
  fun s =>
    match put_item_error e with
    | Some x => (Raise x, s)
    | None =>
        (Ok tt,
         {| table :=
              (filter (fun old => negb (same_key old item)) (table s)
               ++ [item])%list;
            attempted := attempted s;
            ticks := ticks s |})
    end.

(** [store_in_dynamodb]: its [except] logs and re-raises. *)
Definition store_in_dynamodb (e : env) (weather_data : dict) (quality_score : Q)
  : M unit :=
  t <~ read_clock e ;;
  let ttl := (epoch t + 30 * 24 * 60 * 60)%Z in
  n <~ read_clock e ;;
  let item :=
    [("location", VStr (LOCATION e));
     ("timestamp", VStr (iso n));
     ("weather_data", VDict (convert_to_dynamodb_format weather_data));
     ("data_quality_score", VNum (Decimal_str quality_score));
     ("ttl", VNum (inject_Z ttl))] in
  put_item e item.

Definition lambda_handler (e : env) : M dict :=
  catch
    (api_keys <~ lift (get_api_keys e) ;;
     clients <~ lift (make_clients api_keys) ;;
     all_data <~ fetch_all e clients [] ;;
     match all_data with
     | [] => throw (Exception "No weather data could be fetched from any API")
     | _ :: _ =>
         now <~ read_clock e ;;
         aggregated_data <~
           lift (aggregate_weather_data (float_arithmetic e) (iso now)
                   (map Some all_data)) ;;
         let quality_score :=
           calculate_data_quality_score (float_arithmetic e)
             (map Some all_data) in
         _ <~ store_in_dynamodb e aggregated_data quality_score ;;
         timestamp <~ lift (subscript aggregated_data "timestamp") ;;
         ret [("statusCode", VNum 200);
              ("body",
               VDict
                 [("message", VStr "Weather data collected successfully");
                  ("location", VStr (LOCATION e));
                  ("sources_count", VNum (num_of_nat (List.length all_data)));
                  ("quality_score", VNum quality_score);
                  ("timestamp", timestamp)])]
     end)
    (fun ex =>
       ret [("statusCode", VNum 500);
            ("body",
             VDict
               [("error", VStr "Failed to collect weather data");
                ("message", VStr (str_exn (builtin_message e) ex))])]).

End Collector.

(* ================================================================== *)
(** * weather_api/handler.py *)
(* ================================================================== *)

Module Api.
Import Py.

Local Open Scope Q_scope.
Local Open Scope string_scope.

(** What a request reads from outside the process. Instants are microseconds
    since the epoch. *)
Record env : Type := {
  LOCATION : string;
  TABLE_NAME : string;
  CORS_ORIGIN : string;
  (** the items of the table *)
  rows : list dict;
  (** the exception [table.query] raises when the store fails: [ClientError]
      for an error DynamoDB reports *)
  query_error : option exn;
  (** the successive readings of [datetime.now(timezone.utc)] *)
  clock : nat -> Z;
  (** [datetime.isoformat] *)
  isoformat : Z -> string;
  (** [float] on a str *)
  float_of_string : string -> option Q;
  (** [str] of a built-in exception, and of an object that is not a str *)
  builtin_message : exn -> string;
  format_object : value -> string;
  (** the response of [get_health_status()], a handler that reads the table
      and the clock and that no property below is about *)
  health_status : dict
}.

(** ** the table *)

(** The sort key of an item. *)
Definition timestamp_of (item : dict) : string :=
  match get item "timestamp" with
  | VStr s => s
  | _ => EmptyString
  end.

Fixpoint insert_desc (item : dict) (sorted : list dict) : list dict :=
  match sorted with
  | [] => [item]
  | x :: sorted' =>
      if String.leb (timestamp_of x) (timestamp_of item)
      then item :: sorted
      else x :: insert_desc item sorted'
  end.

(** Items by descending sort key ([ScanIndexForward=False]). *)
Definition sort_desc (items : list dict) : list dict :=
  fold_right insert_desc [] items.

(** [Key('location').eq(loc)] *)
Definition location_eq (loc : string) (item : dict) : bool :=
  eq_str (get item "location") loc.

(** [Key('timestamp').between(lo, hi)], both ends included *)
Definition timestamp_between (lo hi : string) (item : dict) : bool :=
  String.leb lo (timestamp_of item) && String.leb (timestamp_of item) hi.

Definition limited {A : Type} (limit : option nat) (xs : list A) : list A :=
  match limit with
  | Some n => firstn n xs
  | None => xs
  end.

(** [table.query(KeyConditionExpression=Key('location').eq(LOCATION),
    ScanIndexForward=False, Limit=limit)['Items']] *)
Definition query_latest (e : env) (limit : option nat) : outcome (list dict) :=
  match query_error e with
  | Some x => Raise x
  | None =>
      Ok (limited limit (sort_desc (filter (location_eq (LOCATION e)) (rows e))))
  end.

(** The history query. DynamoDB refuses a BETWEEN whose lower bound is above
    its upper bound (a ValidationException, which boto3 raises as
    [ClientError]). *)
Definition query_between (e : env) (lo hi : string) : outcome (list dict) :=
  match query_error e with
  | Some x => Raise x
  | None =>
      if String.leb lo hi then
        Ok (sort_desc
              (filter
                 (fun item =>
                    location_eq (LOCATION e) item && timestamp_between lo hi item)
                 (rows e)))
      else Raise ClientError
  end.

(** ** datetime *)

Definition MIN_INSTANT : Z := (-62135596800000000)%Z.  (* 0001-01-01T00:00:00 *)
Definition MAX_INSTANT : Z := 253402300799999999%Z.    (* 9999-12-31T23:59:59.999999 *)

(** [timedelta(hours=h)] in microseconds; more than 999999999 days either
    way is an OverflowError. *)
Definition timedelta_hours (h : Z) : outcome Z :=
  let us := (h * 3600000000)%Z in
  let days := (us / 86400000000)%Z in
  if ((-999999999 <=? days) && (days <=? 999999999))%Z then Ok us
  else Raise OverflowError.

(** [t - delta] on a datetime *)
Definition datetime_sub (t delta : Z) : outcome Z :=
  let r := (t - delta)%Z in
  if ((MIN_INSTANT <=? r) && (r <=? MAX_INSTANT))%Z then Ok r
  else Raise OverflowError.

(** ** create_response *)

(** The [body] entry holds the object that [json.dumps(body,
    cls=DecimalEncoder)] serialises. *)
Definition create_response (e : env) (status_code : Z) (body : value)
    (headers : option dict) : dict :=
  let default_headers :=
    [("Content-Type", VStr "application/json");
     ("Access-Control-Allow-Origin", VStr (CORS_ORIGIN e));
     ("Access-Control-Allow-Headers",
      VStr "Content-Type,X-Amz-Date,Authorization,X-Api-Key,X-Amz-Security-Token");
     ("Access-Control-Allow-Methods", VStr "GET,OPTIONS")] in
  let default_headers :=
    match headers with
    | Some (h :: hs) =>
        fold_left (fun acc kv => set acc (fst kv) (snd kv)) (h :: hs)
          default_headers
    | _ => default_headers
    end in
  [("statusCode", VNum (inject_Z status_code));
   ("headers", VDict default_headers);
   ("body", body)].

(** The two [except] clauses every handler ends with. *)
Definition handle_errors (e : env) (what : string) (r : outcome dict) : dict :=
  match r with
  | Ok response => response
  | Raise ClientError =>
      create_response e 500
        (VDict [("error", VStr "Database error"); ("message", VStr what)])
        None
  | Raise ex =>
      create_response e 500
        (VDict [("error", VStr "Internal server error");
                ("message", VStr (str_exn (builtin_message e) ex))])
        None
  end.

(** ** get_current_weather *)

(** [v.get] needs [v] to be a dict. *)
Definition as_dict (v : value) : outcome dict :=
  match v with
  | VDict d => Ok d
  | _ => Raise AttributeError
  end.

Definition current_data (e : env) (item : dict) : outcome value :=
  let weather_data := get_default item "weather_data" (VDict []) in
  score <- float (float_of_string e) (get_default item "data_quality_score" (VNum 0)) ;;
  wd <- as_dict weather_data ;;
  Ok (VDict
    [("location", get item "location");
     ("timestamp", get item "timestamp");
     ("data_quality_score", VNum score);
     ("sources", get_default wd "sources" (VList []));
     ("current_conditions", VDict
        [("temperature", VDict
            [("value", get wd "temperature_avg");
             ("min", get wd "temperature_min");
             ("max", get wd "temperature_max");
             ("unit", VStr "celsius")]);
         ("feels_like", VDict
            [("value", get wd "feels_like_avg");
             ("min", get wd "feels_like_min");
             ("max", get wd "feels_like_max");
             ("unit", VStr "celsius")]);
         ("humidity", VDict
            [("value", get wd "humidity_avg");
             ("min", get wd "humidity_min");
             ("max", get wd "humidity_max");
             ("unit", VStr "percent")]);
         ("pressure", VDict
            [("value", get wd "pressure_avg");
             ("min", get wd "pressure_min");
             ("max", get wd "pressure_max");
             ("unit", VStr "hPa")]);
         ("wind", VDict
            [("speed", VDict
                [("value", get wd "wind_speed_avg");
                 ("min", get wd "wind_speed_min");
                 ("max", get wd "wind_speed_max");
                 ("unit", VStr "m/s")]);
             ("direction", VDict
                [("value", get wd "wind_direction_avg");
                 ("unit", VStr "degrees")])]);
         ("clouds", VDict
            [("value", get wd "clouds_avg");
             ("min", get wd "clouds_min");
             ("max", get wd "clouds_max");
             ("unit", VStr "percent")]);
         ("visibility", VDict
            [("value", get wd "visibility_avg");
             ("min", get wd "visibility_min");
             ("max", get wd "visibility_max");
             ("unit", VStr "meters")]);
         ("uv_index", VDict
            [("value", get wd "uv_index_avg");
             ("min", get wd "uv_index_min");
             ("max", get wd "uv_index_max")]);
         ("weather", get_default wd "weather_consensus" (VStr "Unknown"))])]).

Definition get_current_weather (e : env) : dict :=
  handle_errors e "Failed to retrieve weather data"
    (items <- query_latest e (Some 1%nat) ;;
     match items with
     | [] =>
         Ok (create_response e 404
               (VDict
                  [("error", VStr "No weather data found");
                   ("message",
                    VStr "No weather data available for the specified location")])
               None)
     | item :: _ =>
         data <- current_data e item ;;
         Ok (create_response e 200 data None)
     end).

(** ** get_historical_weather *)

(** One turn of the loop over [response['Items']]. *)
Definition history_entry (e : env) (item : dict) : outcome dict :=
  let weather_data := get_default item "weather_data" (VDict []) in
  score <- float (float_of_string e) (get_default item "data_quality_score" (VNum 0)) ;;
  wd <- as_dict weather_data ;;
  n <- len_of (get_default wd "sources" (VList [])) ;;
  Ok [("timestamp", get item "timestamp");
      ("data_quality_score", VNum score);
      ("temperature", get wd "temperature_avg");
      ("humidity", get wd "humidity_avg");
      ("pressure", get wd "pressure_avg");
      ("wind_speed", get wd "wind_speed_avg");
      ("clouds", get wd "clouds_avg");
      ("weather", get wd "weather_consensus");
      ("sources_count", VNum (num_of_nat n))].

Fixpoint history_entries (e : env) (items : list dict) : outcome (list dict) :=
  match items with
  | [] => Ok []
  | item :: items' =>
      d <- history_entry e item ;;
      ds <- history_entries e items' ;;
      Ok (d :: ds)
  end.

(** [[d[key] for d in historical_data if d.get(key)]] *)
Definition truthy_column (key : string) (historical_data : list dict)
  : list value :=
  filter truthy (map (fun d => get d key) historical_data).

(** The three entries computed for one tracked field. The numbers of a
    stored record are Decimals: their sums are exact, and a quotient is
    rounded at 28 significant digits, which [round(_, 2)] does not see. *)
Definition field_statistics (xs : list value) : outcome value :=
  if truthy (VList xs) then
    s <- sum exact xs ;;
    lo <- min xs ;;
    hi <- max xs ;;
    Ok (VDict
          [("avg", VNum (round2 (s / num_of_nat (List.length xs))));
           ("min", VNum lo);
           ("max", VNum hi)])
  else Ok (VDict [("avg", VNone); ("min", VNone); ("max", VNone)]).

Definition statistics_of (historical_data : list dict) : outcome value :=
  match historical_data with
  | [] => Ok (VDict [])
  | _ :: _ =>
      let temps := truthy_column "temperature" historical_data in
      let humidity := truthy_column "humidity" historical_data in
      let pressure := truthy_column "pressure" historical_data in
      t <- field_statistics temps ;;
      h <- field_statistics humidity ;;
      p <- field_statistics pressure ;;
      Ok (VDict [("temperature", t); ("humidity", h); ("pressure", p)])
  end.

Definition get_historical_weather (e : env) (hours : Z) : dict :=
  handle_errors e "Failed to retrieve historical data"
    (let end_time := clock e 0%nat in
     delta <- timedelta_hours hours ;;
     start_time <- datetime_sub end_time delta ;;
     items <- query_between e (isoformat e start_time) (isoformat e end_time) ;;
     match items with
     | [] =>
         Ok (create_response e 404
               (VDict
                  [("error", VStr "No historical data found");
                   ("message",
                    VStr ("No weather data available for the past "
                          ++ str_of_int hours ++ " hours"))])
               None)
     | _ :: _ =>
         historical_data <- history_entries e items ;;
         statistics <- statistics_of historical_data ;;
         Ok (create_response e 200
               (VDict
                  [("location", VStr (LOCATION e));
                   ("period", VDict
                      [("start", VStr (isoformat e start_time));
                       ("end", VStr (isoformat e end_time));
                       ("hours", VNum (inject_Z hours))]);
                   ("data_points",
                    VNum (num_of_nat (List.length historical_data)));
                   ("statistics", statistics);
                   ("history", VList (map VDict historical_data))])
               None)
     end).

(** ** get_data_sources *)

Definition source_info (name id description limit : string) : value :=
  VDict
    [("name", VStr name);
     ("id", VStr id);
     ("description", VStr description);
     ("update_frequency", VStr "Every 20 minutes");
     ("free_tier_limit", VStr limit)].

Definition get_data_sources (e : env) : dict :=
  create_response e 200
    (VDict
       [("location", VStr (LOCATION e));
        ("coordinates", VDict
           [("latitude", VNum (330462 # 10000));
            ("longitude", VNum (- (969942 # 10000)))]);
        ("available_sources", VList
           [source_info "OpenWeatherMap" "openweathermap"
              "Current weather, temperature, humidity, pressure, wind"
              "1000 calls/day";
            source_info "WeatherAPI" "weatherapi"
              "Current conditions, air quality, astronomy data"
              "1 million calls/month";
            source_info "Visual Crossing" "visualcrossing"
              "Detailed weather data, forecasts"
              "1000 records/day";
            source_info "Open-Meteo" "openmeteo"
              "Weather forecasts, historical data"
              "Unlimited (no API key required)";
            source_info "Tomorrow.io" "tomorrow_io"
              "Real-time weather, air quality"
              "500 calls/day"]);
        ("aggregation_method",
         VStr "Average values from all available sources with consensus for weather conditions");
        ("update_schedule", VStr "Every 20 minutes");
        ("data_retention", VStr "30 days")])
    None.

(** ** lambda_handler *)

(** [f'{v}'] *)
Definition format (e : env) (v : value) : string :=
  match v with
  | VStr s => s
  | _ => format_object e v
  end.

(** The router. Nothing here is inside a [try]: an exception raised while
    the query parameters are read leaves the handler. *)
Definition lambda_handler (e : env) (event : dict) : outcome dict :=
  if eq_str (get event "httpMethod") "OPTIONS" then
    Ok (create_response e 200 (VDict []) None)
  else
    let path := get_default event "path" (VStr "/") in
    let query_params :=
      let given := get_default event "queryStringParameters" (VDict []) in
      if truthy given then given else VDict [] in
    if eq_str path "/weather/current" then Ok (get_current_weather e)
    else if eq_str path "/weather/history" then
      given <- attr_get_default query_params "hours" (VNum 24) ;;
      hours <- int given ;;
      let hours := Z.min hours 168 in
      Ok (get_historical_weather e hours)
    else if eq_str path "/weather/sources" then Ok (get_data_sources e)
    else if eq_str path "/health" then Ok (health_status e)
    else
      Ok (create_response e 404
            (VDict
               [("error", VStr "Not found");
                ("message", VStr ("Path " ++ format e path ++ " not found"));
                ("available_endpoints", VList
                   [VStr "/weather/current";
                    VStr "/weather/history?hours=24";
                    VStr "/weather/sources";
                    VStr "/health"])])
            None).

End Api.

(* ================================================================== *)
(** * The vocabulary of the specification *)
(* ================================================================== *)

Module Spec.
Import Py.

Local Open Scope Q_scope.
Local Open Scope string_scope.

(** A Reading (spec section 3): every numeric field is a number or absent,
    and [weather] is a string or absent. A key that is missing and a key that
    holds [None] are both "absent": [d.get] does not tell them apart. *)
Definition numeric_or_absent (v : value) : bool :=
  match v with
  | VNone | VNum _ => true
  | _ => false
  end.

Definition text_or_absent (v : value) : bool :=
  match v with
  | VNone | VStr _ => true
  | _ => false
  end.

Definition reading (d : dict) : bool :=
  forallb (fun f => numeric_or_absent (get d f)) Collector.NUMERIC_FIELDS
  && text_or_absent (get d "weather").

(** The readings of a list that supply [field], and the numbers they supply,
    in input order. *)
Definition supplies (field : string) (d : dict) : bool :=
  negb (is_none (get d field)).

Definition supplied (field : string) (readings : list dict) : list Q :=
  flat_map (fun d => match get d field with VNum q => [q] | _ => [] end)
    readings.

Definition total (qs : list Q) : Q := fold_right Qplus 0 qs.

Definition mean (qs : list Q) : Q := total qs / num_of_nat (List.length qs).

Definition minimum_of (m : Q) (qs : list Q) : Prop :=
  (exists x, In x qs /\ x == m) /\ forall x, In x qs -> m <= x.

Definition maximum_of (m : Q) (qs : list Q) : Prop :=
  (exists x, In x qs /\ x == m) /\ forall x, In x qs -> x <= m.

(** The non-empty weather strings of a list of readings, in input order. *)
Definition weather_strings (readings : list dict) : list string :=
  flat_map
    (fun d =>
       match get d "weather" with
       | VStr s => if String.eqb s EmptyString then [] else [s]
       | _ => []
       end)
    readings.

Definition occurrences (w : string) (ws : list string) : nat :=
  count_occ string_dec ws w.

(** The fraction of a reading's declared fields (the keys of its dict) that
    hold a value. *)
Definition field_ratio (d : dict) : Q :=
  num_of_nat (List.length (filter (fun kv => negb (is_none (snd kv))) d))
  / num_of_nat (List.length d).

(** The sum of ratios as floats add them: each ratio is a float, and so is
    each partial sum, from left to right. *)
Definition rounded_total (fl : rounding) (ratios : list Q) : Q :=
  fold_left (fun acc r => fl (acc + fl r)) ratios 0.

(** [x] at two decimal places with a tie rounded up, and with a tie rounded
    down: the other two readings of "rounded to 2 decimals". *)
Definition round2_half_up (x : Q) : Q :=
  Qred (Qfloor (x * 100 + (1 # 2)) # 100).

Definition round2_half_down (x : Q) : Q :=
  Qred (Qceiling (x * 100 - (1 # 2)) # 100).

(** The four keys [aggregate_weather_data] derives from a field. *)
Definition derived_keys (field : string) : list string :=
  [field ++ "_avg"; field ++ "_min"; field ++ "_max"; field ++ "_count"].

(** Readings as section 3 of the specification types them. *)
Definition well_formed (readings : list dict) : Prop :=
  Forall (fun d => Spec.reading d = true) readings.

End Spec.

(* ================================================================== *)
(** * The collection cycle, as the properties speak of it *)
(* ================================================================== *)

Module Cycle.
Import Py Collector.

Local Open Scope Q_scope.

Definition KEYED_ADAPTERS : list string :=
  ["openweathermap"; "weatherapi"; "visualcrossing"; "tomorrow_io"]%string.

(** An adapter succeeded when its [fetch_data] returned a non-empty dict. *)
Definition succeeded (e : env) (name : string) : bool :=
  match fetch_data e name with
  | Some d => truthy (VDict d)
  | None => false
  end.

Definition started (s : state) : Prop := attempted s = [].

Definition failure_response (message : string) : dict :=
  [("statusCode"%string, VNum 500);
   ("body"%string,
    VDict
      [("error"%string, VStr "Failed to collect weather data");
       ("message"%string, VStr message)])].

Definition key_names (keys : dict) : list string :=
  ((if truthy (get keys "openweathermap") then ["openweathermap"%string] else [])
   ++ (if truthy (get keys "weatherapi") then ["weatherapi"%string] else [])
   ++ (if truthy (get keys "visualcrossing") then ["visualcrossing"%string] else [])
   ++ ["openmeteo"%string]
   ++ (if truthy (get keys "tomorrow_io") then ["tomorrow_io"%string] else []))%list.

Definition successes (e : env) (clients : list client) : list dict :=
  flat_map
    (fun c =>
       match fetch_data e (api_name c) with
       | Some d => if truthy (VDict d) then [d] else []
       | None => []
       end)
    clients.

(** The part of the cycle that follows the fetch loop. *)
Definition finish (e : env) (all_data : list dict) : M dict :=
  match all_data with
  | [] => throw (Exception "No weather data could be fetched from any API")
  | _ :: _ =>
      now <~ read_clock e ;;
      aggregated_data <~
        lift (aggregate_weather_data (float_arithmetic e) (iso now)
                (map Some all_data)) ;;
      let quality_score :=
        calculate_data_quality_score (float_arithmetic e)
          (map Some all_data) in
      _ <~ store_in_dynamodb e aggregated_data quality_score ;;
      timestamp <~ lift (subscript aggregated_data "timestamp") ;;
      ret [("statusCode"%string, VNum 200);
           ("body"%string,
            VDict
              [("message"%string, VStr "Weather data collected successfully");
               ("location"%string, VStr (LOCATION e));
               ("sources_count"%string, VNum (num_of_nat (List.length all_data)));
               ("quality_score"%string, VNum quality_score);
               ("timestamp"%string, timestamp)])]
  end.

End Cycle.

(* ================================================================== *)
(** * The read path, as the properties speak of it *)
(* ================================================================== *)

Module Read.
Import Py Api.

Local Open Scope Q_scope.

Definition status (response : dict) : value := get response "statusCode".

(** A record as the collector stores it, as far as the read path looks. *)
Definition stored_record (item : dict) : bool :=
  match get_default item "data_quality_score" (VNum 0),
        get_default item "weather_data" (VDict []) with
  | VNum _, VDict wd =>
      match get_default wd "sources" (VList []) with
      | VList _ => true
      | _ => false
      end
      && Spec.numeric_or_absent (get wd "temperature_avg")
      && Spec.numeric_or_absent (get wd "humidity_avg")
      && Spec.numeric_or_absent (get wd "pressure_avg")
  | _, _ => false
  end.

(** The two ends of the window [get_historical_weather] asks for. *)
Definition history_window (e : env) (hours : Z) : outcome (string * string) :=
  delta <- timedelta_hours hours ;;
  start_time <- datetime_sub (clock e 0%nat) delta ;;
  Ok (isoformat e start_time, isoformat e (clock e 0%nat)).

Definition in_window (e : env) (lo hi : string) (item : dict) : bool :=
  location_eq (LOCATION e) item && timestamp_between lo hi item.

(** The conditions [get_current_weather] reports as a block of value, min
    and max. *)
Definition BLOCK_FIELDS : list string :=
  ["temperature"; "feels_like"; "humidity"; "pressure"; "clouds";
   "visibility"; "uv_index"]%string.

(** What the body of a 200 of [get_current_weather] says of the item it was
    built from: the item's key, its score read as a float, its sources, and
    under each condition the average, minimum and maximum the item stores;
    the weather is the stored consensus, or "Unknown" without one. *)
Definition shows_record (item : dict) (body : value) : Prop :=
  exists data wd score conditions wind speed direction,
    body = VDict data
    /\ get_default item "weather_data" (VDict []) = VDict wd
    /\ get_default item "data_quality_score" (VNum 0) = VNum score
    /\ get data "location" = get item "location"
    /\ get data "timestamp" = get item "timestamp"
    /\ get data "data_quality_score" = VNum (binary64 score)
    /\ get data "sources" = get_default wd "sources" (VList [])
    /\ get data "current_conditions" = VDict conditions
    /\ (forall field,
          In field BLOCK_FIELDS ->
          exists block,
            get conditions field = VDict block
            /\ get block "value" = get wd (field ++ "_avg")%string
            /\ get block "min" = get wd (field ++ "_min")%string
            /\ get block "max" = get wd (field ++ "_max")%string)
    /\ get conditions "wind" = VDict wind
    /\ get wind "speed" = VDict speed
    /\ get speed "value" = get wd "wind_speed_avg"
    /\ get speed "min" = get wd "wind_speed_min"
    /\ get speed "max" = get wd "wind_speed_max"
    /\ get wind "direction" = VDict direction
    /\ get direction "value" = get wd "wind_direction_avg"
    /\ get conditions "weather"
       = get_default wd "weather_consensus" (VStr "Unknown").

(** What an entry of the history says of the item it was built from. *)
Definition lists_record (item entry : dict) : Prop :=
  exists wd score sources,
    get_default item "weather_data" (VDict []) = VDict wd
    /\ get_default item "data_quality_score" (VNum 0) = VNum score
    /\ get_default wd "sources" (VList []) = VList sources
    /\ get entry "timestamp" = get item "timestamp"
    /\ get entry "data_quality_score" = VNum (binary64 score)
    /\ get entry "temperature" = get wd "temperature_avg"
    /\ get entry "humidity" = get wd "humidity_avg"
    /\ get entry "pressure" = get wd "pressure_avg"
    /\ get entry "wind_speed" = get wd "wind_speed_avg"
    /\ get entry "clouds" = get wd "clouds_avg"
    /\ get entry "weather" = get wd "weather_consensus"
    /\ get entry "sources_count" = VNum (num_of_nat (List.length sources)).

Definition history_event (hours : value) : dict :=
  [("httpMethod"%string, VStr "GET");
   ("path"%string, VStr "/weather/history");
   ("queryStringParameters"%string, VDict [("hours"%string, hours)])].

End Read.

(* ================================================================== *)
(** * Definitions the proofs use *)
(* ================================================================== *)

Module Aux.
Import Py Collector.


Definition has_key (a : collected) (k : string) : bool :=
  existsb (fun kv => String.eqb (fst kv) k) a.

Definition present (v : value) : list value := if is_none v then [] else [v].

Definition column (field : string) (readings : list dict) : list value :=
  flat_map (fun d => present (get d field)) readings.

Definition stats_loop (fl : rounding) (aggregated : collected)
    (fields : list string) (start : outcome dict) : outcome dict :=
  fold_left (fun acc field => r <- acc ;; field_stats fl aggregated r field)
    fields start.

Definition disjoint_keys (f f' : string) : bool :=
  forallb (fun k => negb (existsb (String.eqb k) (Spec.derived_keys f')))
    (Spec.derived_keys f).

Definition tally_t : Type := list (string * nat).

Fixpoint tally_incr (c : tally_t) (x : string) : tally_t :=
  match c with
  | [] => [(x, 1%nat)]
  | (y, n) :: c' =>
      if String.eqb y x then (y, S n) :: c' else (y, n) :: tally_incr c' x
  end.

Definition tally (ws : list string) : tally_t := fold_left tally_incr ws [].

Fixpoint best_of (best : string * nat) (c : tally_t) : string * nat :=
  match c with
  | [] => best
  | item :: c' => best_of (if Nat.ltb (snd best) (snd item) then item else best) c'
  end.

Definition lift_item (p : string * nat) : value * nat := (VStr (fst p), snd p).

Fixpoint count_in (c : tally_t) (k : string) : nat :=
  match c with
  | [] => 0
  | (y, n) :: c' => if String.eqb y k then n else count_in c' k
  end.

Definition keys (c : tally_t) : list string := map fst c.

Definition result_init (now : string) (aggregated : collected)
    (valid_data : list dict) : dict :=
  [("sources"%string, VList (item aggregated "sources"));
   ("timestamp"%string, VStr now);
   ("raw_data"%string, VList (map VDict valid_data))].

Definition add_consensus (valid_data : list dict) (result : dict)
  : outcome dict :=
  let descriptions := weather_descriptions valid_data in
  if truthy (VList descriptions) then
    c <- Counter descriptions ;;
    top <- first (most_common_1 c) ;;
    Ok (set result "weather_consensus" (fst top))
  else Ok result.

End Aux.

(* ================================================================== *)
(** * Concrete readings, cycles and tables *)
(* ================================================================== *)

(* aux defs: examples *)
Module Example.
Import Py.

Local Open Scope Q_scope.
Local Open Scope string_scope.

Definition noon : string := "2024-01-15T12:00:00+00:00".

(** The readings of the example in section 8 of the specification. *)
Definition readings : list dict :=
  [[("source", VStr "a"); ("temperature", VNum 24); ("weather", VStr "Clear")];
   [("source", VStr "b"); ("temperature", VNum 26); ("weather", VStr "Clear")];
   [("source", VStr "c"); ("temperature", VNone); ("weather", VStr "Cloudy")]].

(** Four readings whose weather values tie two against two. *)
Definition tied : list dict :=
  [[("source", VStr "a"); ("weather", VStr "Cloudy")];
   [("source", VStr "b"); ("weather", VStr "Rain")];
   [("source", VStr "c"); ("weather", VStr "Cloudy")];
   [("source", VStr "d"); ("weather", VStr "Rain")]].

(** A cycle in which one credential is stored and every adapter fails. *)
Definition failing_cycle : Collector.env :=
  {| Collector.LOCATION := "lewisville-tx";
     Collector.secret := Ok (VDict [("openweathermap", VStr "key")]);
     Collector.fetch_data := fun _ => None;
     Collector.clock :=
       fun _ => {| Collector.iso := noon; Collector.epoch := 1705320000 |};
     Collector.put_item_error := None;
     Collector.float_arithmetic := binary64;
     Collector.builtin_message := fun _ => EmptyString |}.

Definition fresh : Collector.state :=
  {| Collector.table := []; Collector.attempted := []; Collector.ticks := 0 |}.

(** A stored record with the given timestamp and average temperature. *)
Definition record (timestamp : string) (temperature_avg : value) : dict :=
  [("location", VStr "lewisville-tx");
   ("timestamp", VStr timestamp);
   ("data_quality_score", VNum (8 # 10));
   ("weather_data", VDict
      [("sources", VList [VStr "openmeteo"]);
       ("temperature_avg", temperature_avg);
       ("humidity_avg", VNum 65);
       ("pressure_avg", VNum 1013)])].

(** A table read at noon on 2024-01-15; any earlier instant is printed as
    noon of the day before. *)
Definition api (rows : list dict) : Api.env :=
  {| Api.LOCATION := "lewisville-tx";
     Api.TABLE_NAME := "weather-data";
     Api.CORS_ORIGIN := "*";
     Api.rows := rows;
     Api.query_error := None;
     Api.clock := fun _ => 1705320000000000%Z;
     Api.isoformat :=
       fun t =>
         if (t <? 1705320000000000)%Z then "2024-01-14T12:00:00+00:00"
         else noon;
     Api.float_of_string := fun _ => None;
     Api.builtin_message := fun _ => EmptyString;
     Api.format_object := fun _ => EmptyString;
     Api.health_status := [] |}.

(** Three adapters that all report the double nearest to 15.395 degrees. *)
Definition agreeing : list dict :=
  [[("source", VStr "a"); ("temperature", VNum (binary64 (15395 # 1000)))];
   [("source", VStr "b"); ("temperature", VNum (binary64 (15395 # 1000)))];
   [("source", VStr "c"); ("temperature", VNum (binary64 (15395 # 1000)))]].

(** Five readings whose ratios 5/8, 1, 1/2, 1/2 and 0 have mean 0.525. *)
Definition halfway : list dict :=
  [[("source", VStr "a"); ("temperature", VNum 20); ("feels_like", VNum 19);
    ("humidity", VNum 50); ("pressure", VNum 1013); ("wind_speed", VNone);
    ("clouds", VNone); ("weather", VNone)];
   [("source", VStr "b"); ("temperature", VNum 21)];
   [("source", VStr "c"); ("temperature", VNone)];
   [("source", VStr "d"); ("temperature", VNone)];
   [("source", VNone); ("temperature", VNone)]].

(** Two readings whose ratios 3/4 and 2/5 have mean 0.575. *)
Definition uneven : list dict :=
  [[("source", VStr "a"); ("temperature", VNum 20); ("humidity", VNum 50);
    ("pressure", VNone)];
   [("source", VStr "b"); ("temperature", VNum 21); ("humidity", VNone);
    ("pressure", VNone); ("weather", VNone)]].

(** Two records of the last day, one of them at exactly 0 degrees. *)
Definition freezing : list dict :=
  [record "2024-01-15T10:00:00+00:00" (VNum 0);
   record "2024-01-15T11:00:00+00:00" (VNum 10)].

End Example.

(* ================================================================== *)
(** * weather_collector/handler.py: the provider adapters *)
(* ================================================================== *)

(** Each [fetch_data] is a [try] whose body asks the provider
    ([HTTP.get], [raise_for_status], [response.json()]) and builds a reading
    from the document, and whose [except Exception] returns [None]. The
    exchange with the provider is the [response] argument: the parsed
    document, or the exception one of the three calls raised. A JSON [true]
    or [false] is the number it is in Python ([True == 1]). *)

Module Adapters.
Import Py.

Local Open Scope Q_scope.
Local Open Scope string_scope.

(** [v[k]] for a str key: only a dict can be subscripted by a str. *)
Definition getitem (v : value) (k : string) : outcome value :=
  match v with
  | VDict d => subscript d k
  | _ => Raise TypeError
  end.

(** [v[0]]: the first element of a list, the first character of a str; a
    JSON object has no key [0]. *)
Definition getitem0 (v : value) : outcome value :=
  match v with
  | VList l => first l
  | VStr (String c _) => Ok (VStr (String c EmptyString))
  | VStr EmptyString => Raise IndexError
  | VDict _ => Raise KeyError
  | _ => Raise TypeError
  end.

Fixpoint repeat_string (s : string) (n : nat) : string :=
  match n with
  | O => EmptyString
  | S n' => s ++ repeat_string s n'
  end.

Fixpoint repeat_list {A : Type} (l : list A) (n : nat) : list A :=
  match n with
  | O => []
  | S n' => (l ++ repeat_list l n')%list
  end.

(** [v / c] for a float literal [c]: [v] must be a number. *)
Definition div_float (fl : rounding) (v : value) (c : Q) : outcome value :=
  match v with
  | VNum q => Ok (VNum (fl (q / fl c)))
  | _ => Raise TypeError
  end.

(** [v * c] for a float literal [c]: [v] must be a number. *)
Definition mul_float (fl : rounding) (v : value) (c : Q) : outcome value :=
  match v with
  | VNum q => Ok (VNum (fl (q * fl c)))
  | _ => Raise TypeError
  end.

(** [v * n] for an int literal [n]: a number is multiplied, a str or a list
    is repeated [n] times. *)
Definition mul_int (fl : rounding) (v : value) (n : nat) : outcome value :=
  match v with
  | VNum q => Ok (VNum (fl (q * num_of_nat n)))
  | VStr s => Ok (VStr (repeat_string s n))
  | VList l => Ok (VList (repeat_list l n))
  | _ => Raise TypeError
  end.

(** [codes.get(code, default)] on a dict whose keys are ints: the key must be
    hashable, and a number finds the int it is equal to. *)
Definition codes_get (codes : list (Z * string)) (code : value)
    (default : string) : outcome string :=
  match code with
  | VList _ | VDict _ => Raise TypeError
  | VNum q =>
      match find (fun kv => Qeq_bool (inject_Z (fst kv)) q) codes with
      | Some kv => Ok (snd kv)
      | None => Ok default
      end
  | _ => Ok default
  end.

(** [try: ... except Exception: return None] *)
Definition or_none {A : Type} (r : outcome A) : option A :=
  match r with
  | Ok a => Some a
  | Raise _ => None
  end.

(** ** OpenWeatherMapClient *)

Definition OpenWeatherMapClient_fetch_data (response : outcome value)
  : option dict :=
  or_none
    (data <- response ;;
     main <- getitem data "main" ;;
     temperature <- getitem main "temp" ;;
     main <- getitem data "main" ;;
     feels_like <- getitem main "feels_like" ;;
     main <- getitem data "main" ;;
     humidity <- getitem main "humidity" ;;
     main <- getitem data "main" ;;
     pressure <- getitem main "pressure" ;;
     wind <- getitem data "wind" ;;
     wind_speed <- getitem wind "speed" ;;
     wind <- getitem data "wind" ;;
     wind_direction <- attr_get wind "deg" ;;
     clouds <- getitem data "clouds" ;;
     clouds <- getitem clouds "all" ;;
     weather <- getitem data "weather" ;;
     weather0 <- getitem0 weather ;;
     weather_main <- getitem weather0 "main" ;;
     weather <- getitem data "weather" ;;
     weather0 <- getitem0 weather ;;
     description <- getitem weather0 "description" ;;
     visibility <- attr_get data "visibility" ;;
     timestamp <- getitem data "dt" ;;
     Ok [("source", VStr "openweathermap");
         ("temperature", temperature);
         ("feels_like", feels_like);
         ("humidity", humidity);
         ("pressure", pressure);
         ("wind_speed", wind_speed);
         ("wind_direction", wind_direction);
         ("clouds", clouds);
         ("weather", weather_main);
         ("description", description);
         ("visibility", visibility);
         ("timestamp", timestamp)]).

(** ** WeatherAPIComClient *)

Definition WeatherAPIComClient_fetch_data (fl : rounding)
    (response : outcome value) : option dict :=
  or_none
    (data <- response ;;
     current <- getitem data "current" ;;
     temperature <- getitem current "temp_c" ;;
     feels_like <- getitem current "feelslike_c" ;;
     humidity <- getitem current "humidity" ;;
     pressure <- getitem current "pressure_mb" ;;
     wind_kph <- getitem current "wind_kph" ;;
     wind_speed <- div_float fl wind_kph (36 # 10) ;;
     wind_direction <- getitem current "wind_degree" ;;
     clouds <- getitem current "cloud" ;;
     condition <- getitem current "condition" ;;
     weather <- getitem condition "text" ;;
     condition <- getitem current "condition" ;;
     description <- getitem condition "text" ;;
     vis_km <- getitem current "vis_km" ;;
     visibility <- mul_int fl vis_km 1000 ;;
     uv_index <- getitem current "uv" ;;
     air_quality <- attr_get_default current "air_quality" (VDict []) ;;
     Ok [("source", VStr "weatherapi");
         ("temperature", temperature);
         ("feels_like", feels_like);
         ("humidity", humidity);
         ("pressure", pressure);
         ("wind_speed", wind_speed);
         ("wind_direction", wind_direction);
         ("clouds", clouds);
         ("weather", weather);
         ("description", description);
         ("visibility", visibility);
         ("uv_index", uv_index);
         ("air_quality", air_quality)]).

(** ** VisualCrossingClient *)

(** In [data.get("currentConditions", data["days"][0])] the method is looked
    up, then the default is evaluated, then the call is made: the first day
    is read whether or not the document has current conditions. *)
Definition VisualCrossingClient_fetch_data (fl : rounding)
    (response : outcome value) : option dict :=
  or_none
    (data <- response ;;
     _ <- attr_get data "currentConditions" ;;
     days <- getitem data "days" ;;
     day <- getitem0 days ;;
     current <- attr_get_default data "currentConditions" day ;;
     temperature <- attr_get current "temp" ;;
     feels_like <- attr_get current "feelslike" ;;
     humidity <- attr_get current "humidity" ;;
     pressure <- attr_get current "pressure" ;;
     windspeed <- attr_get_default current "windspeed" (VNum 0) ;;
     wind_speed <- mul_float fl windspeed (27778 # 100000) ;;
     wind_direction <- attr_get current "winddir" ;;
     clouds <- attr_get current "cloudcover" ;;
     weather <- attr_get current "conditions" ;;
     description <- attr_get current "conditions" ;;
     visibility <- attr_get_default current "visibility" (VNum 0) ;;
     visibility <- mul_int fl visibility 1000 ;;
     uv_index <- attr_get current "uvindex" ;;
     solar_radiation <- attr_get current "solarradiation" ;;
     Ok [("source", VStr "visualcrossing");
         ("temperature", temperature);
         ("feels_like", feels_like);
         ("humidity", humidity);
         ("pressure", pressure);
         ("wind_speed", wind_speed);
         ("wind_direction", wind_direction);
         ("clouds", clouds);
         ("weather", weather);
         ("description", description);
         ("visibility", visibility);
         ("uv_index", uv_index);
         ("solar_radiation", solar_radiation)]).

(** ** OpenMeteoClient *)

Definition OPEN_METEO_CODES : list (Z * string) :=
  [(0, "Clear sky"); (1, "Mainly clear"); (2, "Partly cloudy");
   (3, "Overcast"); (45, "Fog"); (48, "Depositing rime fog");
   (51, "Light drizzle"); (53, "Moderate drizzle"); (55, "Dense drizzle");
   (61, "Slight rain"); (63, "Moderate rain"); (65, "Heavy rain");
   (71, "Slight snow"); (73, "Moderate snow"); (75, "Heavy snow");
   (77, "Snow grains"); (80, "Slight rain showers");
   (81, "Moderate rain showers"); (82, "Violent rain showers");
   (85, "Slight snow showers"); (86, "Heavy snow showers");
   (95, "Thunderstorm"); (96, "Thunderstorm with slight hail");
   (99, "Thunderstorm with heavy hail")]%Z.

Definition OpenMeteoClient_fetch_data (response : outcome value)
  : option dict :=
  or_none
    (data <- response ;;
     current <- getitem data "current" ;;
     weather_code <- attr_get_default current "weather_code" (VNum 0) ;;
     weather_desc <- codes_get OPEN_METEO_CODES weather_code "Unknown" ;;
     temperature <- attr_get current "temperature_2m" ;;
     feels_like <- attr_get current "apparent_temperature" ;;
     humidity <- attr_get current "relative_humidity_2m" ;;
     pressure <- attr_get current "pressure_msl" ;;
     wind_speed <- attr_get current "wind_speed_10m" ;;
     wind_direction <- attr_get current "wind_direction_10m" ;;
     clouds <- attr_get current "cloud_cover" ;;
     precipitation <- attr_get current "precipitation" ;;
     Ok [("source", VStr "openmeteo");
         ("temperature", temperature);
         ("feels_like", feels_like);
         ("humidity", humidity);
         ("pressure", pressure);
         ("wind_speed", wind_speed);
         ("wind_direction", wind_direction);
         ("clouds", clouds);
         ("weather", VStr weather_desc);
         ("description", VStr weather_desc);
         ("precipitation", precipitation);
         ("weather_code", weather_code)]).

(** ** TomorrowIOClient *)

Definition TOMORROW_IO_CODES : list (Z * string) :=
  [(1000, "Clear"); (1100, "Mostly Clear"); (1101, "Partly Cloudy");
   (1102, "Mostly Cloudy"); (1001, "Cloudy"); (2000, "Fog");
   (4000, "Drizzle"); (4001, "Rain"); (4200, "Light Rain");
   (4201, "Heavy Rain"); (5000, "Snow"); (5001, "Flurries");
   (5100, "Light Snow"); (5101, "Heavy Snow"); (6000, "Freezing Drizzle");
   (6001, "Freezing Rain"); (6200, "Light Freezing Rain");
   (6201, "Heavy Freezing Rain"); (7000, "Ice Pellets");
   (7101, "Heavy Ice Pellets"); (7102, "Light Ice Pellets");
   (8000, "Thunderstorm")]%Z.

Definition TomorrowIOClient_fetch_data (response : outcome value)
  : option dict :=
  or_none
    (data <- response ;;
     inner <- getitem data "data" ;;
     values <- getitem inner "values" ;;
     weather_code <- attr_get_default values "weatherCode" (VNum 1000) ;;
     weather_desc <- codes_get TOMORROW_IO_CODES weather_code "Unknown" ;;
     temperature <- attr_get values "temperature" ;;
     feels_like <- attr_get values "temperatureApparent" ;;
     humidity <- attr_get values "humidity" ;;
     pressure <- attr_get values "pressureSurfaceLevel" ;;
     wind_speed <- attr_get values "windSpeed" ;;
     wind_direction <- attr_get values "windDirection" ;;
     clouds <- attr_get values "cloudCover" ;;
     visibility <- attr_get values "visibility" ;;
     uv_index <- attr_get values "uvIndex" ;;
     precipitation_intensity <- attr_get values "precipitationIntensity" ;;
     Ok [("source", VStr "tomorrow_io");
         ("temperature", temperature);
         ("feels_like", feels_like);
         ("humidity", humidity);
         ("pressure", pressure);
         ("wind_speed", wind_speed);
         ("wind_direction", wind_direction);
         ("clouds", clouds);
         ("weather", VStr weather_desc);
         ("description", VStr weather_desc);
         ("visibility", visibility);
         ("uv_index", uv_index);
         ("precipitation_intensity", precipitation_intensity)]).

(** ** the client [lambda_handler] builds under each name *)

(** [responses name] is the exchange of the client called [name] with its
    provider. *)
Definition fetch_data (fl : rounding) (responses : string -> outcome value)
    (api_name : string) : option dict :=
  if String.eqb api_name "openweathermap" then
    OpenWeatherMapClient_fetch_data (responses api_name)
  else if String.eqb api_name "weatherapi" then
    WeatherAPIComClient_fetch_data fl (responses api_name)
  else if String.eqb api_name "visualcrossing" then
    VisualCrossingClient_fetch_data fl (responses api_name)
  else if String.eqb api_name "openmeteo" then
    OpenMeteoClient_fetch_data (responses api_name)
  else if String.eqb api_name "tomorrow_io" then
    TomorrowIOClient_fetch_data (responses api_name)
  else None.

(** The keys of the reading each adapter builds, in the order of its dict
    literal. *)
Definition reading_keys (api_name : string) : list string :=
  if String.eqb api_name "openweathermap" then
    ["source"; "temperature"; "feels_like"; "humidity"; "pressure";
     "wind_speed"; "wind_direction"; "clouds"; "weather"; "description";
     "visibility"; "timestamp"]
  else if String.eqb api_name "weatherapi" then
    ["source"; "temperature"; "feels_like"; "humidity"; "pressure";
     "wind_speed"; "wind_direction"; "clouds"; "weather"; "description";
     "visibility"; "uv_index"; "air_quality"]
  else if String.eqb api_name "visualcrossing" then
    ["source"; "temperature"; "feels_like"; "humidity"; "pressure";
     "wind_speed"; "wind_direction"; "clouds"; "weather"; "description";
     "visibility"; "uv_index"; "solar_radiation"]
  else if String.eqb api_name "openmeteo" then
    ["source"; "temperature"; "feels_like"; "humidity"; "pressure";
     "wind_speed"; "wind_direction"; "clouds"; "weather"; "description";
     "precipitation"; "weather_code"]
  else if String.eqb api_name "tomorrow_io" then
    ["source"; "temperature"; "feels_like"; "humidity"; "pressure";
     "wind_speed"; "wind_direction"; "clouds"; "weather"; "description";
     "visibility"; "uv_index"; "precipitation_intensity"]
  else [].

(** Whether the client called [api_name] came back with a reading. *)
Definition answered (fl : rounding) (responses : string -> outcome value)
    (api_name : string) : bool :=
  match fetch_data fl responses api_name with
  | Some _ => true
  | None => false
  end.

End Adapters.

(* ================================================================== *)
(** * weather_api/handler.py: get_health_status *)
(* ================================================================== *)

Module Health.
Import Py Api.

Local Open Scope Q_scope.
Local Open Scope string_scope.

(** What [datetime.fromisoformat] returns: a datetime with an offset, as an
    instant in microseconds, or a naive one. *)
Inductive parsed : Type :=
| Aware (t : Z)
| Naive (t : Z).

(** [s.replace('Z', '+00:00')] *)
Fixpoint replace_Z (s : string) : string :=
  match s with
  | EmptyString => EmptyString
  | String c s' =>
      if Ascii.eqb c "Z"%char then "+00:00" ++ replace_Z s'
      else String c (replace_Z s')
  end.

(** [v.replace('Z', '+00:00')]: only a str has the method. *)
Definition attr_replace_Z (v : value) : outcome string :=
  match v with
  | VStr s => Ok (replace_Z s)
  | _ => Raise AttributeError
  end.

(** A Python bool is the int it is equal to. *)
Definition of_bool (b : bool) : value := VNum (if b then 1 else 0).

(** Thirty minutes, in microseconds. [time_diff.total_seconds() < 1800]
    compares a whole number of microseconds, divided by 10**6 as a float,
    with 1800: the division cannot round an age below 1800 s up to it. *)
Definition FRESH : Z := 1800000000.

(** The body of the [try], up to the dict it builds: freshness and
    [last_update], or the exception met, with the number of times the clock
    was read on the way. *)
Definition freshness (e : env) (fromisoformat : string -> outcome parsed)
  : outcome (bool * value) * nat :=
  match query_latest e (Some 1%nat) with
  | Raise x => (Raise x, 0%nat)
  | Ok [] => (Ok (false, VNone), 0%nat)
  | Ok (item :: _) =>
      let last_update := get item "timestamp" in
      match (s <- attr_replace_Z last_update ;; fromisoformat s) with
      | Raise x => (Raise x, 0%nat)
      | Ok (Naive _) => (Raise TypeError, 1%nat)
      | Ok (Aware t) =>
          (Ok ((clock e 0%nat - t <? FRESH)%Z, last_update), 1%nat)
      end
  end.

Definition get_health_status (e : env)
    (fromisoformat : string -> outcome parsed) : dict :=
  match freshness e fromisoformat with
  | (Ok (data_fresh, last_update), reads) =>
      create_response e 200
        (VDict
           [("status", VStr (if data_fresh then "healthy" else "degraded"));
            ("timestamp", VStr (isoformat e (clock e reads)));
            ("location", VStr (LOCATION e));
            ("database", VDict
               [("status", VStr "connected");
                ("table", VStr (TABLE_NAME e))]);
            ("data", VDict
               [("last_update", last_update);
                ("is_fresh", of_bool data_fresh)]);
            ("version", VStr "1.0.0")])
        None
  | (Raise x, reads) =>
      create_response e 503
        (VDict
           [("status", VStr "unhealthy");
            ("error", VStr (str_exn (builtin_message e) x));
            ("timestamp", VStr (isoformat e (clock e reads)))])
        None
  end.

End Health.
(* ================================================================== *)
(** * The responses of the read API, as the properties speak of them *)
(* ================================================================== *)

Module Http.
Import Py Api.

Local Open Scope Q_scope.
Local Open Scope string_scope.

(** The headers [create_response] starts from. *)
Definition default_headers (e : env) : dict :=
  [("Content-Type", VStr "application/json");
   ("Access-Control-Allow-Origin", VStr (CORS_ORIGIN e));
   ("Access-Control-Allow-Headers",
    VStr
      "Content-Type,X-Amz-Date,Authorization,X-Api-Key,X-Amz-Security-Token");
   ("Access-Control-Allow-Methods", VStr "GET,OPTIONS")].

(** The body of the 500 that [except Exception] answers with. *)
Definition internal_error (e : env) (x : exn) : value :=
  VDict [("error", VStr "Internal server error");
         ("message", VStr (str_exn (builtin_message e) x))].

(** The three entries of one tracked field, when they are numbers. *)
Definition ordered_statistics (stats : value) : Prop :=
  exists avg lo hi,
    stats = VDict [("avg", VNum avg); ("min", VNum lo); ("max", VNum hi)]
    /\ lo <= avg <= hi.

(** A number with at most two decimals, as the collector stores its
    averages. *)
Definition two_decimals (q : Q) : Prop := round2 q == q.

End Http.

(* ================================================================== *)
(** * Provider documents and a cycle that collects them *)
(* ================================================================== *)

Module Sample.
Import Py.

Local Open Scope Q_scope.
Local Open Scope string_scope.

(** The documents the unit tests answer with. *)
Definition openweathermap_document : value :=
  VDict
    [("main", VDict [("temp", VNum (255 # 10)); ("feels_like", VNum 26);
                     ("humidity", VNum 65); ("pressure", VNum 1013)]);
     ("wind", VDict [("speed", VNum (35 # 10)); ("deg", VNum 180)]);
     ("clouds", VDict [("all", VNum 40)]);
     ("weather", VList [VDict [("main", VStr "Clouds");
                               ("description", VStr "scattered clouds")]]);
     ("visibility", VNum 10000);
     ("dt", VNum 1234567890)].

Definition weatherapi_document : value :=
  VDict
    [("current", VDict
        [("temp_c", VNum 24); ("feelslike_c", VNum 25); ("humidity", VNum 70);
         ("pressure_mb", VNum 1015); ("wind_kph", VNum 15);
         ("wind_degree", VNum 90); ("cloud", VNum 50);
         ("condition", VDict [("text", VStr "Partly cloudy")]);
         ("vis_km", VNum 10); ("uv", VNum 5);
         ("air_quality", VDict [("pm2_5", VNum (125 # 10))])])].

Definition openmeteo_document : value :=
  VDict
    [("current", VDict
        [("temperature_2m", VNum (235 # 10));
         ("apparent_temperature", VNum 24);
         ("relative_humidity_2m", VNum 60);
         ("pressure_msl", VNum 1012);
         ("wind_speed_10m", VNum 5);
         ("wind_direction_10m", VNum 270);
         ("cloud_cover", VNum 30);
         ("weather_code", VNum 2);
         ("precipitation", VNum 0)])].

(** A Visual Crossing document with current conditions and no day. *)
Definition visualcrossing_document : dict :=
  [("currentConditions", VDict
      [("temp", VNum 22); ("humidity", VNum 55);
       ("conditions", VStr "Clear")])].

(** The same conditions with a day beside them. *)
Definition visualcrossing_with_day : dict :=
  [("currentConditions", VDict
      [("temp", VNum 22); ("humidity", VNum 55);
       ("conditions", VStr "Clear")]);
   ("days", VList [VDict [("temp", VNum 21)]])].

(** An Open-Meteo document whose temperature is a string. *)
Definition openmeteo_text_document : value :=
  VDict [("current", VDict [("temperature_2m", VStr "23.5")])].

(** OpenWeatherMap and Open-Meteo answer, the other providers cannot be
    reached. *)
Definition responses (api_name : string) : outcome value :=
  if String.eqb api_name "openweathermap" then Ok openweathermap_document
  else if String.eqb api_name "openmeteo" then Ok openmeteo_document
  else Raise (OtherError "ConnectionError").

(** The same, with an Open-Meteo temperature that is a string. *)
Definition text_responses (api_name : string) : outcome value :=
  if String.eqb api_name "openmeteo" then Ok openmeteo_text_document
  else responses api_name.



(** [datetime.fromisoformat] on the timestamps of [Example.freezing]. *)
Definition fromisoformat (s : string) : outcome Health.parsed :=
  if String.eqb s "2024-01-15T11:00:00+00:00" then
    Ok (Health.Aware 1705316400000000)
  else if String.eqb s "2024-01-15T10:00:00+00:00" then
    Ok (Health.Aware 1705312800000000)
  else Raise ValueError.

(** A clock that advances by one second at each reading. *)
Definition ticking (n : nat) : Collector.instant :=
  {| Collector.iso :=
       "2024-01-15T12:00:0" ++ str_of_int (Z.of_nat n) ++ "+00:00";
     Collector.epoch := 1705320000 + Z.of_nat n |}.

(** A cycle with credentials for OpenWeatherMap and Visual Crossing. *)
Definition cycle (responses : string -> outcome value) : Collector.env :=
  {| Collector.LOCATION := "lewisville-tx";
     Collector.secret :=
       Ok (VDict [("openweathermap", VStr "test_key");
                  ("visualcrossing", VStr "test_key")]);
     Collector.fetch_data := Adapters.fetch_data binary64 responses;
     Collector.clock := ticking;
     Collector.put_item_error := None;
     Collector.float_arithmetic := binary64;
     Collector.builtin_message := fun _ => EmptyString |}.

(** A cycle whose secret is not valid JSON. *)
Definition locked : Collector.env :=
  {| Collector.LOCATION := "lewisville-tx";
     Collector.secret := Raise (OtherError "JSONDecodeError");
     Collector.fetch_data := Adapters.fetch_data binary64 responses;
     Collector.clock := ticking;
     Collector.put_item_error := None;
     Collector.float_arithmetic := binary64;
     Collector.builtin_message := fun _ => "Expecting value" |}.

(** A table read at noon on 2024-01-15, by a clock whose instants of the
    day before, of noon, and of the hours after noon are printed in their
    order. *)
Definition reader (rows : list dict) : Api.env :=
  {| Api.LOCATION := "lewisville-tx";
     Api.TABLE_NAME := "weather-data";
     Api.CORS_ORIGIN := "*";
     Api.rows := rows;
     Api.query_error := None;
     Api.clock := fun _ => 1705320000000000%Z;
     Api.isoformat :=
       fun t =>
         if (t <? 1705320000000000)%Z then "2024-01-14T12:00:00+00:00"
         else if (t =? 1705320000000000)%Z then Example.noon
         else "2024-01-15T17:00:00+00:00";
     Api.float_of_string := fun _ => None;
     Api.builtin_message := fun _ => EmptyString;
     Api.format_object := fun _ => EmptyString;
     Api.health_status := [] |}.

(** A WeatherAPI document whose wind speed is null. *)
Definition weatherapi_calm_document : dict :=
  [("current", VDict
      [("temp_c", VNum 24); ("feelslike_c", VNum 25); ("humidity", VNum 70);
       ("pressure_mb", VNum 1015); ("wind_kph", VNone)])].

End Sample.

(* ================================================================== *)
(** * Facts about the Python operations *)
(* ================================================================== *)

Module Facts.
Import Py Spec Aux.

(** ** round2 *)

Section Rounding.

Local Open Scope Q_scope.

Ltac qcompare_in H :=
  first [ apply (proj2 (Qeq_alt _ _)) in H
        | apply (proj2 (Qlt_alt _ _)) in H
        | apply (proj2 (Qgt_alt _ _)) in H ].

Lemma round_half_even_compat (x y : Q) :
  x == y -> round_half_even x = round_half_even y.
Proof.
  intros E. unfold round_half_even.
  assert (F : Qfloor x = Qfloor y) by (apply Qfloor_comp; exact E).
  rewrite F.
  assert (C : Qcompare (x - inject_Z (Qfloor y)) (1 # 2)
              = Qcompare (y - inject_Z (Qfloor y)) (1 # 2)).
  { apply Qcompare_comp; [rewrite E; reflexivity | reflexivity]. }
  rewrite C. reflexivity.
Qed.

Lemma round_half_even_low (x : Q) : inject_Z (round_half_even x) <= x + (1 # 2).
Proof.
  unfold round_half_even.
  pose proof (Qfloor_le x) as L. pose proof (Qlt_floor x) as U.
  rewrite inject_Z_plus in U. change (inject_Z 1) with 1 in U.
  destruct (Qcompare (x - inject_Z (Qfloor x)) (1 # 2)) eqn:C;
    qcompare_in C; try destruct (Z.even (Qfloor x));
    rewrite ?inject_Z_plus; change (inject_Z 1) with 1;
    generalize dependent (inject_Z (Qfloor x)); intros; lra.
Qed.

Lemma round_half_even_high (x : Q) : x - (1 # 2) <= inject_Z (round_half_even x).
Proof.
  unfold round_half_even.
  pose proof (Qfloor_le x) as L. pose proof (Qlt_floor x) as U.
  rewrite inject_Z_plus in U. change (inject_Z 1) with 1 in U.
  destruct (Qcompare (x - inject_Z (Qfloor x)) (1 # 2)) eqn:C;
    qcompare_in C; try destruct (Z.even (Qfloor x));
    rewrite ?inject_Z_plus; change (inject_Z 1) with 1;
    generalize dependent (inject_Z (Qfloor x)); intros; lra.
Qed.

Lemma round_half_even_mono (x y : Q) :
  x <= y -> (round_half_even x <= round_half_even y)%Z.
Proof.
  intros L.
  pose proof (@Qfloor_resp_le x y L) as F.
  destruct (Z.eq_dec (Qfloor x) (Qfloor y)) as [E | N].
  - unfold round_half_even. rewrite E.
    destruct (Qcompare (x - inject_Z (Qfloor y)) (1 # 2)) eqn:Cx;
      destruct (Qcompare (y - inject_Z (Qfloor y)) (1 # 2)) eqn:Cy;
      try (destruct (Z.even (Qfloor y))); try lia;
      qcompare_in Cx; qcompare_in Cy;
      exfalso; generalize dependent (inject_Z (Qfloor y)); intros; lra.
  - assert (S : (Qfloor x + 1 <= Qfloor y)%Z) by lia.
    assert (A : (round_half_even x <= Qfloor x + 1)%Z).
    { unfold round_half_even.
      destruct (Qcompare _ _); try destruct (Z.even _); lia. }
    assert (B : (Qfloor y <= round_half_even y)%Z).
    { unfold round_half_even.
      destruct (Qcompare _ _); try destruct (Z.even _); lia. }
    lia.
Qed.

Lemma round2_value (x : Q) : round2 x == inject_Z (round_half_even (x * 100)) / 100.
Proof.
  unfold round2. rewrite Qred_correct. rewrite Qmake_Qdiv. reflexivity.
Qed.

Lemma round2_compat (x y : Q) : x == y -> round2 x = round2 y.
Proof.
  intros E. unfold round2.
  rewrite (@round_half_even_compat (x * 100) (y * 100)); [reflexivity |].
  rewrite E. reflexivity.
Qed.

Lemma round2_mono (x y : Q) : x <= y -> round2 x <= round2 y.
Proof.
  intros L. rewrite !round2_value.
  assert (M : (round_half_even (x * 100) <= round_half_even (y * 100))%Z).
  { apply round_half_even_mono. lra. }
  rewrite Zle_Qle in M.
  apply Qmult_le_compat_r with (z := / 100) in M; [exact M | ].
  discriminate.
Qed.

Lemma round2_near (x : Q) : Qabs (round2 x - x) <= 1 # 200.
Proof.
  rewrite round2_value.
  pose proof (round_half_even_low (x * 100)) as L.
  pose proof (round_half_even_high (x * 100)) as H.
  generalize dependent (inject_Z (round_half_even (x * 100))). intros n L H.
  assert (E : n / 100 == n * (1 # 100)) by (unfold Qdiv; reflexivity).
  rewrite E. apply Qabs_case; intros _; lra.
Qed.

Lemma round_exact (x : Q) : round exact x = round2 x.
Proof. reflexivity. Qed.

End Rounding.

(** ** dicts, sums, minima and maxima *)

Section Numbers.

Local Open Scope Q_scope.

(** dict *)
Lemma lookup_set (d : dict) (k k' : string) (v : value) :
  lookup (set d k' v) k = if String.eqb k' k then Some v else lookup d k.
Proof.
  induction d as [| [k0 v0] d IH]; simpl.
  - destruct (String.eqb k' k); reflexivity.
  - destruct (String.eqb_spec k0 k') as [E0 | N0]; simpl.
    + rewrite E0. destruct (String.eqb k' k); reflexivity.
    + destruct (String.eqb_spec k0 k) as [E1 | N1].
      * rewrite <- E1. apply String.eqb_neq in N0.
        rewrite String.eqb_sym, N0. reflexivity.
      * exact IH.
Qed.

(** sums *)
Lemma sum_from_total (fl : rounding) (xs : list value) (qs : list Q) (acc : Q) :
  numbers xs = Ok qs -> exists s, sum_from fl acc xs = Ok s.
Proof.
  revert qs acc. induction xs as [| x xs IH]; intros qs acc H; simpl in *.
  - exists acc. reflexivity.
  - destruct x; try discriminate.
    destruct (numbers xs) as [qs' |] eqn:N; simpl in H; [| discriminate].
    apply (IH qs'). reflexivity.
Qed.

Lemma numbers_sum_from (xs : list value) (qs : list Q) (acc : Q) :
  numbers xs = Ok qs ->
  exists s, sum_from exact acc xs = Ok s /\ s == acc + Spec.total qs.
Proof.
  revert qs acc. induction xs as [| x xs IH]; intros qs acc H; simpl in *.
  - inversion H; subst. exists acc. split; [reflexivity | simpl; lra].
  - destruct x; try discriminate.
    destruct (numbers xs) as [qs' |] eqn:N; simpl in H; [| discriminate].
    inversion H; subst.
    destruct (IH qs' (exact (acc + q)) eq_refl) as [s [S1 S2]].
    exists s. split; [exact S1 |]. simpl. rewrite S2. unfold exact. lra.
Qed.

Lemma numbers_map_VNum (qs : list Q) : numbers (map VNum qs) = Ok qs.
Proof.
  induction qs as [| q qs IH]; simpl; [reflexivity |]. rewrite IH. reflexivity.
Qed.

Lemma numbers_inv (xs : list value) (qs : list Q) :
  numbers xs = Ok qs -> xs = map VNum qs.
Proof.
  revert qs. induction xs as [| x xs IH]; intros qs H; simpl in H.
  - inversion H. reflexivity.
  - destruct x; try discriminate.
    destruct (numbers xs) as [qs' |]; simpl in H; [| discriminate].
    inversion H. simpl. f_equal. apply IH. reflexivity.
Qed.

Lemma min_from_spec (qs : list Q) (cur : Q) :
  (exists x, In x (cur :: qs) /\ x == min_from cur qs)
  /\ forall x, In x (cur :: qs) -> min_from cur qs <= x.
Proof.
  revert cur. induction qs as [| q qs IH]; intros cur; simpl.
  - split.
    + exists cur. split; [left; reflexivity | reflexivity].
    + intros x [E | []]. subst. lra.
  - destruct (Qlt_le_dec q cur) as [L | L].
    + destruct (IH q) as [[x [I E]] B]. split.
      * exists x. split; [right; exact I | exact E].
      * intros y [Ey | Iy].
        -- subst y. specialize (B q (or_introl eq_refl)). lra.
        -- apply B. exact Iy.
    + destruct (IH cur) as [[x [I E]] B]. split.
      * exists x. split; [| exact E].
        destruct I as [I | I]; [left; exact I | right; right; exact I].
      * intros y [Ey | [Ey | Iy]].
        -- subst y. apply B. left. reflexivity.
        -- subst y. specialize (B cur (or_introl eq_refl)). lra.
        -- apply B. right. exact Iy.
Qed.

Lemma max_from_spec (qs : list Q) (cur : Q) :
  (exists x, In x (cur :: qs) /\ x == max_from cur qs)
  /\ forall x, In x (cur :: qs) -> x <= max_from cur qs.
Proof.
  revert cur. induction qs as [| q qs IH]; intros cur; simpl.
  - split.
    + exists cur. split; [left; reflexivity | reflexivity].
    + intros x [E | []]. subst. lra.
  - destruct (Qlt_le_dec cur q) as [L | L].
    + destruct (IH q) as [[x [I E]] B]. split.
      * exists x. split; [right; exact I | exact E].
      * intros y [Ey | Iy].
        -- subst y. specialize (B q (or_introl eq_refl)). lra.
        -- apply B. exact Iy.
    + destruct (IH cur) as [[x [I E]] B]. split.
      * exists x. split; [| exact E].
        destruct I as [I | I]; [left; exact I | right; right; exact I].
      * intros y [Ey | [Ey | Iy]].
        -- subst y. apply B. left. reflexivity.
        -- subst y. specialize (B cur (or_introl eq_refl)). lra.
        -- apply B. right. exact Iy.
Qed.

Lemma total_bounds (qs : list Q) (lo hi : Q) :
  (forall x, In x qs -> lo <= x) ->
  (forall x, In x qs -> x <= hi) ->
  num_of_nat (List.length qs) * lo <= Spec.total qs
  /\ Spec.total qs <= num_of_nat (List.length qs) * hi.
Proof.
  induction qs as [| q qs IH]; intros L H.
  - change (num_of_nat (List.length (@nil Q))) with 0. simpl. lra.
  - assert (IL : forall x, In x qs -> lo <= x) by (intros; apply L; right; assumption).
    assert (IH' : forall x, In x qs -> x <= hi) by (intros; apply H; right; assumption).
    destruct (IH IL IH') as [A B].
    specialize (L q (or_introl eq_refl)). specialize (H q (or_introl eq_refl)).
    assert (E : num_of_nat (List.length (q :: qs)) == num_of_nat (List.length qs) + 1).
    { unfold num_of_nat. simpl List.length. rewrite Nat2Z.inj_succ.
      unfold Z.succ. rewrite inject_Z_plus. reflexivity. }
    rewrite E. simpl Spec.total.
    generalize dependent (num_of_nat (List.length qs)). intros n A B E. nra.
Qed.

Lemma num_of_nat_pos (n : nat) : (0 < n)%nat -> 0 < num_of_nat n.
Proof.
  intros H. unfold num_of_nat.
  change 0 with (inject_Z 0). rewrite <- Zlt_Qlt. lia.
Qed.

Lemma mean_bounds (qs : list Q) (lo hi : Q) :
  qs <> [] ->
  (forall x, In x qs -> lo <= x) ->
  (forall x, In x qs -> x <= hi) ->
  lo <= Spec.mean qs /\ Spec.mean qs <= hi.
Proof.
  intros NE L H. destruct (@total_bounds qs lo hi L H) as [A B].
  assert (P : 0 < num_of_nat (List.length qs)).
  { apply num_of_nat_pos. destruct qs; [congruence | simpl; lia]. }
  unfold Spec.mean.
  generalize dependent (num_of_nat (List.length qs)). intros n A B P.
  split.
  - apply Qle_shift_div_l; [exact P | lra].
  - apply Qle_shift_div_r; [exact P | lra].
Qed.

Lemma numbers_length (xs : list value) (qs : list Q) :
  numbers xs = Ok qs -> List.length qs = List.length xs.
Proof.
  revert qs. induction xs as [| x xs IH]; intros qs H; simpl in H.
  - inversion H. reflexivity.
  - destruct x; try discriminate.
    destruct (numbers xs) as [qs' |]; simpl in H; [| discriminate].
    inversion H. simpl. f_equal. apply IH. reflexivity.
Qed.

End Numbers.

(** ** Decimal(str(x)) and convert_to_dynamodb_format *)

Section Decimals.

Local Open Scope Q_scope.




Lemma lookup_convert (d : dict) (k : string) :
  lookup (Collector.convert_to_dynamodb_format d) k
  = option_map Collector.convert_value (lookup d k).
Proof.
  unfold Collector.convert_to_dynamodb_format. cbn [Collector.convert_value].
  induction d as [| [k' v] d IH]; [reflexivity |].
  cbn [map lookup]. destruct (String.eqb k' k); [reflexivity | exact IH].
Qed.

Lemma get_convert (d : dict) (k : string) :
  get (Collector.convert_to_dynamodb_format d) k
  = Collector.convert_value (get d k).
Proof.
  unfold get, get_default. rewrite lookup_convert.
  destruct (lookup d k); reflexivity.
Qed.

Lemma numeric_or_absent_convert (v : value) :
  numeric_or_absent (Collector.convert_value v) = numeric_or_absent v.
Proof. destruct v; reflexivity. Qed.

Lemma convert_value_list (v : value) (l : list value) :
  v = VList l ->
  Collector.convert_value v = VList (map Collector.convert_value l).
Proof. intros ->. reflexivity. Qed.

Lemma convert_value_str (v : value) (s : string) :
  Collector.convert_value v = VStr s <-> v = VStr s.
Proof.
  split.
  - destruct v; intros H; try discriminate H; exact H.
  - intros ->. reflexivity.
Qed.

Lemma convert_value_none (v : value) :
  Collector.convert_value v = VNone <-> v = VNone.
Proof.
  split.
  - destruct v; intros H; try discriminate H; exact H.
  - intros ->. reflexivity.
Qed.

End Decimals.

(** ** the tally behind Counter and most_common *)

Section Tally.

Local Open Scope string_scope.

Lemma counter_incr_lift (c : tally_t) (x : string) :
  counter_incr (map lift_item c) (VStr x) = map lift_item (tally_incr c x).
Proof.
  induction c as [| [y n] c IH]; simpl; [reflexivity |].
  destruct (String.eqb y x); simpl; [reflexivity |].
  rewrite IH. reflexivity.
Qed.

Lemma Counter_lift_from (ws : list string) (c : tally_t) :
  fold_left
    (fun acc x =>
       bind acc (fun c =>
         if hashable x then Ok (counter_incr c x) else Raise TypeError))
    (map VStr ws) (Ok (map lift_item c))
  = Ok (map lift_item (fold_left tally_incr ws c)).
Proof.
  revert c. induction ws as [| w ws IH]; intros c; simpl; [reflexivity |].
  rewrite counter_incr_lift. apply IH.
Qed.

Lemma Counter_lift (ws : list string) :
  Counter (map VStr ws) = Ok (map lift_item (tally ws)).
Proof. exact (Counter_lift_from ws []). Qed.

Lemma max_by_count_lift (c : tally_t) (best : string * nat) :
  max_by_count (lift_item best) (map lift_item c) = lift_item (best_of best c).
Proof.
  revert best. induction c as [| item c IH]; intros best; simpl; [reflexivity |].
  destruct (Nat.ltb (snd best) (snd item)); apply IH.
Qed.

Lemma keys_tally_incr (c : tally_t) (x : string) :
  (In x (keys c) /\ keys (tally_incr c x) = keys c) \/
  (~ In x (keys c) /\ tally_incr c x = (c ++ [(x, 1%nat)])%list).
Proof.
  induction c as [| [y n] c IH]; simpl.
  - right. split; [tauto | reflexivity].
  - destruct (String.eqb_spec y x) as [E | N]; simpl.
    + left. split; [left; exact E | reflexivity].
    + destruct IH as [[I IH] | [NI IH]].
      * left. split; [right; exact I |]. unfold keys in *. rewrite IH. reflexivity.
      * right. split; [intros [A | A]; contradiction |]. rewrite IH. reflexivity.
Qed.

Lemma keys_snoc (c : tally_t) (x : string) (n : nat) :
  keys (c ++ [(x, n)])%list = (keys c ++ [x])%list.
Proof. unfold keys. rewrite map_app. reflexivity. Qed.

Lemma keys_tally_incr_in (c : tally_t) (x k : string) :
  In k (keys (tally_incr c x)) <-> In k (keys c) \/ k = x.
Proof.
  destruct (keys_tally_incr c x) as [[I K] | [N K]]; rewrite K.
  - split; [tauto |]. intros [A | A]; [exact A | subst k; exact I].
  - rewrite keys_snoc, in_app_iff. simpl. intuition.
Qed.

Lemma keys_fold_in (ws : list string) (c : tally_t) (k : string) :
  In k (keys (fold_left tally_incr ws c)) <-> In k (keys c) \/ In k ws.
Proof.
  revert c. induction ws as [| w ws IH]; intros c; simpl; [tauto |].
  rewrite IH, keys_tally_incr_in. intuition.
Qed.

Lemma keys_fold_prefix (ws : list string) (c : tally_t) :
  exists extra, keys (fold_left tally_incr ws c) = (keys c ++ extra)%list.
Proof.
  revert c. induction ws as [| w ws IH]; intros c; simpl.
  - exists []. rewrite app_nil_r. reflexivity.
  - destruct (IH (tally_incr c w)) as [extra E].
    destruct (keys_tally_incr c w) as [[_ K] | [_ K]].
    + exists extra. rewrite E, K. reflexivity.
    + exists (w :: extra). rewrite E, K, keys_snoc, <- app_assoc. reflexivity.
Qed.

Lemma keys_tally_incr_NoDup (c : tally_t) (x : string) :
  NoDup (keys c) -> NoDup (keys (tally_incr c x)).
Proof.
  intros ND. destruct (keys_tally_incr c x) as [[_ K] | [N K]]; rewrite K.
  - exact ND.
  - rewrite keys_snoc. apply NoDup_app; [exact ND | constructor; [tauto | constructor] |].
    intros a Ia [E | []]. subst a. contradiction.
Qed.

Lemma keys_fold_NoDup (ws : list string) (c : tally_t) :
  NoDup (keys c) -> NoDup (keys (fold_left tally_incr ws c)).
Proof.
  revert c. induction ws as [| w ws IH]; intros c ND; simpl; [exact ND |].
  apply IH, keys_tally_incr_NoDup, ND.
Qed.

Lemma count_in_tally_incr (c : tally_t) (x k : string) :
  count_in (tally_incr c x) k
  = (count_in c k + if String.eqb x k then 1 else 0)%nat.
Proof.
  induction c as [| [y n] c IH]; simpl.
  - destruct (String.eqb x k); reflexivity.
  - destruct (String.eqb_spec y x) as [E | N]; simpl.
    + subst y. destruct (String.eqb x k); lia.
    + destruct (String.eqb_spec y k) as [E' | N'].
      * subst y. destruct (String.eqb_spec x k); [congruence | lia].
      * exact IH.
Qed.

Lemma count_in_fold (ws : list string) (c : tally_t) (k : string) :
  count_in (fold_left tally_incr ws c) k
  = (count_in c k + Spec.occurrences k ws)%nat.
Proof.
  revert c. induction ws as [| w ws IH]; intros c; simpl.
  - unfold Spec.occurrences. simpl. lia.
  - rewrite IH, count_in_tally_incr. unfold Spec.occurrences. simpl.
    destruct (string_dec w k) as [E | N].
    + subst w. rewrite String.eqb_refl. lia.
    + apply String.eqb_neq in N. rewrite N. lia.
Qed.

Lemma count_in_entry (c : tally_t) (k : string) (n : nat) :
  NoDup (keys c) -> In (k, n) c -> count_in c k = n.
Proof.
  induction c as [| [y m] c IH]; simpl; intros ND I; [destruct I |].
  inversion ND as [| ? ? NI ND']; subst.
  destruct I as [E | I].
  - inversion E; subst. rewrite String.eqb_refl. reflexivity.
  - destruct (String.eqb_spec y k) as [E | N].
    + subst y. exfalso. apply NI. apply (in_map fst) in I. exact I.
    + apply IH; assumption.
Qed.

Lemma tally_entry (ws : list string) (k : string) (n : nat) :
  In (k, n) (tally ws) -> n = Spec.occurrences k ws /\ In k ws.
Proof.
  intros I. split.
  - rewrite <- (@count_in_entry (tally ws) k n).
    + unfold tally. rewrite count_in_fold. reflexivity.
    + apply keys_fold_NoDup. constructor.
    + exact I.
  - apply (in_map fst) in I. change (In k (keys (tally ws))) in I.
    unfold tally in I. rewrite keys_fold_in in I. destruct I as [[] | I]. exact I.
Qed.

Lemma tally_has (ws : list string) (k : string) :
  In k ws -> In (k, Spec.occurrences k ws) (tally ws).
Proof.
  intros I.
  assert (K : In k (keys (tally ws))).
  { unfold tally. rewrite keys_fold_in. right. exact I. }
  unfold keys in K. apply in_map_iff in K. destruct K as [[k' n] [E K]].
  simpl in E. subst k'.
  destruct (@tally_entry ws k n K) as [E _]. subst n. exact K.
Qed.

Lemma best_of_spec (c : tally_t) (best : string * nat) :
  exists c1 c2,
    (best :: c = c1 ++ best_of best c :: c2)%list
    /\ (forall item, In item c1 -> (snd item < snd (best_of best c))%nat)
    /\ (forall item, In item c2 -> (snd item <= snd (best_of best c))%nat).
Proof.
  revert best. induction c as [| x c IH]; intros best; simpl.
  - exists [], []. repeat split; intros item [].
  - destruct (Nat.ltb_spec (snd best) (snd x)) as [L | L].
    + destruct (IH x) as [c1 [c2 [E [A B]]]].
      exists (best :: c1), c2. repeat split.
      * simpl. rewrite <- E. reflexivity.
      * intros item [I | I]; [| apply A, I]. subst item.
        destruct c1 as [| y c1].
        -- simpl in E. injection E as E1 E2. rewrite <- E1. exact L.
        -- simpl in E. injection E as E1 E2. subst y.
           specialize (A x (or_introl eq_refl)). lia.
      * exact B.
    + destruct (IH best) as [c1 [c2 [E [A B]]]].
      destruct c1 as [| y c1].
      * simpl in E. injection E as E1 E2. exists [], (x :: c2).
        repeat split.
        -- simpl. rewrite <- E1, E2. reflexivity.
        -- intros item [].
        -- intros item [I | I]; [subst item; rewrite <- E1; exact L |].
           rewrite <- E1. rewrite <- E1 in B. apply B, I.
      * simpl in E. injection E as E1 E2. subst y.
        exists (best :: x :: c1), c2. repeat split.
        -- simpl. f_equal. f_equal. exact E2.
        -- intros item [I | [I | I]].
           ++ subst item. apply A. left. reflexivity.
           ++ subst item. specialize (A best (or_introl eq_refl)). lia.
           ++ apply A. right. exact I.
        -- exact B.
Qed.

Lemma first_occurrence (ws : list string) (w : string) :
  In w ws -> exists pre post, ws = (pre ++ w :: post)%list /\ ~ In w pre.
Proof.
  induction ws as [| x ws IH]; intros I; [destruct I |].
  destruct (string_dec x w) as [E | N].
  - subst x. exists [], ws. split; [reflexivity | tauto].
  - destruct I as [E | I]; [contradiction |].
    destruct (IH I) as [pre [post [E NI]]].
    exists (x :: pre), post. split; [simpl; rewrite E; reflexivity |].
    intros [A | A]; [contradiction | exact (NI A)].
Qed.

Lemma split_unique (a a' b b' : tally_t) (x x' : string * nat) :
  NoDup (keys (a ++ x :: b)%list) ->
  (a ++ x :: b = a' ++ x' :: b')%list ->
  fst x = fst x' ->
  a = a'.
Proof.
  revert a'. induction a as [| y a IH]; intros a' ND E F.
  - destruct a' as [| y' a']; [reflexivity |].
    simpl in E. injection E as E1 E2. exfalso.
    simpl in ND. apply NoDup_cons_iff in ND. destruct ND as [NI _].
    apply NI. rewrite E2. unfold keys. rewrite map_app. apply in_or_app.
    right. left. symmetry. exact F.
  - destruct a' as [| y' a'].
    + simpl in E. injection E as E1 E2. exfalso.
      simpl in ND. apply NoDup_cons_iff in ND. destruct ND as [NI _].
      apply NI. unfold keys. rewrite map_app. apply in_or_app.
      right. left. rewrite F, E1. reflexivity.
    + simpl in E. injection E as E1 E2. subst y'. f_equal.
      apply (IH a'); [| exact E2 | exact F].
      simpl in ND. apply NoDup_cons_iff in ND. tauto.
Qed.

(** The value [most_common(1)] picks from the tally of [ws]. *)
Lemma tally_first_maximum (ws : list string) (item : string * nat)
    (rest : tally_t) :
  tally ws = item :: rest ->
  let w := fst (best_of item rest) in
  In w ws
  /\ (forall v, (Spec.occurrences v ws <= Spec.occurrences w ws)%nat)
  /\ exists pre post,
       ws = (pre ++ w :: post)%list /\ ~ In w pre
       /\ forall v, In v pre ->
            (Spec.occurrences v ws < Spec.occurrences w ws)%nat.
Proof.
  intros T w.
  destruct (best_of_spec rest item) as [c1 [c2 [E [A B]]]].
  rewrite <- T in E.
  assert (ND : NoDup (keys (tally ws))) by (apply keys_fold_NoDup; constructor).
  assert (Iw : In (best_of item rest) (tally ws)).
  { rewrite E. apply in_or_app. right. left. reflexivity. }
  destruct (best_of item rest) as [w' n] eqn:Bo. simpl in w. subst w.
  destruct (@tally_entry ws w' n Iw) as [N W]. simpl in A, B.
  assert (Max : forall v, (Spec.occurrences v ws <= Spec.occurrences w' ws)%nat).
  { intros v. destruct (in_dec string_dec v ws) as [I | NI].
    - pose proof (@tally_has ws v I) as H. rewrite E in H.
      apply in_app_or in H. destruct H as [H | [H | H]].
      + specialize (A _ H). simpl in A. lia.
      + inversion H; subst. lia.
      + specialize (B _ H). simpl in B. lia.
    - unfold Spec.occurrences.
      rewrite (proj1 (count_occ_not_In string_dec ws v) NI). lia. }
  split; [exact W |]. split; [exact Max |].
  destruct (@first_occurrence ws w' W) as [pre [post [S NI]]].
  exists pre, post. split; [exact S |]. split; [exact NI |].
  intros v V.
  (* the entry of [v] lies before the entry of [w'] *)
  assert (P : exists extra, keys (tally ws) = (keys (tally pre) ++ w' :: extra)%list).
  { unfold tally at 1. rewrite S, fold_left_app. simpl.
    destruct (keys_tally_incr (fold_left tally_incr pre []) w') as [[I _] | [_ K]].
    - exfalso. apply NI. rewrite keys_fold_in in I. destruct I as [[] | I]. exact I.
    - rewrite K.
      destruct (keys_fold_prefix post (fold_left tally_incr pre [] ++ [(w', 1%nat)])%list)
        as [extra X].
      exists extra. rewrite X, keys_snoc, <- app_assoc. reflexivity. }
  destruct P as [extra P].
  unfold keys in P at 1. apply map_eq_app in P.
  destruct P as [cA [cB' [S1 [KA KB]]]].
  apply map_eq_cons in KB. destruct KB as [x [cB [S2 [Fx _]]]]. subst cB'.
  assert (Same : cA = c1).
  { apply (@split_unique cA c1 cB c2 x (w', n)).
    - rewrite <- S1. exact ND.
    - rewrite <- S1. exact E.
    - exact Fx. }
  subst cA.
  assert (Vk : In v (keys (tally pre))).
  { unfold tally. rewrite keys_fold_in. right. exact V. }
  rewrite <- KA in Vk. apply in_map_iff in Vk. destruct Vk as [[v' m] [Ev Vk]].
  simpl in Ev. subst v'.
  assert (Vt : In (v, m) (tally ws)).
  { rewrite E. apply in_or_app. left. exact Vk. }
  destruct (@tally_entry ws v m Vt) as [M _].
  specialize (A _ Vk). simpl in A. lia.
Qed.

End Tally.

End Facts.

(* ================================================================== *)
(** * Properties of weather_collector/handler.py *)
(* ================================================================== *)

Module CollectorFacts.
Import Py Collector Spec Aux Cycle Facts.

(** ** the collecting loop *)

Section Collecting.

Local Open Scope Q_scope.
Local Open Scope string_scope.

Lemma item_append_to_other (a : collected) (k k' : string) (v : value) :
  k <> k' -> item (append_to a k v) k' = item a k'.
Proof.
  intros N. induction a as [| [k0 xs] a IH]; simpl; [reflexivity |].
  destruct (String.eqb_spec k0 k) as [E | D]; simpl.
  - subst k0. destruct (String.eqb_spec k k'); [contradiction | reflexivity].
  - rewrite IH. reflexivity.
Qed.

Lemma item_append_to_same (a : collected) (k : string) (v : value) :
  has_key a k = true -> item (append_to a k v) k = (item a k ++ [v])%list.
Proof.
  induction a as [| [k0 xs] a IH]; simpl; [discriminate |].
  destruct (String.eqb_spec k0 k) as [E | D]; simpl.
  - intros _. subst k0. rewrite String.eqb_refl. reflexivity.
  - intros H. destruct (String.eqb_spec k0 k); [contradiction |]. apply IH, H.
Qed.

Lemma has_key_append_to (a : collected) (k k' : string) (v : value) :
  has_key (append_to a k v) k' = has_key a k'.
Proof.
  induction a as [| [k0 xs] a IH]; simpl; [reflexivity |].
  destruct (String.eqb_spec k0 k); simpl; [reflexivity |].
  rewrite IH. reflexivity.
Qed.

Lemma has_key_collect_field (data : dict) (a : collected) (f k : string) :
  has_key (collect_field data a f) k = has_key a k.
Proof.
  unfold collect_field. destruct (is_none (get data f)); [reflexivity |].
  apply has_key_append_to.
Qed.

Lemma has_key_collect_fields (data : dict) (fs : list string) (a : collected)
    (k : string) :
  has_key (fold_left (collect_field data) fs a) k = has_key a k.
Proof.
  revert a. induction fs as [| f fs IH]; intros a; simpl; [reflexivity |].
  rewrite IH. apply has_key_collect_field.
Qed.

Lemma item_collect_fields_other (data : dict) (fs : list string)
    (a : collected) (k : string) :
  ~ In k fs -> item (fold_left (collect_field data) fs a) k = item a k.
Proof.
  revert a. induction fs as [| f fs IH]; intros a N; simpl; [reflexivity |].
  rewrite IH by (intros I; apply N; right; exact I).
  unfold collect_field. destruct (is_none (get data f)); [reflexivity |].
  apply item_append_to_other. intros E. apply N. left. exact E.
Qed.

Lemma item_collect_fields (data : dict) (fs : list string) (a : collected)
    (k : string) :
  NoDup fs -> In k fs -> has_key a k = true ->
  item (fold_left (collect_field data) fs a) k
  = (item a k ++ present (get data k))%list.
Proof.
  revert a. induction fs as [| f fs IH]; intros a ND I K; [destruct I |].
  inversion ND as [| ? ? NI ND']; subst. simpl.
  destruct (string_dec f k) as [E | D].
  - subst f. rewrite item_collect_fields_other by exact NI.
    unfold collect_field, present. destruct (is_none (get data k)).
    + rewrite app_nil_r. reflexivity.
    + apply item_append_to_same, K.
  - destruct I as [E | I]; [contradiction |].
    rewrite IH; [| exact ND' | exact I | rewrite has_key_collect_field; exact K].
    f_equal. unfold collect_field. destruct (is_none (get data f)); [reflexivity |].
    apply item_append_to_other, D.
Qed.

Lemma NUMERIC_FIELDS_NoDup : NoDup NUMERIC_FIELDS.
Proof.
  unfold NUMERIC_FIELDS.
  repeat (constructor; [simpl; intuition discriminate |]). constructor.
Qed.

Lemma sources_not_numeric : ~ In "sources" NUMERIC_FIELDS.
Proof. simpl. intuition discriminate. Qed.

Lemma has_key_collect_point (a : collected) (data : dict) (k : string) :
  has_key (collect_point a data) k = has_key a k.
Proof.
  unfold collect_point. rewrite has_key_collect_fields. apply has_key_append_to.
Qed.

Lemma item_collect_point (a : collected) (data : dict) (f : string) :
  In f NUMERIC_FIELDS -> has_key a f = true ->
  item (collect_point a data) f = (item a f ++ present (get data f))%list.
Proof.
  intros I K. unfold collect_point.
  rewrite item_collect_fields;
    [| exact NUMERIC_FIELDS_NoDup | exact I | rewrite has_key_append_to; exact K].
  f_equal. apply item_append_to_other.
  intros E. subst f. exact (sources_not_numeric I).
Qed.

Lemma item_collect_point_sources (a : collected) (data : dict) :
  has_key a "sources" = true ->
  item (collect_point a data) "sources"
  = (item a "sources" ++ [get data "source"])%list.
Proof.
  intros K. unfold collect_point.
  rewrite item_collect_fields_other by exact sources_not_numeric.
  apply item_append_to_same, K.
Qed.

Lemma item_collect_all (readings : list dict) (a : collected) (f : string) :
  In f NUMERIC_FIELDS -> has_key a f = true ->
  item (fold_left collect_point readings a) f
  = (item a f ++ column f readings)%list.
Proof.
  intros I. revert a. induction readings as [| d ds IH]; intros a K; simpl.
  - rewrite app_nil_r. reflexivity.
  - rewrite IH by (rewrite has_key_collect_point; exact K).
    rewrite item_collect_point by assumption.
    rewrite <- app_assoc. reflexivity.
Qed.

Lemma item_collect_all_sources (readings : list dict) (a : collected) :
  has_key a "sources" = true ->
  item (fold_left collect_point readings a) "sources"
  = (item a "sources" ++ map (fun d => get d "source") readings)%list.
Proof.
  revert a. induction readings as [| d ds IH]; intros a K; simpl.
  - rewrite app_nil_r. reflexivity.
  - rewrite IH by (rewrite has_key_collect_point; exact K).
    rewrite item_collect_point_sources by assumption.
    rewrite <- app_assoc. reflexivity.
Qed.

Lemma has_key_init (f : string) :
  In f NUMERIC_FIELDS -> has_key aggregated_init f = true.
Proof.
  intros I. simpl in I.
  repeat (destruct I as [E | I]; [subst f; reflexivity |]). destruct I.
Qed.

Lemma item_all_empty (a : collected) (k : string) :
  Forall (fun kv => snd kv = []) a -> item a k = [].
Proof.
  induction 1 as [| [k0 xs] a E _ IH]; simpl; [reflexivity |].
  destruct (String.eqb k0 k); [exact E | exact IH].
Qed.

Lemma item_init (k : string) : item aggregated_init k = [].
Proof.
  apply item_all_empty. unfold aggregated_init.
  repeat (constructor; [reflexivity |]). constructor.
Qed.

Lemma aggregated_field (readings : list dict) (f : string) :
  In f NUMERIC_FIELDS ->
  item (fold_left collect_point readings aggregated_init) f = column f readings.
Proof.
  intros I. rewrite item_collect_all; [| exact I | apply has_key_init, I].
  rewrite item_init. reflexivity.
Qed.

Lemma aggregated_sources (readings : list dict) :
  item (fold_left collect_point readings aggregated_init) "sources"
  = map (fun d => get d "source") readings.
Proof.
  rewrite item_collect_all_sources by reflexivity.
  rewrite item_init. reflexivity.
Qed.

End Collecting.

(** ** the statistics loop *)

Section StatisticsLoop.

Local Open Scope Q_scope.
Local Open Scope string_scope.

Lemma eqb_append_l (f a b : string) :
  String.eqb (f ++ a) (f ++ b) = String.eqb a b.
Proof.
  induction f as [| c f IH]; simpl; [reflexivity |].
  rewrite Ascii.eqb_refl. exact IH.
Qed.

Lemma stats_loop_raise (fl : rounding) (agg : collected) (fs : list string) (e : exn) :
  stats_loop fl agg fs (Raise e) = Raise e.
Proof. induction fs as [| f fs IH]; simpl; [reflexivity | exact IH]. Qed.

Lemma stats_loop_cons (fl : rounding) (agg : collected) (f : string) (fs : list string)
    (r : dict) :
  stats_loop fl agg (f :: fs) (Ok r) = stats_loop fl agg fs (field_stats fl agg r f).
Proof. reflexivity. Qed.

Lemma stats_loop_app (fl : rounding) (agg : collected) (pre post : list string)
    (start : outcome dict) :
  stats_loop fl agg (pre ++ post) start
  = stats_loop fl agg post (stats_loop fl agg pre start).
Proof. unfold stats_loop. apply fold_left_app. Qed.

(** What [field_stats] does when the collected values are numbers. *)
Lemma field_stats_empty (fl : rounding) (agg : collected) (r : dict) (f : string) :
  item agg f = [] -> field_stats fl agg r f = Ok r.
Proof. intros E. unfold field_stats. rewrite E. reflexivity. Qed.

Lemma field_stats_numbers (fl : rounding) (agg : collected) (r : dict)
    (f : string) (q : Q) (qs : list Q) :
  numbers (item agg f) = Ok (q :: qs) ->
  exists s,
    sum fl (item agg f) = Ok s /\
    field_stats fl agg r f
    = Ok (set
            (set
               (set
                  (set r (f ++ "_avg")
                     (VNum (round fl
                              (fl (s / num_of_nat (List.length (item agg f)))))))
                  (f ++ "_min") (VNum (round fl (min_from q qs))))
               (f ++ "_max") (VNum (round fl (max_from q qs))))
            (f ++ "_count") (VNum (num_of_nat (List.length (item agg f))))).
Proof.
  intros N. unfold field_stats.
  destruct (@sum_from_total fl (item agg f) (q :: qs) 0 N) as [s S].
  exists s. split; [exact S |].
  assert (T : truthy (VList (item agg f)) = true).
  { destruct (item agg f); [discriminate N | reflexivity]. }
  rewrite T. unfold sum in *. unfold min, max. rewrite S, N. reflexivity.
Qed.

Lemma field_stats_total (fl : rounding) (agg : collected) (r : dict) (f : string)
    (qs : list Q) :
  numbers (item agg f) = Ok qs -> exists r', field_stats fl agg r f = Ok r'.
Proof.
  intros N. destruct qs as [| q qs].
  - exists r. apply field_stats_empty.
    apply numbers_length in N. destruct (item agg f); [reflexivity | discriminate].
  - destruct (@field_stats_numbers fl agg r f q qs N) as [s [_ E]]. eexists. exact E.
Qed.

Lemma field_stats_other (fl : rounding) (agg : collected) (r r' : dict) (f k : string) :
  field_stats fl agg r f = Ok r' ->
  ~ In k (Spec.derived_keys f) ->
  lookup r' k = lookup r k.
Proof.
  unfold field_stats. intros H N.
  assert (A : String.eqb (f ++ "_avg") k = false).
  { apply String.eqb_neq. intros E. apply N. simpl. auto. }
  assert (B : String.eqb (f ++ "_min") k = false).
  { apply String.eqb_neq. intros E. apply N. simpl. auto. }
  assert (C : String.eqb (f ++ "_max") k = false).
  { apply String.eqb_neq. intros E. apply N. simpl. auto. }
  assert (D : String.eqb (f ++ "_count") k = false).
  { apply String.eqb_neq. intros E. apply N. simpl. auto. }
  destruct (truthy (VList (item agg f))).
  - destruct (sum fl (item agg f)); simpl in H; [| discriminate].
    destruct (min (item agg f)); simpl in H; [| discriminate].
    destruct (max (item agg f)); simpl in H; [| discriminate].
    inversion H; subst r'.
    rewrite !lookup_set, A, B, C, D. reflexivity.
  - inversion H. reflexivity.
Qed.

Lemma stats_loop_other (fl : rounding) (agg : collected) (fs : list string) (r0 r : dict)
    (k : string) :
  (forall f, In f fs -> ~ In k (Spec.derived_keys f)) ->
  stats_loop fl agg fs (Ok r0) = Ok r ->
  lookup r k = lookup r0 k.
Proof.
  revert r0. induction fs as [| f fs IH]; intros r0 N H.
  - inversion H. reflexivity.
  - rewrite stats_loop_cons in H.
    destruct (field_stats fl agg r0 f) as [r1 |] eqn:F.
    + rewrite (@IH r1); [| intros; apply N; right; assumption | exact H].
      eapply field_stats_other; [exact F | apply N; left; reflexivity].
    + rewrite stats_loop_raise in H. discriminate.
Qed.

Lemma stats_loop_total (fl : rounding) (agg : collected) (fs : list string) (r0 : dict) :
  (forall f, In f fs -> exists qs, numbers (item agg f) = Ok qs) ->
  exists r, stats_loop fl agg fs (Ok r0) = Ok r.
Proof.
  revert r0. induction fs as [| f fs IH]; intros r0 W.
  - exists r0. reflexivity.
  - destruct (W f (or_introl eq_refl)) as [qs N].
    destruct (@field_stats_total fl agg r0 f qs N) as [r1 F].
    rewrite stats_loop_cons, F. apply IH. intros; apply W; right; assumption.
Qed.

Lemma stats_loop_split (fl : rounding) (agg : collected) (pre post : list string) (f : string)
    (r0 r : dict) :
  stats_loop fl agg (pre ++ f :: post) (Ok r0) = Ok r ->
  exists r1 r2,
    stats_loop fl agg pre (Ok r0) = Ok r1
    /\ field_stats fl agg r1 f = Ok r2
    /\ stats_loop fl agg post (Ok r2) = Ok r.
Proof.
  rewrite stats_loop_app. intros H.
  destruct (stats_loop fl agg pre (Ok r0)) as [r1 |] eqn:P.
  - rewrite stats_loop_cons in H.
    destruct (field_stats fl agg r1 f) as [r2 |] eqn:F.
    + exists r1, r2. auto.
    + rewrite stats_loop_raise in H. discriminate.
  - rewrite stats_loop_raise in H. discriminate.
Qed.

(** Two different fields derive different keys. *)
Lemma derived_keys_disjoint :
  forallb
    (fun f =>
       forallb (fun f' => String.eqb f f' || disjoint_keys f f') NUMERIC_FIELDS)
    NUMERIC_FIELDS = true.
Proof. vm_compute. reflexivity. Qed.

Lemma derived_keys_apart (f f' k : string) :
  In f NUMERIC_FIELDS -> In f' NUMERIC_FIELDS -> f <> f' ->
  In k (Spec.derived_keys f) -> ~ In k (Spec.derived_keys f').
Proof.
  intros I I' N K K'.
  pose proof derived_keys_disjoint as D.
  rewrite forallb_forall in D. specialize (D f I).
  rewrite forallb_forall in D. specialize (D f' I').
  apply orb_true_iff in D. destruct D as [E | D].
  - apply String.eqb_eq in E. contradiction.
  - unfold disjoint_keys in D. rewrite forallb_forall in D.
    specialize (D k K). apply negb_true_iff in D.
    assert (T : existsb (String.eqb k) (Spec.derived_keys f') = true).
    { apply existsb_exists. exists k. split; [exact K' | apply String.eqb_refl]. }
    congruence.
Qed.

(** The loop over the numeric fields, seen from one field. *)
Lemma stats_loop_field (fl : rounding) (agg : collected) (r0 r : dict) (f k : string) :
  In f NUMERIC_FIELDS ->
  In k (Spec.derived_keys f) ->
  stats_loop fl agg NUMERIC_FIELDS (Ok r0) = Ok r ->
  exists r1 r2,
    lookup r1 k = lookup r0 k
    /\ field_stats fl agg r1 f = Ok r2
    /\ lookup r k = lookup r2 k.
Proof.
  intros I K H.
  destruct (in_split f NUMERIC_FIELDS I) as [pre [post E]].
  assert (ND : NoDup (pre ++ f :: post)).
  { rewrite <- E. exact NUMERIC_FIELDS_NoDup. }
  assert (Apart : forall f', In f' (pre ++ post) -> ~ In k (Spec.derived_keys f')).
  { intros f' I'.
    apply (@derived_keys_apart f f' k); try assumption.
    - rewrite E. apply in_app_iff. apply in_app_iff in I'.
      destruct I'; [left | right; right]; assumption.
    - intros Eq. subst f'. apply NoDup_remove_2 in ND. contradiction. }
  rewrite E in H. apply stats_loop_split in H.
  destruct H as [r1 [r2 [P [F Q]]]].
  exists r1, r2. repeat split.
  - eapply stats_loop_other; [| exact P].
    intros f' I'. apply Apart, in_app_iff. left. exact I'.
  - exact F.
  - eapply stats_loop_other; [| exact Q].
    intros f' I'. apply Apart, in_app_iff. right. exact I'.
Qed.

End StatisticsLoop.

(** ** the shape of the aggregated record *)

Section Aggregate.

Local Open Scope Q_scope.

Lemma not_none_map_Some (l : list dict) : not_none (map Some l) = l.
Proof.
  induction l as [| d l IH]; [reflexivity |].
  unfold not_none in *. simpl. rewrite IH. reflexivity.
Qed.

Lemma aggregate_unfold (fl : rounding) (now : string) (dps : list (option dict))
    (d : dict) (ds : list dict) :
  not_none dps = d :: ds ->
  aggregate_weather_data fl now dps
  = (result <-
       stats_loop fl (fold_left collect_point (d :: ds) aggregated_init)
         NUMERIC_FIELDS
         (Ok (result_init now (fold_left collect_point (d :: ds) aggregated_init)
                (d :: ds))) ;;
     add_consensus (d :: ds) result).
Proof.
  intros H. unfold aggregate_weather_data.
  destruct dps as [| p dps]; [discriminate H |].
  rewrite H. reflexivity.
Qed.

Lemma aggregate_no_readings (fl : rounding) (now : string) (dps : list (option dict)) :
  not_none dps = [] -> aggregate_weather_data fl now dps = Ok [].
Proof.
  intros H. unfold aggregate_weather_data.
  destruct dps as [| p dps]; [reflexivity |]. rewrite H. reflexivity.
Qed.

Lemma reading_numeric (d : dict) (f : string) :
  Spec.reading d = true -> In f NUMERIC_FIELDS ->
  Spec.numeric_or_absent (get d f) = true.
Proof.
  unfold Spec.reading. intros R I. apply andb_true_iff in R.
  destruct R as [R _]. rewrite forallb_forall in R. apply R, I.
Qed.

Lemma reading_weather (d : dict) :
  Spec.reading d = true -> Spec.text_or_absent (get d "weather") = true.
Proof.
  unfold Spec.reading. intros R. apply andb_true_iff in R. tauto.
Qed.

Lemma column_numbers (readings : list dict) (f : string) :
  well_formed readings -> In f NUMERIC_FIELDS ->
  numbers (column f readings) = Ok (Spec.supplied f readings).
Proof.
  intros W I. induction W as [| d ds R _ IH]; [reflexivity |].
  pose proof (@reading_numeric d f R I) as T.
  unfold column, Spec.supplied in *. simpl.
  unfold present at 1. destruct (get d f); try discriminate T; simpl.
  - exact IH.
  - rewrite IH. reflexivity.
Qed.

Lemma column_length (readings : list dict) (f : string) :
  List.length (column f readings)
  = List.length (filter (Spec.supplies f) readings).
Proof.
  induction readings as [| d ds IH]; [reflexivity |].
  unfold column in *. simpl. rewrite length_app, IH.
  unfold present, Spec.supplies. destruct (is_none (get d f)); reflexivity.
Qed.

Lemma column_empty (readings : list dict) (f : string) :
  (forall d, In d readings -> Spec.supplies f d = false) ->
  column f readings = [].
Proof.
  induction readings as [| d ds IH]; intros H; [reflexivity |].
  unfold column in *. simpl. rewrite IH by (intros; apply H; right; assumption).
  specialize (H d (or_introl eq_refl)). unfold Spec.supplies in H.
  apply negb_false_iff in H. unfold present. rewrite H. reflexivity.
Qed.

Lemma supplied_nonempty (readings : list dict) (f : string) :
  well_formed readings -> In f NUMERIC_FIELDS ->
  (exists d, In d readings /\ Spec.supplies f d = true) ->
  Spec.supplied f readings <> [].
Proof.
  intros W I [d [D S]]. induction W as [| d0 ds R _ IH]; [destruct D |].
  unfold Spec.supplied in *. simpl.
  destruct D as [E | D].
  - subst d0. pose proof (@reading_numeric d f R I) as T.
    unfold Spec.supplies in S. destruct (get d f); try discriminate.
  - intros E. apply app_eq_nil in E. destruct E as [_ E]. exact (IH D E).
Qed.

Lemma weather_descriptions_strings (readings : list dict) :
  well_formed readings ->
  weather_descriptions readings = map VStr (Spec.weather_strings readings).
Proof.
  intros W. induction W as [| d ds R _ IH]; [reflexivity |].
  pose proof (@reading_weather d R) as T.
  unfold weather_descriptions, Spec.weather_strings in *. simpl.
  destruct (get d "weather") as [| | s | |]; try discriminate T; simpl.
  - exact IH.
  - destruct (String.eqb s EmptyString); simpl; [exact IH |].
    rewrite IH. reflexivity.
Qed.

Lemma tally_nonempty (ws : list string) :
  ws <> [] -> exists item rest, tally ws = item :: rest.
Proof.
  intros N. destruct ws as [| w ws]; [congruence |].
  destruct (tally (w :: ws)) as [| item rest] eqn:T.
  - exfalso. assert (I : In w (keys (tally (w :: ws)))).
    { unfold tally. rewrite keys_fold_in. right. left. reflexivity. }
    rewrite T in I. destruct I.
  - eauto.
Qed.

(** The consensus step on well-formed readings. *)
Lemma add_consensus_none (readings : list dict) (result : dict) :
  well_formed readings -> Spec.weather_strings readings = [] ->
  add_consensus readings result = Ok result.
Proof.
  intros W E. unfold add_consensus.
  rewrite (@weather_descriptions_strings readings W), E. reflexivity.
Qed.

Lemma add_consensus_some (readings : list dict) (result : dict)
    (item : string * nat) (rest : tally_t) :
  well_formed readings ->
  tally (Spec.weather_strings readings) = item :: rest ->
  add_consensus readings result
  = Ok (set result "weather_consensus" (VStr (fst (best_of item rest)))).
Proof.
  intros W T. unfold add_consensus.
  rewrite (@weather_descriptions_strings readings W).
  assert (NE : truthy (VList (map VStr (Spec.weather_strings readings))) = true).
  { destruct (Spec.weather_strings readings); [discriminate T | reflexivity]. }
  rewrite NE, Counter_lift, T. simpl.
  rewrite max_by_count_lift. reflexivity.
Qed.

Lemma add_consensus_total (readings : list dict) (result : dict) :
  well_formed readings ->
  exists r,
    add_consensus readings result = Ok r
    /\ forall k, k <> "weather_consensus"%string -> lookup r k = lookup result k.
Proof.
  intros W. destruct (Spec.weather_strings readings) as [| w ws] eqn:E.
  - exists result. split; [apply add_consensus_none; assumption | reflexivity].
  - destruct (@tally_nonempty (w :: ws)) as [item [rest T]]; [discriminate |].
    rewrite <- E in T. eexists. split; [apply (@add_consensus_some readings result item rest W T) |].
    intros k N. rewrite lookup_set.
    destruct (String.eqb_spec "weather_consensus" k); [congruence | reflexivity].
Qed.

Lemma stats_loop_readings (fl : rounding) (now : string) (readings : list dict) :
  well_formed readings ->
  exists r,
    stats_loop fl (fold_left collect_point readings aggregated_init) NUMERIC_FIELDS
      (Ok (result_init now (fold_left collect_point readings aggregated_init)
             readings))
    = Ok r.
Proof.
  intros W. apply stats_loop_total. intros f I.
  exists (Spec.supplied f readings).
  rewrite aggregated_field by exact I. apply column_numbers; assumption.
Qed.

(** The record [aggregate_weather_data] returns for well-formed readings:
    the statistics loop ends in some [r1], and the consensus step in [r]. *)
Lemma aggregate_readings (fl : rounding) (now : string) (dps : list (option dict))
    (d : dict) (ds : list dict) :
  not_none dps = d :: ds -> well_formed (d :: ds) ->
  exists r1 r,
    stats_loop fl (fold_left collect_point (d :: ds) aggregated_init) NUMERIC_FIELDS
      (Ok (result_init now (fold_left collect_point (d :: ds) aggregated_init)
             (d :: ds)))
    = Ok r1
    /\ add_consensus (d :: ds) r1 = Ok r
    /\ aggregate_weather_data fl now dps = Ok r
    /\ forall k, k <> "weather_consensus"%string -> lookup r k = lookup r1 k.
Proof.
  intros H W.
  destruct (@stats_loop_readings fl now (d :: ds) W) as [r1 S].
  destruct (@add_consensus_total (d :: ds) r1 W) as [r [A K]].
  exists r1, r. repeat split; try assumption.
  rewrite (@aggregate_unfold fl now dps d ds H), S. exact A.
Qed.

Lemma derived_key_fresh (f k : string) :
  In f NUMERIC_FIELDS -> In k (Spec.derived_keys f) ->
  ~ In k ["weather_consensus"; "sources"; "timestamp"; "raw_data"]%string.
Proof.
  intros I K. simpl in I.
  repeat (destruct I as [E | I];
          [subst f; simpl in K;
           repeat (destruct K as [E | K];
                   [subst k; simpl; intuition discriminate |]);
           destruct K |]).
  destruct I.
Qed.

Lemma lookup_result_init (now : string) (agg : collected) (vd : list dict)
    (f k : string) :
  In f NUMERIC_FIELDS -> In k (Spec.derived_keys f) ->
  lookup (result_init now agg vd) k = None.
Proof.
  intros I K. pose proof (@derived_key_fresh f k I K) as N.
  unfold result_init. cbn [lookup].
  destruct (String.eqb_spec "sources" k) as [E | _];
    [exfalso; apply N; subst k; simpl; tauto |].
  destruct (String.eqb_spec "timestamp" k) as [E | _];
    [exfalso; apply N; subst k; simpl; tauto |].
  destruct (String.eqb_spec "raw_data" k) as [E | _];
    [exfalso; apply N; subst k; simpl; tauto |].
  reflexivity.
Qed.

Lemma derived_not_consensus (f k : string) :
  In f NUMERIC_FIELDS -> In k (Spec.derived_keys f) ->
  k <> "weather_consensus"%string.
Proof.
  intros I K E. apply (@derived_key_fresh f k I K). subst k. simpl. tauto.
Qed.

End Aggregate.

(** ** the aggregated record *)

Section AggregateProperties.

Local Open Scope Q_scope.

Lemma stats_loop_field_omitted (fl : rounding) (agg : collected)
    (r0 r : dict) (f k : string) :
  In f NUMERIC_FIELDS -> In k (Spec.derived_keys f) ->
  stats_loop fl agg NUMERIC_FIELDS (Ok r0) = Ok r ->
  item agg f = [] ->
  lookup r k = lookup r0 k.
Proof.
  intros I K H E.
  destruct (@stats_loop_field fl agg r0 r f k I K H) as [r1 [r2 [A [F B]]]].
  rewrite (@field_stats_empty fl agg r1 f E) in F. injection F as F. subst r2.
  rewrite B. exact A.
Qed.

Lemma stats_loop_field_values (fl : rounding) (agg : collected)
    (r0 r : dict) (f : string) (q : Q) (qs : list Q) :
  In f NUMERIC_FIELDS ->
  stats_loop fl agg NUMERIC_FIELDS (Ok r0) = Ok r ->
  numbers (item agg f) = Ok (q :: qs) ->
  exists s,
    sum fl (item agg f) = Ok s
    /\ lookup r (f ++ "_avg")
       = Some (VNum (round fl (fl (s / num_of_nat (List.length (q :: qs))))))
    /\ lookup r (f ++ "_min") = Some (VNum (round fl (min_from q qs)))
    /\ lookup r (f ++ "_max") = Some (VNum (round fl (max_from q qs)))
    /\ lookup r (f ++ "_count")
       = Some (VNum (num_of_nat (List.length (item agg f)))).
Proof.
  intros I H N.
  destruct (@sum_from_total fl (item agg f) (q :: qs) 0 N) as [s S].
  fold (sum fl (item agg f)) in S.
  assert (V : forall k, In k (Spec.derived_keys f) ->
    exists r1,
      lookup r k =
      lookup
        (set
           (set
              (set
                 (set r1 (f ++ "_avg")
                    (VNum (round fl
                             (fl (s / num_of_nat (List.length (item agg f)))))))
                 (f ++ "_min") (VNum (round fl (min_from q qs))))
              (f ++ "_max") (VNum (round fl (max_from q qs))))
           (f ++ "_count") (VNum (num_of_nat (List.length (item agg f))))) k).
  { intros k K.
    destruct (@stats_loop_field fl agg r0 r f k I K H) as [r1 [r2 [_ [F B]]]].
    destruct (@field_stats_numbers fl agg r1 f q qs N) as [s' [S' E]].
    assert (s' = s) by congruence. subst s'.
    rewrite E in F. injection F as F. subst r2.
    exists r1. exact B. }
  assert (L : List.length (item agg f) = List.length (q :: qs)).
  { symmetry. apply numbers_length. exact N. }
  exists s. split; [exact S |]. repeat split.
  - destruct (V (f ++ "_avg")%string) as [r1 E]; [simpl; auto |].
    rewrite E, !lookup_set, !eqb_append_l. simpl String.eqb. cbv iota.
    rewrite L. reflexivity.
  - destruct (V (f ++ "_min")%string) as [r1 E]; [simpl; auto |].
    rewrite E, !lookup_set, !eqb_append_l. reflexivity.
  - destruct (V (f ++ "_max")%string) as [r1 E]; [simpl; auto |].
    rewrite E, !lookup_set, !eqb_append_l. reflexivity.
  - destruct (V (f ++ "_count")%string) as [r1 E]; [simpl; auto 6 |].
    rewrite E, !lookup_set, !eqb_append_l. reflexivity.
Qed.

Lemma sources_not_derived (f : string) :
  In f NUMERIC_FIELDS -> ~ In "sources"%string (Spec.derived_keys f).
Proof.
  intros I K. apply (@derived_key_fresh f "sources" I K). simpl. tauto.
Qed.

Lemma sum_ext (fl fl' : rounding) (xs : list value) (acc : Q) :
  (forall q, fl q = fl' q) -> sum_from fl acc xs = sum_from fl' acc xs.
Proof.
  intros E. revert acc. induction xs as [| x xs IH]; intros acc; simpl.
  - reflexivity.
  - destruct x; try reflexivity. rewrite E. apply IH.
Qed.

(** C1. For readings typed as the specification types them and a numeric
    field that at least one reading supplies, [aggregate_weather_data]
    returns a record that holds the field's four derived keys: [_avg] is the
    left-to-right sum of the supplied values divided by their number and
    rounded to two decimals, [_min] and [_max] are the least and the greatest
    supplied value rounded to two decimals, and [_count] is the number of
    readings that supply the field. When the arithmetic does not round
    ([fl] is the identity), [_avg] is the arithmetic mean rounded to two
    decimals and min <= avg <= max. *)
Theorem aggregate_field_statistics (fl : rounding) (now : string)
    (data_points : list (option dict)) (field : string) :
  let readings := not_none data_points in
  let values := Spec.supplied field readings in
  well_formed readings ->
  In field NUMERIC_FIELDS ->
  (exists d, In d readings /\ Spec.supplies field d = true) ->
  exists r s lo hi,
    aggregate_weather_data fl now data_points = Ok r
    /\ sum fl (map VNum values) = Ok s
    /\ Spec.minimum_of lo values
    /\ Spec.maximum_of hi values
    /\ lookup r (field ++ "_avg")
       = Some (VNum (round fl (fl (s / num_of_nat (List.length values)))))
    /\ lookup r (field ++ "_min") = Some (VNum (round fl lo))
    /\ lookup r (field ++ "_max") = Some (VNum (round fl hi))
    /\ lookup r (field ++ "_count")
       = Some (VNum (num_of_nat
                       (List.length (filter (Spec.supplies field) readings))))
    /\ ((forall q, fl q = q) ->
        lookup r (field ++ "_avg")
        = Some (VNum (round2 (Spec.mean values)))
        /\ lookup r (field ++ "_min") = Some (VNum (round2 lo))
        /\ lookup r (field ++ "_max") = Some (VNum (round2 hi))
        /\ round2 lo <= round2 (Spec.mean values)
        /\ round2 (Spec.mean values) <= round2 hi).
Proof.
  intros readings values W I S.
  pose proof (@supplied_nonempty readings field W I S) as NE.
  fold values in NE.
  destruct readings as [| d ds] eqn:R.
  { destruct S as [d [[] _]]. }
  destruct (@aggregate_readings fl now data_points d ds R W)
    as [r1 [r [L [_ [A K]]]]].
  assert (N : numbers (item (fold_left collect_point (d :: ds) aggregated_init)
                         field) = Ok values).
  { rewrite aggregated_field by exact I. apply column_numbers; assumption. }
  pose proof (numbers_inv _ N) as Col.
  destruct values as [| q qs] eqn:V; [congruence |].
  destruct (@stats_loop_field_values fl _ _ r1 field q qs I L N)
    as [s [Sum [Avg [Min [Max Cnt]]]]].
  destruct (min_from_spec qs q) as [Lo1 Lo2].
  destruct (max_from_spec qs q) as [Hi1 Hi2].
  assert (Fresh : forall k, In k (Spec.derived_keys field) ->
                            lookup r k = lookup r1 k).
  { intros k Kk. apply K. exact (@derived_not_consensus field k I Kk). }
  assert (FAvg : lookup r (field ++ "_avg") = lookup r1 (field ++ "_avg"))
    by (apply Fresh; simpl; auto).
  assert (FMin : lookup r (field ++ "_min") = lookup r1 (field ++ "_min"))
    by (apply Fresh; simpl; auto).
  assert (FMax : lookup r (field ++ "_max") = lookup r1 (field ++ "_max"))
    by (apply Fresh; simpl; auto).
  assert (FCnt : lookup r (field ++ "_count") = lookup r1 (field ++ "_count"))
    by (apply Fresh; simpl; auto 6).
  rewrite Col in Sum.
  exists r, s, (min_from q qs), (max_from q qs).
  split; [exact A |].
  split; [exact Sum |].
  split; [split; assumption |].
  split; [split; assumption |].
  split; [rewrite FAvg; exact Avg |].
  split; [rewrite FMin; exact Min |].
  split; [rewrite FMax; exact Max |].
  split.
  { rewrite FCnt, Cnt.
    rewrite aggregated_field by exact I. rewrite column_length. reflexivity. }
  intros Ex.
  assert (Rd : forall x, round fl x = round2 x) by (intros x; apply Ex).
  assert (St : s == Spec.total (q :: qs)).
  { unfold sum in Sum.
    rewrite (@sum_ext fl exact (map VNum (q :: qs)) 0 Ex) in Sum.
    destruct (@numbers_sum_from (map VNum (q :: qs)) (q :: qs) 0
                (numbers_map_VNum (q :: qs))) as [s' [S1 S2]].
    assert (s' = s) by congruence. subst s'. rewrite S2. lra. }
  assert (Mn : round2 (s / num_of_nat (List.length (q :: qs)))
               = round2 (Spec.mean (q :: qs))).
  { apply round2_compat. unfold Spec.mean. rewrite St. reflexivity. }
  split; [rewrite FAvg, Avg, Rd, Ex, Mn; reflexivity |].
  split; [rewrite FMin, Min, Rd; reflexivity |].
  split; [rewrite FMax, Max, Rd; reflexivity |].
  destruct (@mean_bounds (q :: qs) (min_from q qs) (max_from q qs))
    as [B1 B2]; [discriminate | exact Lo2 | exact Hi2 |].
  split; apply round2_mono; assumption.
Qed.

(** C6. For readings typed as the specification types them,
    [aggregate_weather_data] returns a record in which a numeric field that
    every reading omits has none of its four derived keys, and in which every
    [_count] that appears is at most the length of [sources]. *)
Theorem aggregate_omitted_field (fl : rounding) (now : string)
    (data_points : list (option dict)) :
  let readings := not_none data_points in
  well_formed readings ->
  exists r,
    aggregate_weather_data fl now data_points = Ok r
    /\ (forall field k,
          In field NUMERIC_FIELDS ->
          (forall d, In d readings -> Spec.supplies field d = false) ->
          In k (Spec.derived_keys field) ->
          lookup r k = None)
    /\ (forall field c,
          In field NUMERIC_FIELDS ->
          lookup r (field ++ "_count") = Some c ->
          exists n sources,
            c = VNum (num_of_nat n)
            /\ lookup r "sources" = Some (VList sources)
            /\ (n <= List.length sources)%nat).
Proof.
  intros readings W.
  destruct readings as [| d ds] eqn:R.
  { exists []. split; [apply aggregate_no_readings; exact R |].
    split; [reflexivity | discriminate]. }
  destruct (@aggregate_readings fl now data_points d ds R W)
    as [r1 [r [L [_ [A K]]]]].
  exists r. split; [exact A |]. split.
  - intros field k I O Kk.
    rewrite K by exact (@derived_not_consensus field k I Kk).
    rewrite (@stats_loop_field_omitted fl _ _ r1 field k I Kk L).
    + apply (@lookup_result_init _ _ _ field k I Kk).
    + rewrite aggregated_field by exact I. apply column_empty. exact O.
  - intros field c I C.
    assert (Kc : In (field ++ "_count")%string (Spec.derived_keys field))
      by (simpl; auto 6).
    rewrite K in C by exact (@derived_not_consensus field _ I Kc).
    assert (N : numbers (item (fold_left collect_point (d :: ds) aggregated_init)
                           field) = Ok (Spec.supplied field (d :: ds))).
    { rewrite aggregated_field by exact I. apply column_numbers; assumption. }
    destruct (Spec.supplied field (d :: ds)) as [| q qs] eqn:V.
    + exfalso.
      rewrite (@stats_loop_field_omitted fl _ _ r1 field _ I Kc L) in C.
      * rewrite (@lookup_result_init _ _ _ field _ I Kc) in C. discriminate.
      * apply numbers_length in N.
        destruct (item _ field); [reflexivity | discriminate].
    + destruct (@stats_loop_field_values fl _ _ r1 field q qs I L N)
        as [s [_ [_ [_ [_ Cnt]]]]].
      rewrite Cnt in C. injection C as C. subst c.
      eexists. eexists. split; [reflexivity |]. split.
      * rewrite K by discriminate.
        rewrite (@stats_loop_other fl _ NUMERIC_FIELDS _ r1 "sources"
                   (fun f If => @sources_not_derived f If) L).
        unfold result_init. cbn [lookup]. rewrite String.eqb_refl. reflexivity.
      * change (fold_left collect_point ds (collect_point aggregated_init d))
          with (fold_left collect_point (d :: ds) aggregated_init).
        rewrite (@aggregated_field (d :: ds) field I).
        rewrite aggregated_sources, column_length, length_map.
        apply filter_length_le.
Qed.

(** C2. For readings typed as the specification types them, with at least
    one non-empty weather string, [aggregate_weather_data] sets
    [weather_consensus] to a weather string [w] of the input that no other
    value occurs more often than, and every value met before the first
    occurrence of [w] occurs strictly less often: among the values that tie
    for the highest count, [w] is the one encountered first. For the weather
    values Cloudy, Rain, Cloudy, Rain the consensus is Cloudy. *)
Theorem aggregate_weather_consensus (fl : rounding) (now : string)
    (data_points : list (option dict)) :
  let readings := not_none data_points in
  let ws := Spec.weather_strings readings in
  well_formed readings ->
  ws <> [] ->
  exists r w,
    aggregate_weather_data fl now data_points = Ok r
    /\ lookup r "weather_consensus" = Some (VStr w)
    /\ In w ws
    /\ (forall v, (Spec.occurrences v ws <= Spec.occurrences w ws)%nat)
    /\ (exists pre post,
          ws = (pre ++ w :: post)%list
          /\ ~ In w pre
          /\ forall v, In v pre ->
               (Spec.occurrences v ws < Spec.occurrences w ws)%nat)
    /\ (ws = ["Cloudy"; "Rain"; "Cloudy"; "Rain"]%string -> w = "Cloudy"%string).
Proof.
  intros readings ws W NE.
  destruct readings as [| d ds] eqn:R; [exfalso; apply NE; reflexivity |].
  destruct (@aggregate_readings fl now data_points d ds R W)
    as [r1 [r [_ [C [A _]]]]].
  destruct (@tally_nonempty ws NE) as [item [rest T]].
  rewrite (@add_consensus_some (d :: ds) r1 item rest W T) in C.
  injection C as C.
  destruct (@tally_first_maximum ws item rest T) as [I [M P]].
  exists r, (fst (best_of item rest)).
  split; [exact A |].
  split; [rewrite <- C, lookup_set, String.eqb_refl; reflexivity |].
  split; [exact I |]. split; [exact M |]. split; [exact P |].
  intros E. rewrite E in T. vm_compute in T. injection T as T1 T2.
  subst item rest. reflexivity.
Qed.

End AggregateProperties.

(** ** the quality score; the clock *)

Section ScoreAndPurity.

Local Open Scope Q_scope.

Lemma filter_values_length (d : dict) :
  List.length (filter (fun v => negb (is_none v)) (values d))
  = List.length (filter (fun kv => negb (is_none (snd kv))) d).
Proof.
  unfold values. induction d as [| [k v] d IH]; simpl; [reflexivity |].
  destruct (is_none v); simpl; [exact IH | rewrite IH; reflexivity].
Qed.

Lemma filter_none (d : dict) :
  (forall k v, In (k, v) d -> v = VNone) ->
  filter (fun kv => negb (is_none (snd kv))) d = [].
Proof.
  induction d as [| [k v] d IH]; intros H; simpl; [reflexivity |].
  rewrite (H k v (or_introl eq_refl)). simpl.
  apply IH. intros k' v' I. apply (H k' v'). right. exact I.
Qed.

Lemma filter_all (d : dict) :
  (forall k v, In (k, v) d -> v <> VNone) ->
  filter (fun kv => negb (is_none (snd kv))) d = d.
Proof.
  induction d as [| [k v] d IH]; intros H; simpl; [reflexivity |].
  assert (N : is_none v = false).
  { specialize (H k v (or_introl eq_refl)). destruct v; simpl; congruence. }
  rewrite N. simpl. f_equal.
  apply IH. intros k' v' I. apply (H k' v'). right. exact I.
Qed.

Lemma field_ratio_none (d : dict) :
  (forall k v, In (k, v) d -> v = VNone) -> Spec.field_ratio d == 0.
Proof.
  intros A. unfold Spec.field_ratio. rewrite (@filter_none d A).
  change (num_of_nat (List.length (@nil (string * value)))) with 0.
  unfold Qdiv. ring.
Qed.

Lemma field_ratio_all (d : dict) :
  d <> [] -> (forall k v, In (k, v) d -> v <> VNone) ->
  Spec.field_ratio d == 1.
Proof.
  intros N A. unfold Spec.field_ratio. rewrite (@filter_all d A).
  assert (P : 0 < num_of_nat (List.length d)).
  { apply num_of_nat_pos. destruct d; [congruence | simpl; lia]. }
  generalize dependent (num_of_nat (List.length d)). intros n P.
  field. lra.
Qed.

Lemma binary64_zero (q : Q) : q == 0 -> binary64 q == 0.
Proof.
  intros E. unfold binary64.
  rewrite (proj2 (Qeq_bool_iff q 0) E). reflexivity.
Qed.

Lemma floor_log2_one (d : positive) : floor_log2 (Zpos d # d) = 0%Z.
Proof.
  unfold floor_log2. cbn [Qnum Qden]. rewrite Z.sub_diag.
  assert (L : Qle_bool (2 ^ 0) (Zpos d # d) = true).
  { apply Qle_bool_iff. unfold Qle. simpl. lia. }
  rewrite L. reflexivity.
Qed.

Lemma binary64_one (q : Q) : q == 1 -> binary64 q == 1.
Proof.
  intros E. destruct q as [n d].
  assert (N : n = Zpos d).
  { unfold Qeq in E. simpl in E. lia. }
  subst n. unfold binary64.
  assert (Z0 : Qeq_bool (Zpos d # d) 0 = false).
  { destruct (Qeq_bool (Zpos d # d) 0) eqn:B; [| reflexivity].
    apply Qeq_bool_iff in B. unfold Qeq in B. simpl in B. lia. }
  assert (P : Qle_bool 0 (Zpos d # d) = true).
  { apply Qle_bool_iff. unfold Qle. simpl. lia. }
  rewrite Z0, P. cbv zeta.
  change (Qabs (Zpos d # d)) with (Zpos d # d).
  rewrite floor_log2_one.
  rewrite (@round_half_even_compat ((Zpos d # d) / 2 ^ (0 - 52)) (1 / 2 ^ (0 - 52))).
  - rewrite Qred_correct. vm_compute. reflexivity.
  - apply Qdiv_comp; [exact E | reflexivity].
Qed.

Lemma score_single (fl : rounding) (d : dict) :
  d <> [] ->
  calculate_data_quality_score fl [Some d]
  = round fl (fl (fl (0 + fl (num_of_nat
                                (List.length
                                   (filter (fun kv => negb (is_none (snd kv))) d))
                              / num_of_nat (List.length d)))
                  / num_of_nat 1)).
Proof.
  intros N. destruct d as [| kv d]; [congruence |].
  unfold calculate_data_quality_score, add_point_score, len.
  cbn [fold_left truthy List.length]. rewrite filter_values_length. reflexivity.
Qed.

Lemma score_extremes (fl : rounding) :
  (forall q, q == 0 -> fl q == 0) ->
  (forall q, q == 1 -> fl q == 1) ->
  calculate_data_quality_score fl [] == 0
  /\ (forall d : dict,
        (forall k v, In (k, v) d -> v = VNone) ->
        calculate_data_quality_score fl [Some d] == 0)
  /\ (forall d : dict,
        d <> [] -> (forall k v, In (k, v) d -> v <> VNone) ->
        calculate_data_quality_score fl [Some d] == 1).
Proof.
  intros H0 H1.
  assert (Z : forall x, x == 0 -> round fl (fl (x / num_of_nat 1)) == 0).
  { intros x E. unfold round.
    rewrite (@round2_compat (fl (x / num_of_nat 1)) 0).
    - apply H0. reflexivity.
    - apply H0. rewrite E. reflexivity. }
  split; [reflexivity |]. split.
  - intros d A.
    assert (C : d = [] \/ d <> [])
      by (destruct d; [left; reflexivity | right; discriminate]).
    destruct C as [C | C].
    + subst d. unfold calculate_data_quality_score, add_point_score.
      cbn [fold_left truthy List.length]. apply Z. reflexivity.
    + rewrite (@score_single fl d C). apply Z.
      apply H0. rewrite Qplus_0_l. apply H0.
      rewrite (@filter_none d A). reflexivity.
  - intros d N A. rewrite (@score_single fl d N).
    rewrite (@filter_all d A). unfold round.
    assert (P : 0 < num_of_nat (List.length d)).
    { apply num_of_nat_pos. destruct d; [congruence | simpl; lia]. }
    assert (R : fl (num_of_nat (List.length d) / num_of_nat (List.length d)) == 1).
    { apply H1. generalize dependent (num_of_nat (List.length d)). intros n P.
      field. lra. }
    assert (T : fl (0 + fl (num_of_nat (List.length d)
                            / num_of_nat (List.length d))) == 1).
    { apply H1. rewrite R. reflexivity. }
    rewrite (@round2_compat _ 1).
    + apply H1. reflexivity.
    + apply H1. rewrite T. reflexivity.
Qed.

Lemma add_point_score_any (fl : rounding) (acc : Q) (d : dict) :
  d <> [] ->
  add_point_score fl acc (Some d) = fl (acc + fl (Spec.field_ratio d)).
Proof.
  intros N. unfold add_point_score, Spec.field_ratio, len.
  destruct d as [| kv d]; [congruence |].
  cbn [truthy]. rewrite filter_values_length. reflexivity.
Qed.

Lemma score_loop_any (fl : rounding) (readings : list dict) (acc : Q) :
  Forall (fun d => d <> []) readings ->
  fold_left (add_point_score fl) (map Some readings) acc
  = fold_left (fun acc r => fl (acc + fl r)) (map Spec.field_ratio readings)
      acc.
Proof.
  intros W. revert acc.
  induction W as [| d ds N _ IH]; intros acc; cbn [map fold_left].
  - reflexivity.
  - rewrite (@add_point_score_any fl acc d N). apply IH.
Qed.

Lemma rounded_total_exact (fl : rounding) (ratios : list Q) (acc : Q) :
  (forall q, fl q = q) ->
  fold_left (fun acc r => fl (acc + fl r)) ratios acc
  == acc + Spec.total ratios.
Proof.
  intros Id. revert acc.
  induction ratios as [| r rs IH]; intros acc; cbn [fold_left].
  - unfold Spec.total. simpl. lra.
  - rewrite IH, !Id.
    change (Spec.total (r :: rs)) with (r + Spec.total rs).
    generalize (Spec.total rs). intros; lra.
Qed.

(** C3. The score of the empty list is 0. The score of a non-empty list of
    readings (each declaring at least one field) is computed from the
    ratios of the readings, a ratio being the number of fields that hold a
    value divided by the number of fields the reading declares: the ratios
    are summed from left to right as floats, the sum is divided by the
    number of readings, and the quotient is rounded to two decimals. When
    the arithmetic does not round, this is the mean of the ratios rounded
    to two decimals, a tie going to the even hundredth. In any arithmetic
    that keeps 0 and 1, the doubles included, the score is 0 for a single
    reading all of whose fields are absent and 1 for a single reading all
    of whose fields are present. *)
Theorem quality_score_mean_ratio (fl : rounding) (readings : list dict) :
  Forall (fun d => d <> []) readings ->
  let ratios := map Spec.field_ratio readings in
  calculate_data_quality_score fl (map Some readings)
  = match readings with
    | [] => 0
    | _ :: _ =>
        round fl
          (fl (Spec.rounded_total fl ratios
               / num_of_nat (List.length readings)))
    end
  /\ ((forall q, fl q = q) ->
      calculate_data_quality_score fl (map Some readings)
      = match readings with
        | [] => 0
        | _ :: _ => round2 (Spec.mean ratios)
        end)
  /\ ((forall q, q == 0 -> fl q == 0) ->
      (forall q, q == 1 -> fl q == 1) ->
      calculate_data_quality_score fl [] == 0
      /\ (forall d : dict,
            (forall k v, In (k, v) d -> v = VNone) ->
            calculate_data_quality_score fl [Some d] == 0)
      /\ (forall d : dict,
            d <> [] -> (forall k v, In (k, v) d -> v <> VNone) ->
            calculate_data_quality_score fl [Some d] == 1)).
Proof.
  intros W ratios.
  assert (G : calculate_data_quality_score fl (map Some readings)
              = match readings with
                | [] => 0
                | _ :: _ =>
                    round fl
                      (fl (Spec.rounded_total fl ratios
                           / num_of_nat (List.length readings)))
                end).
  { destruct readings as [| d ds]; [reflexivity |].
    unfold calculate_data_quality_score.
    change (map Some (d :: ds)) with (Some d :: map Some ds).
    cbv beta iota.
    change (Some d :: map Some ds) with (map Some (d :: ds)).
    rewrite (@score_loop_any fl (d :: ds) 0 W), length_map. reflexivity. }
  split; [exact G |].
  split; [| intros H0 H1; exact (@score_extremes fl H0 H1)].
  intros Id. rewrite G. destruct readings as [| d ds]; [reflexivity |].
  unfold round. rewrite !Id. apply round2_compat.
  unfold Spec.mean, Spec.rounded_total, ratios.
  rewrite (@rounded_total_exact fl _ 0 Id), length_map, Qplus_0_l.
  reflexivity.
Qed.

(** The extreme scores in the arithmetic of the doubles. *)
Lemma score_extremes_binary64 :
  calculate_data_quality_score binary64 [] == 0
  /\ (forall d : dict,
        (forall k v, In (k, v) d -> v = VNone) ->
        calculate_data_quality_score binary64 [Some d] == 0)
  /\ (forall d : dict,
        d <> [] -> (forall k v, In (k, v) d -> v <> VNone) ->
        calculate_data_quality_score binary64 [Some d] == 1).
Proof. exact (@score_extremes binary64 binary64_zero binary64_one). Qed.

Lemma remove_set_other (d : dict) (k t : string) (v : value) :
  k <> t -> remove (set d k v) t = set (remove d t) k v.
Proof.
  intros N. unfold remove.
  induction d as [| [k0 v0] d IH]; simpl.
  - destruct (String.eqb_spec k t); [contradiction | reflexivity].
  - destruct (String.eqb_spec k0 k) as [E | D]; simpl.
    + subst k0. destruct (String.eqb_spec k t); [contradiction |]. simpl.
      rewrite String.eqb_refl. reflexivity.
    + destruct (String.eqb_spec k0 t) as [E' | D']; simpl.
      * exact IH.
      * destruct (String.eqb_spec k0 k); [contradiction |]. rewrite IH. reflexivity.
Qed.

Lemma field_stats_remove (fl : rounding) (agg : collected) (r : dict) (f t : string) :
  ~ In t (Spec.derived_keys f) ->
  omap (fun x => remove x t) (field_stats fl agg r f)
  = field_stats fl agg (remove r t) f.
Proof.
  intros N. unfold field_stats.
  assert (A : (f ++ "_avg")%string <> t) by (intros E; apply N; simpl; auto).
  assert (B : (f ++ "_min")%string <> t) by (intros E; apply N; simpl; auto).
  assert (C : (f ++ "_max")%string <> t) by (intros E; apply N; simpl; auto).
  assert (D : (f ++ "_count")%string <> t) by (intros E; apply N; simpl; auto 6).
  destruct (truthy (VList (item agg f))); [| reflexivity].
  destruct (sum fl (item agg f)); [| reflexivity].
  destruct (min (item agg f)); [| reflexivity].
  destruct (max (item agg f)); [| reflexivity].
  simpl. rewrite !remove_set_other by assumption. reflexivity.
Qed.

Lemma stats_loop_remove (fl : rounding) (agg : collected) (fs : list string)
    (start : outcome dict) (t : string) :
  (forall f, In f fs -> ~ In t (Spec.derived_keys f)) ->
  omap (fun x => remove x t) (stats_loop fl agg fs start)
  = stats_loop fl agg fs (omap (fun x => remove x t) start).
Proof.
  revert start. induction fs as [| f fs IH]; intros start N; [reflexivity |].
  unfold stats_loop in *. simpl.
  rewrite IH by (intros; apply N; right; assumption). f_equal.
  destruct start as [r | e]; [| reflexivity]. simpl.
  apply field_stats_remove. apply N. left. reflexivity.
Qed.

Lemma add_consensus_remove (readings : list dict) (r : dict) :
  omap (fun x => remove x "timestamp") (add_consensus readings r)
  = add_consensus readings (remove r "timestamp").
Proof.
  unfold add_consensus.
  destruct (truthy (VList (weather_descriptions readings))); [| reflexivity].
  destruct (Counter (weather_descriptions readings)) as [c |]; [| reflexivity].
  simpl. destruct (first (most_common_1 c)) as [top |]; [| reflexivity].
  simpl. rewrite remove_set_other by discriminate. reflexivity.
Qed.

Lemma omap_bind {A B C : Type} (f : B -> C) (m : outcome A)
    (k : A -> outcome B) :
  omap f (bind m k) = bind m (fun a => omap f (k a)).
Proof. destruct m; reflexivity. Qed.

Lemma bind_omap {A B C : Type} (f : A -> B) (m : outcome A)
    (k : B -> outcome C) :
  bind (omap f m) k = bind m (fun a => k (f a)).
Proof. destruct m; reflexivity. Qed.

Lemma timestamp_not_derived (f : string) :
  In f NUMERIC_FIELDS -> ~ In "timestamp"%string (Spec.derived_keys f).
Proof.
  intros I K. apply (@derived_key_fresh f "timestamp" I K). simpl. tauto.
Qed.

Lemma bind_ext {A B : Type} (m : outcome A) (k k' : A -> outcome B) :
  (forall a, k a = k' a) -> bind m k = bind m k'.
Proof. intros E. destruct m; [apply E | reflexivity]. Qed.

Lemma aggregate_unstamped (fl : rounding) (now : string) (d : dict) (ds : list dict) :
  omap (fun r => remove r "timestamp")
    (result <-
       stats_loop fl (fold_left collect_point (d :: ds) aggregated_init)
         NUMERIC_FIELDS
         (Ok (result_init now (fold_left collect_point (d :: ds) aggregated_init)
                (d :: ds))) ;;
     add_consensus (d :: ds) result)
  = (result <-
       stats_loop fl (fold_left collect_point (d :: ds) aggregated_init)
         NUMERIC_FIELDS
         (Ok (remove
                (result_init EmptyString
                   (fold_left collect_point (d :: ds) aggregated_init) (d :: ds))
                "timestamp")) ;;
     add_consensus (d :: ds) result).
Proof.
  rewrite omap_bind.
  rewrite (@bind_ext _ _ _ _
             (fun a => add_consensus (d :: ds) (remove a "timestamp"))
             (fun a => add_consensus_remove (d :: ds) a)).
  rewrite <- (@bind_omap _ _ _ (fun a => remove a "timestamp") _
                (add_consensus (d :: ds))).
  rewrite stats_loop_remove by (intros f I; apply timestamp_not_derived, I).
  reflexivity.
Qed.

Lemma aggregate_without_timestamp (fl : rounding) (now : string) (dps : list (option dict)) :
  omap (fun r => remove r "timestamp") (aggregate_weather_data fl now dps)
  = omap (fun r => remove r "timestamp")
      (aggregate_weather_data fl EmptyString dps).
Proof.
  destruct (not_none dps) as [| d ds] eqn:R.
  - rewrite !(@aggregate_no_readings fl _ dps R). reflexivity.
  - rewrite !(@aggregate_unfold fl _ dps d ds R), !aggregate_unstamped.
    reflexivity.
Qed.

(** C4, as the code has it. Two calls of [aggregate_weather_data] on the same
    list, at clock readings [now1] and [now2], return records that are equal
    once the [timestamp] key is removed, and equal when the two readings of
    the clock are the same; the [timestamp] of a non-empty record is the
    reading of the clock. [calculate_data_quality_score] reads no clock: the
    same list gives the same score. *)
Theorem aggregate_repeatable_up_to_timestamp (fl : rounding) (now1 now2 : string)
    (data_points : list (option dict)) :
  omap (fun r => remove r "timestamp") (aggregate_weather_data fl now1 data_points)
  = omap (fun r => remove r "timestamp")
      (aggregate_weather_data fl now2 data_points)
  /\ (now1 = now2 ->
      aggregate_weather_data fl now1 data_points
      = aggregate_weather_data fl now2 data_points)
  /\ (forall r, aggregate_weather_data fl now1 data_points = Ok r -> r <> [] ->
        lookup r "timestamp" = Some (VStr now1))
  /\ (forall again, again = data_points ->
        calculate_data_quality_score fl again
        = calculate_data_quality_score fl data_points).
Proof.
  split; [| split; [| split; [| intros again E; rewrite E; reflexivity]]].
  - rewrite (aggregate_without_timestamp fl now1), (aggregate_without_timestamp fl now2).
    reflexivity.
  - intros E. rewrite E. reflexivity.
  - intros r A NE.
    destruct (not_none data_points) as [| d ds] eqn:R.
    + rewrite (@aggregate_no_readings fl _ data_points R) in A.
      injection A as A. congruence.
    + rewrite (@aggregate_unfold fl _ data_points d ds R) in A.
      destruct (stats_loop fl _ NUMERIC_FIELDS _) as [r1 |] eqn:S;
        [| discriminate A].
      simpl in A.
      assert (T : lookup r1 "timestamp" = Some (VStr now1)).
      { rewrite (@stats_loop_other fl _ NUMERIC_FIELDS _ r1 "timestamp"
                   (fun f If => @timestamp_not_derived f If) S).
        reflexivity. }
      unfold add_consensus in A.
      destruct (truthy (VList (weather_descriptions (d :: ds)))).
      * destruct (Counter (weather_descriptions (d :: ds))) as [c |];
          [| discriminate A]. simpl in A.
        destruct (first (most_common_1 c)) as [top |]; [| discriminate A].
        simpl in A. injection A as A. subst r.
        rewrite lookup_set. simpl. exact T.
      * injection A as A. subst r. exact T.
Qed.

(** C4, as stated: the same list, aggregated one second apart, gives two
    different records. *)
Lemma aggregate_twice_differs :
  aggregate_weather_data binary64 "2024-01-15T12:00:00+00:00"
    [Some [("source"%string, VStr "a"); ("temperature"%string, VNum 24)]]
  <> aggregate_weather_data binary64 "2024-01-15T12:00:01+00:00"
       [Some [("source"%string, VStr "a"); ("temperature"%string, VNum 24)]].
Proof. vm_compute. intros E. discriminate E. Qed.

End ScoreAndPurity.

(** ** the collection cycle *)

Section CollectionCycle.

Local Open Scope Q_scope.

Lemma lambda_handler_unfold (e : env) :
  lambda_handler e
  = catch
      (api_keys <~ lift (get_api_keys e) ;;
       clients <~ lift (make_clients api_keys) ;;
       all_data <~ fetch_all e clients [] ;;
       finish e all_data)
      (fun ex => ret (failure_response (str_exn (builtin_message e) ex))).
Proof. reflexivity. Qed.

Lemma fetch_all_spec (e : env) (clients : list client) (acc : list dict)
    (s : state) :
  fetch_all e clients acc s
  = (Ok (acc ++ successes e clients)%list,
     {| table := table s;
        attempted := (attempted s ++ map api_name clients)%list;
        ticks := ticks s |}).
Proof.
  revert acc s. induction clients as [| c cs IH]; intros acc s.
  - simpl. rewrite !app_nil_r. destruct s; reflexivity.
  - cbn [fetch_all]. unfold mbind, call_fetch. 
    cbn [successes flat_map map].
    destruct (fetch_data e (api_name c)) as [d |].
    + destruct (truthy (VDict d)); rewrite IH; cbn [table attempted ticks];
        rewrite <- !app_assoc; reflexivity.
    + rewrite IH. cbn [table attempted ticks]. rewrite <- !app_assoc. reflexivity.
Qed.

Lemma successes_empty (e : env) (clients : list client) :
  successes e clients = [] <->
  forall c, In c clients -> succeeded e (api_name c) = false.
Proof.
  unfold successes, succeeded.
  induction clients as [| c cs IH]; cbn [flat_map In].
  - split; [intros _ c [] | reflexivity].
  - split.
    + intros E. apply app_eq_nil in E. destruct E as [E1 E2].
      intros c' [C | C]; [subst c' | apply IH; assumption].
      destruct (fetch_data e (api_name c)) as [d |]; [| reflexivity].
      destruct (truthy (VDict d)); [discriminate E1 | reflexivity].
    + intros H. rewrite (proj2 IH) by (intros; apply H; right; assumption).
      specialize (H c (or_introl eq_refl)).
      destruct (fetch_data e (api_name c)) as [d |]; [| reflexivity].
      rewrite H. reflexivity.
Qed.

(** What follows the fetch loop reads the clock and at most writes the table:
    it calls no adapter, and it writes only when given data. *)
Lemma finish_attempted (e : env) (all_data : list dict) (s : state) :
  attempted (snd (finish e all_data s)) = attempted s.
Proof.
  destruct all_data as [| d ds]; [reflexivity |].
  unfold finish, mbind, read_clock, lift. cbn [fst snd table attempted ticks].
  destruct (aggregate_weather_data _ _ _) as [agg |]; [| reflexivity].
  unfold store_in_dynamodb, mbind, read_clock, put_item.
  cbn [fst snd table attempted ticks].
  destruct (put_item_error e); [reflexivity |].
  destruct (subscript agg "timestamp"); reflexivity.
Qed.

Lemma finish_no_data (e : env) (s : state) :
  finish e [] s
  = (Raise (Exception "No weather data could be fetched from any API"), s).
Proof. reflexivity. Qed.

Lemma make_clients_names (keys : dict) :
  exists clients,
    make_clients (VDict keys) = Ok clients
    /\ map api_name clients = key_names keys.
Proof.
  unfold make_clients, client_if_key, attr_get, attr_get_default, key_names.
  cbn [bind]. fold (get keys "openweathermap") (get keys "weatherapi")
    (get keys "visualcrossing") (get keys "tomorrow_io").
  destruct (truthy (get keys "openweathermap"));
    destruct (truthy (get keys "weatherapi"));
    destruct (truthy (get keys "visualcrossing"));
    destruct (truthy (get keys "tomorrow_io"));
    cbn [bind]; eexists; (split; [reflexivity | reflexivity]).
Qed.

Lemma lambda_handler_returns (e : env) (s : state) :
  exists response, fst (lambda_handler e s) = Ok response.
Proof.
  rewrite lambda_handler_unfold. unfold catch.
  destruct ((api_keys <~ lift (get_api_keys e) ;;
             clients <~ lift (make_clients api_keys) ;;
             all_data <~ fetch_all e clients [] ;; finish e all_data) s)
    as [[r | x] s']; eexists; reflexivity.
Qed.

(** The run of one cycle, once the keys and the clients are known. *)
Lemma lambda_handler_clients (e : env) (s : state) (api_keys : value)
    (clients : list client) :
  get_api_keys e = Ok api_keys ->
  make_clients api_keys = Ok clients ->
  lambda_handler e s
  = catch (finish e (successes e clients))
      (fun ex => ret (failure_response (str_exn (builtin_message e) ex)))
      {| table := table s;
         attempted := (attempted s ++ map api_name clients)%list;
         ticks := ticks s |}.
Proof.
  intros K C. rewrite lambda_handler_unfold. unfold catch, mbind, lift.
  rewrite K, C, fetch_all_spec. reflexivity.
Qed.

Lemma lambda_handler_no_clients (e : env) (s : state) :
  (forall api_keys clients,
      get_api_keys e = Ok api_keys -> make_clients api_keys <> Ok clients) ->
  exists ex,
    lambda_handler e s
    = (Ok (failure_response (str_exn (builtin_message e) ex)), s).
Proof.
  intros H. rewrite lambda_handler_unfold. unfold catch, mbind, lift.
  destruct (get_api_keys e) as [k | x] eqn:K.
  - destruct (make_clients k) as [cs | x] eqn:C.
    + exfalso. exact (H k cs eq_refl C).
    + exists x. reflexivity.
  - exists x. reflexivity.
Qed.

Lemma catch_finish_table (e : env) (all_data : list dict) (s : state) :
  table (snd (catch (finish e all_data)
                (fun ex => ret (failure_response (str_exn (builtin_message e) ex)))
                s)) <> table s ->
  all_data <> [].
Proof.
  intros H E. subst all_data. apply H. reflexivity.
Qed.

(** C8. In a cycle in which no adapter that was called succeeded, the table
    is left as it was and the handler returns the 500 response with error
    "Failed to collect weather data"; and a cycle that changes the table
    called at least one adapter that succeeded. *)
Theorem no_data_no_record (e : env) (s : state) :
  started s ->
  let run := lambda_handler e s in
  ((forall name, In name (attempted (snd run)) -> succeeded e name = false) ->
   table (snd run) = table s
   /\ exists message, fst run = Ok (failure_response message))
  /\ (table (snd run) <> table s ->
      exists name, In name (attempted (snd run)) /\ succeeded e name = true).
Proof.
  intros St run. unfold started in St.
  destruct (get_api_keys e) as [k | x] eqn:K.
  2:{ destruct (@lambda_handler_no_clients e s) as [ex R].
      { intros k cs K'. congruence. }
      subst run. rewrite R. simpl. split.
      - intros _. split; [reflexivity | eexists; reflexivity].
      - intros H. congruence. }
  destruct (make_clients k) as [cs | x] eqn:C.
  2:{ destruct (@lambda_handler_no_clients e s) as [ex R].
      { intros k' cs K' C'. congruence. }
      subst run. rewrite R. simpl. split.
      - intros _. split; [reflexivity | eexists; reflexivity].
      - intros H. congruence. }
  subst run. rewrite (@lambda_handler_clients e s k cs K C).
  set (s1 := {| table := table s;
                attempted := (attempted s ++ map api_name cs)%list;
                ticks := ticks s |}).
  assert (Att : forall all_data,
    attempted (snd (catch (finish e all_data)
                      (fun ex =>
                         ret (failure_response (str_exn (builtin_message e) ex)))
                      s1))
    = map api_name cs).
  { intros all_data. unfold catch.
    pose proof (finish_attempted e all_data s1) as F.
    destruct (finish e all_data s1) as [[r | x] s2]; simpl in *;
      rewrite F; unfold s1; simpl; rewrite St; reflexivity. }
  rewrite Att. split.
  - intros H.
    assert (E : successes e cs = []).
    { apply successes_empty. intros c I. apply H, in_map, I. }
    rewrite E. unfold catch. rewrite finish_no_data. simpl.
    split; [reflexivity | eexists; reflexivity].
  - intros H. change (table s) with (table s1) in H.
    apply catch_finish_table in H.
    destruct (successes e cs) as [| d ds] eqn:E; [congruence |].
    assert (N : ~ (forall c, In c cs -> succeeded e (api_name c) = false)).
    { intros A. apply successes_empty in A. congruence. }
    clear - N.
    induction cs as [| c cs IH].
    + exfalso. apply N. intros c [].
    + destruct (succeeded e (api_name c)) eqn:S.
      * exists (api_name c). split; [left; reflexivity | exact S].
      * destruct IH as [name [I Sn]].
        -- intros A. apply N. intros c' [C | C]; [subst c'; exact S | apply A, C].
        -- exists name. split; [right; exact I | exact Sn].
Qed.

Lemma attempted_with_keys (e : env) (s : state) (keys : dict) :
  started s ->
  get_api_keys e = Ok (VDict keys) ->
  attempted (snd (lambda_handler e s)) = key_names keys.
Proof.
  intros St K. unfold started in St.
  destruct (make_clients_names keys) as [cs [C Nm]].
  rewrite (@lambda_handler_clients e s (VDict keys) cs K C).
  unfold catch.
  pose proof (finish_attempted e (successes e cs)
                {| table := table s;
                   attempted := (attempted s ++ map api_name cs)%list;
                   ticks := ticks s |}) as F.
  destruct (finish e (successes e cs) _) as [[r | x] s2]; simpl in *;
    rewrite F, St, Nm; reflexivity.
Qed.

Lemma key_names_spec (keys : dict) :
  In "openmeteo"%string (key_names keys)
  /\ (forall name, In name KEYED_ADAPTERS ->
        (In name (key_names keys) <-> truthy (get keys name) = true))
  /\ (forall name, In name (key_names keys) ->
        name = "openmeteo"%string \/ In name KEYED_ADAPTERS).
Proof.
  unfold key_names, KEYED_ADAPTERS.
  split; [| split].
  - rewrite !in_app_iff. simpl. tauto.
  - intros name I. simpl in I.
    destruct I as [I | [I | [I | [I | []]]]]; subst name;
      destruct (truthy (get keys "openweathermap"));
      destruct (truthy (get keys "weatherapi"));
      destruct (truthy (get keys "visualcrossing"));
      destruct (truthy (get keys "tomorrow_io"));
      simpl; split; intros H; try reflexivity; try discriminate H;
      repeat (destruct H as [H | H]; try discriminate H); tauto.
  - intros name.
    destruct (truthy (get keys "openweathermap"));
      destruct (truthy (get keys "weatherapi"));
      destruct (truthy (get keys "visualcrossing"));
      destruct (truthy (get keys "tomorrow_io"));
      simpl; intuition.
Qed.

(** C9. What a cycle attempts is decided by how the retrieval of the secret
    ends. When it returns a JSON object, the adapters called are openmeteo
    in every case and each of openweathermap, weatherapi, visualcrossing
    and tomorrow_io exactly when the object holds a non-empty key for it,
    and no other. When it fails with a ClientError, which [get_api_keys]
    turns into the empty dict, openmeteo alone is called. When it fails in
    any other way, or returns a JSON value that is not an object, no
    adapter is called, openmeteo included: the handler returns the 500
    response and leaves the state as it was. *)
Theorem adapters_attempted (e : env) (s : state) :
  started s ->
  let names := attempted (snd (lambda_handler e s)) in
  (forall keys,
      secret e = Ok (VDict keys) ->
      names = key_names keys
      /\ In "openmeteo"%string names
      /\ (forall name, In name KEYED_ADAPTERS ->
            (In name names <-> truthy (get keys name) = true))
      /\ (forall name, In name names ->
            name = "openmeteo"%string \/ In name KEYED_ADAPTERS))
  /\ (secret e = Raise ClientError -> names = ["openmeteo"%string])
  /\ (secret e <> Raise ClientError ->
      (forall keys, secret e <> Ok (VDict keys)) ->
      names = []
      /\ exists message,
           lambda_handler e s = (Ok (failure_response message), s)).
Proof.
  intros St names. split; [| split].
  - intros keys S.
    assert (K : get_api_keys e = Ok (VDict keys))
      by (unfold get_api_keys; rewrite S; reflexivity).
    assert (E : names = key_names keys)
      by exact (@attempted_with_keys e s keys St K).
    rewrite E. split; [reflexivity |]. apply key_names_spec.
  - intros S.
    assert (K : get_api_keys e = Ok (VDict []))
      by (unfold get_api_keys; rewrite S; reflexivity).
    exact (@attempted_with_keys e s [] St K).
  - intros NC ND.
    destruct (@lambda_handler_no_clients e s) as [ex R].
    { intros k cs K C. unfold get_api_keys in K.
      destruct (secret e) as [v | x] eqn:S.
      - injection K as <-.
        destruct v as [| q | t | l | keys];
          try (cbv in C; discriminate C).
        exact (ND keys eq_refl).
      - destruct x; try discriminate K. apply NC. reflexivity. }
    subst names. rewrite R. cbn [snd]. split; [exact St |].
    eexists. reflexivity.
Qed.

Lemma get_api_keys_client_error (e : env) :
  secret e = Raise ClientError -> get_api_keys e = Ok (VDict []).
Proof. intros H. unfold get_api_keys. rewrite H. reflexivity. Qed.

End CollectionCycle.

(** ** the properties at concrete readings *)

Section CollectorWitnesses.

Local Open Scope Q_scope.

Lemma example_readings_well_formed : well_formed Example.readings.
Proof. repeat constructor. Qed.

Lemma example_tied_well_formed : well_formed Example.tied.
Proof. repeat constructor. Qed.

(** C1 at the example of section 8 of the specification. *)
Lemma aggregate_field_statistics_witness :
  exists r,
    aggregate_weather_data exact Example.noon (map Some Example.readings) = Ok r
    /\ lookup r "temperature_avg" = Some (VNum 25)
    /\ lookup r "temperature_min" = Some (VNum 24)
    /\ lookup r "temperature_max" = Some (VNum 26)
    /\ lookup r "temperature_count" = Some (VNum 2).
Proof.
  destruct (@aggregate_field_statistics exact Example.noon
              (map Some Example.readings) "temperature")
    as [r [s [lo [hi [A [_ [_ [_ [_ [_ [_ [Cnt _]]]]]]]]]]]].
  - exact example_readings_well_formed.
  - left. reflexivity.
  - exists [("source"%string, VStr "a"); ("temperature"%string, VNum 24);
            ("weather"%string, VStr "Clear")].
    split; [left; reflexivity | reflexivity].
  - exists r. split; [exact A |].
    vm_compute in A. injection A as A. subst r.
    repeat split; reflexivity.
Defined.

(** C1, in binary64: three adapters report the double nearest to 15.395;
    their sum divided by 3 is one unit in the last place above that double,
    which lies on the other side of 15.395, so the record holds
    [temperature_avg] = 15.4 above [temperature_max] = 15.39. *)
Lemma rounded_mean_above_maximum :
  exists r avg hi,
    aggregate_weather_data binary64 Example.noon (map Some Example.agreeing)
    = Ok r
    /\ lookup r "temperature_avg" = Some (VNum avg)
    /\ lookup r "temperature_max" = Some (VNum hi)
    /\ hi < avg.
Proof.
  eexists. eexists. eexists.
  split; [vm_compute; reflexivity |].
  split; [reflexivity |]. split; [reflexivity |]. reflexivity.
Qed.

(** C2 at four readings that tie two against two. *)
Lemma aggregate_weather_consensus_witness :
  exists r,
    aggregate_weather_data binary64 Example.noon (map Some Example.tied) = Ok r
    /\ lookup r "weather_consensus" = Some (VStr "Cloudy").
Proof.
  destruct (@aggregate_weather_consensus binary64 Example.noon (map Some Example.tied))
    as [r [w [A [L [_ [_ [_ C]]]]]]].
  - exact example_tied_well_formed.
  - discriminate.
  - exists r. split; [exact A |]. rewrite L, (C eq_refl). reflexivity.
Defined.

(** C3 at the example of section 8: 3/3, 3/3 and 2/3 give 0.89. *)
Lemma quality_score_mean_ratio_witness :
  calculate_data_quality_score exact (map Some Example.readings) = 89 # 100.
Proof.
  rewrite (proj1 (proj2 (@quality_score_mean_ratio exact Example.readings
                           ltac:(repeat constructor; discriminate)))
             ltac:(reflexivity)).
  reflexivity.
Defined.

(** C3, in binary64. The readings of [Example.halfway] have mean 0.525 and
    score 0.53, and those of [Example.uneven] have mean 0.575 and score
    0.57: the quotient is the double nearest to the mean, which lies above
    0.525 in the first case and below 0.575 in the second. The mean rounded
    to two decimals is 0.52 or 0.53 in the first case and 0.57 or 0.58 in
    the second, as ties go; no rule for ties gives both scores. *)
Lemma score_off_rounded_mean :
  let score := calculate_data_quality_score binary64 in
  let mean := fun readings => Spec.mean (map Spec.field_ratio readings) in
  Forall (fun d => d <> []) Example.halfway
  /\ Forall (fun d => d <> []) Example.uneven
  /\ mean Example.halfway == 525 # 1000
  /\ score (map Some Example.halfway) = binary64 (53 # 100)
  /\ round2 (mean Example.halfway) == 52 # 100
  /\ Spec.round2_half_down (mean Example.halfway) == 52 # 100
  /\ ~ binary64 (53 # 100) == binary64 (52 # 100)
  /\ mean Example.uneven == 575 # 1000
  /\ score (map Some Example.uneven) = binary64 (57 # 100)
  /\ round2 (mean Example.uneven) == 58 # 100
  /\ Spec.round2_half_up (mean Example.uneven) == 58 # 100
  /\ ~ binary64 (57 # 100) == binary64 (58 # 100).
Proof.
  cbv zeta.
  split; [repeat constructor; discriminate |].
  split; [repeat constructor; discriminate |].
  vm_compute. repeat split; try reflexivity; intros H; discriminate H.
Qed.

(** C4 at the example of section 8. *)
Lemma aggregate_repeatable_up_to_timestamp_witness :
  exists r,
    aggregate_weather_data binary64 Example.noon (map Some Example.readings) = Ok r
    /\ lookup r "timestamp" = Some (VStr Example.noon).
Proof.
  eexists. split; [vm_compute; reflexivity |].
  apply (proj1 (proj2 (proj2 (@aggregate_repeatable_up_to_timestamp
                                binary64 Example.noon Example.noon
                                (map Some Example.readings))))).
  - vm_compute. reflexivity.
  - discriminate.
Defined.

(** C6 at the example of section 8, where no reading has a humidity. *)
Lemma aggregate_omitted_field_witness :
  exists r,
    aggregate_weather_data binary64 Example.noon (map Some Example.readings) = Ok r
    /\ lookup r "humidity_avg" = None
    /\ lookup r "humidity_count" = None.
Proof.
  destruct (@aggregate_omitted_field binary64 Example.noon (map Some Example.readings))
    as [r [A [O _]]].
  - exact example_readings_well_formed.
  - assert (H : forall d, In d (not_none (map Some Example.readings)) ->
                          Spec.supplies "humidity" d = false).
    { intros d [E | [E | [E | []]]]; subst d; reflexivity. }
    exists r. split; [exact A |]. split.
    + apply (O "humidity"%string "humidity_avg"%string);
        [simpl; tauto | exact H | simpl; tauto].
    + apply (O "humidity"%string "humidity_count"%string);
        [simpl; tauto | exact H | simpl; tauto].
Defined.

(** C8 at a cycle in which every adapter fails. *)
Lemma no_data_no_record_witness :
  table (snd (lambda_handler Example.failing_cycle Example.fresh)) = [].
Proof.
  destruct (@no_data_no_record Example.failing_cycle Example.fresh eq_refl)
    as [H _].
  apply H. intros name _. reflexivity.
Defined.

(** C9 at a secret that holds one key. *)
Lemma adapters_attempted_witness :
  attempted (snd (lambda_handler Example.failing_cycle Example.fresh))
  = ["openweathermap"; "openmeteo"]%string.
Proof.
  exact (proj1 (proj1 (@adapters_attempted Example.failing_cycle
                         Example.fresh eq_refl)
                  [("openweathermap"%string, VStr "key")] eq_refl)).
Defined.

(** C9, at a secret that is not valid JSON: [json.loads] raises a
    JSONDecodeError, which [get_api_keys] does not catch, and the cycle
    ends before any client is made. Open-Meteo, which needs no credential,
    is not called. *)
Lemma no_adapter_without_secret :
  secret Sample.locked = Raise (OtherError "JSONDecodeError")
  /\ started Example.fresh
  /\ attempted (snd (lambda_handler Sample.locked Example.fresh)) = []
  /\ ~ In "openmeteo"%string
        (attempted (snd (lambda_handler Sample.locked Example.fresh)))
  /\ fst (lambda_handler Sample.locked Example.fresh)
     = Ok (failure_response "Expecting value").
Proof.
  split; [reflexivity |]. split; [reflexivity |].
  split; [reflexivity |]. split; [intros H; exact H | reflexivity].
Qed.

(** The example of section 8 of the specification in binary64: five of
    five and two of five fields give 0.7. *)
Lemma quality_score_example :
  calculate_data_quality_score binary64
    [Some [("a"%string, VNum 1); ("b"%string, VNum 2); ("c"%string, VNum 3);
           ("d"%string, VNum 4); ("e"%string, VNum 5)];
     Some [("a"%string, VNum 1); ("b"%string, VNone); ("c"%string, VNone);
           ("d"%string, VNum 4); ("e"%string, VNone)]]
  = binary64 (7 # 10).
Proof. vm_compute. reflexivity. Qed.

(** A mean that lies halfway between two hundredths: the readings of
    [Example.halfway] have mean 0.525. Without rounding error the score is
    0.52, the even neighbour; in binary64 the quotient is the double nearest
    to 0.525, which lies above it, and the score is 0.53. *)
Lemma quality_score_halfway :
  Spec.mean (map Spec.field_ratio Example.halfway) == 525 # 1000
  /\ calculate_data_quality_score exact (map Some Example.halfway)
     = Qred (52 # 100)
  /\ calculate_data_quality_score binary64 (map Some Example.halfway)
     = binary64 (53 # 100).
Proof. vm_compute. repeat split; reflexivity. Qed.

End CollectorWitnesses.

End CollectorFacts.

(* ================================================================== *)
(** * Properties of weather_api/handler.py *)
(* ================================================================== *)

Module ApiFacts.
Import Py Api Spec Read Facts.

(** ** the two queries *)

Section Queries.

Local Open Scope Q_scope.

Lemma status_create_response (e : env) (code : Z) (body : value)
    (headers : option dict) :
  status (create_response e code body headers) = VNum (inject_Z code).
Proof. reflexivity. Qed.

Lemma status_handle_errors_raise (e : env) (what : string) (x : exn) :
  status (handle_errors e what (Raise x)) = VNum 500.
Proof. destruct x; reflexivity. Qed.

Lemma insert_desc_in (x y : dict) (l : list dict) :
  In y (insert_desc x l) <-> y = x \/ In y l.
Proof.
  induction l as [| z l IH]; simpl.
  - intuition.
  - destruct (String.leb (timestamp_of z) (timestamp_of x)); simpl.
    + intuition.
    + rewrite IH. intuition.
Qed.

Lemma sort_desc_in (y : dict) (l : list dict) : In y (sort_desc l) <-> In y l.
Proof.
  unfold sort_desc. induction l as [| x l IH]; simpl; [tauto |].
  rewrite insert_desc_in, IH. intuition.
Qed.

Lemma sort_desc_nil (l : list dict) : sort_desc l = [] <-> l = [].
Proof.
  split; intros H.
  - destruct l as [| x l]; [reflexivity |]. exfalso.
    assert (I : In x (sort_desc (x :: l))) by (apply sort_desc_in; left; reflexivity).
    rewrite H in I. destruct I.
  - subst l. reflexivity.
Qed.

Lemma insert_desc_length (x : dict) (l : list dict) :
  List.length (insert_desc x l) = S (List.length l).
Proof.
  induction l as [| y l IH]; [reflexivity |]. cbn [insert_desc].
  destruct (String.leb (timestamp_of y) (timestamp_of x)); [reflexivity |].
  cbn [List.length]. rewrite IH. reflexivity.
Qed.

Lemma sort_desc_length (l : list dict) :
  List.length (sort_desc l) = List.length l.
Proof.
  induction l as [| x l IH]; [reflexivity |].
  cbn [sort_desc fold_right]. fold (sort_desc l).
  rewrite insert_desc_length, IH. reflexivity.
Qed.

Lemma filter_nil {A : Type} (p : A -> bool) (l : list A) :
  filter p l = [] <-> forall x, In x l -> p x = false.
Proof.
  induction l as [| a l IH]; simpl.
  - split; [intros _ x [] | reflexivity].
  - destruct (p a) eqn:P.
    + split; [discriminate |]. intros H.
      specialize (H a (or_introl eq_refl)). congruence.
    + rewrite IH. split.
      * intros H x [E | I]; [subst x; exact P | apply H, I].
      * intros H x I. apply H. right. exact I.
Qed.

Lemma current_data_stored (e : env) (item : dict) :
  stored_record item = true -> exists data, current_data e item = Ok data.
Proof.
  unfold stored_record, current_data. intros S.
  destruct (get_default item "data_quality_score" (VNum 0)); try discriminate S.
  destruct (get_default item "weather_data" (VDict [])); try discriminate S.
  simpl. eexists. reflexivity.
Qed.

Lemma get_current_weather_cases (e : env) :
  match query_error e with
  | Some x =>
      get_current_weather e
      = handle_errors e "Failed to retrieve weather data" (Raise x)
  | None =>
      match sort_desc (filter (location_eq (LOCATION e)) (rows e)) with
      | [] =>
          get_current_weather e
          = create_response e 404
              (VDict
                 [("error"%string, VStr "No weather data found");
                  ("message"%string,
                   VStr "No weather data available for the specified location")])
              None
      | item :: _ =>
          get_current_weather e
          = handle_errors e "Failed to retrieve weather data"
              (data <- current_data e item ;;
               Ok (create_response e 200 data None))
      end
  end.
Proof.
  unfold get_current_weather, query_latest.
  destruct (query_error e); [reflexivity |].
  destruct (sort_desc _) as [| item items]; reflexivity.
Qed.

Lemma status_codes_differ : VNum 404 <> VNum 500 /\ VNum 404 <> VNum 200.
Proof. split; intros E; discriminate E. Qed.

Lemma get_historical_weather_window (e : env) (hours : Z) (lo hi : string) :
  history_window e hours = Ok (lo, hi) ->
  get_historical_weather e hours
  = handle_errors e "Failed to retrieve historical data"
      (items <- query_between e lo hi ;;
       match items with
       | [] =>
           Ok (create_response e 404
                 (VDict
                    [("error"%string, VStr "No historical data found");
                     ("message"%string,
                      VStr ("No weather data available for the past "
                            ++ str_of_int hours ++ " hours"))])
                 None)
       | _ :: _ =>
           historical_data <- history_entries e items ;;
           statistics <- statistics_of historical_data ;;
           Ok (create_response e 200
                 (VDict
                    [("location"%string, VStr (LOCATION e));
                     ("period"%string, VDict
                        [("start"%string, VStr lo);
                         ("end"%string, VStr hi);
                         ("hours"%string, VNum (inject_Z hours))]);
                     ("data_points"%string,
                      VNum (num_of_nat (List.length historical_data)));
                     ("statistics"%string, statistics);
                     ("history"%string, VList (map VDict historical_data))])
                 None)
       end).
Proof.
  unfold history_window, get_historical_weather. intros H.
  destruct (timedelta_hours hours) as [delta |]; [| discriminate H].
  cbn [bind] in *.
  destruct (datetime_sub (clock e 0%nat) delta) as [start |]; [| discriminate H].
  cbn [bind] in *. injection H as H1 H2. subst lo hi. reflexivity.
Qed.

Lemma get_historical_weather_no_window (e : env) (hours : Z) (x : exn) :
  history_window e hours = Raise x ->
  get_historical_weather e hours
  = handle_errors e "Failed to retrieve historical data" (Raise x).
Proof.
  unfold history_window, get_historical_weather. intros H.
  destruct (timedelta_hours hours) as [delta |]; cbn [bind] in *.
  - destruct (datetime_sub (clock e 0%nat) delta) as [start |]; cbn [bind] in *.
    + discriminate H.
    + injection H as H. subst x. reflexivity.
  - injection H as H. subst x. reflexivity.
Qed.

Lemma history_entry_stored (e : env) (item : dict) :
  stored_record item = true ->
  exists d, history_entry e item = Ok d
    /\ Spec.numeric_or_absent (get d "temperature") = true
    /\ Spec.numeric_or_absent (get d "humidity") = true
    /\ Spec.numeric_or_absent (get d "pressure") = true.
Proof.
  unfold stored_record, history_entry. intros S.
  destruct (get_default item "data_quality_score" (VNum 0)); try discriminate S.
  destruct (get_default item "weather_data" (VDict [])) as [| | | | wd];
    try discriminate S.
  apply andb_true_iff in S. destruct S as [S P].
  apply andb_true_iff in S. destruct S as [S H].
  apply andb_true_iff in S. destruct S as [S T].
  destruct (get_default wd "sources" (VList [])) eqn:Src; try discriminate S.
  cbn [float as_dict bind]. rewrite Src. cbn [len_of bind].
  eexists. split; [reflexivity |].
  repeat split; assumption.
Qed.

Lemma history_entries_stored (e : env) (items : list dict) :
  Forall (fun item => stored_record item = true) items ->
  exists ds, history_entries e items = Ok ds
    /\ List.length ds = List.length items
    /\ Forall (fun d =>
                 Spec.numeric_or_absent (get d "temperature") = true
                 /\ Spec.numeric_or_absent (get d "humidity") = true
                 /\ Spec.numeric_or_absent (get d "pressure") = true) ds.
Proof.
  induction 1 as [| item items S _ IH].
  - exists []. repeat split; constructor.
  - destruct (@history_entry_stored e item S) as [d [E P]].
    destruct IH as [ds [Es [L F]]].
    exists (d :: ds). cbn [history_entries]. rewrite E, Es. cbn [bind].
    repeat split; [simpl; rewrite L; reflexivity | constructor; assumption].
Qed.

Lemma truthy_column_numbers (key : string) (ds : list dict) :
  Forall (fun d => Spec.numeric_or_absent (get d key) = true) ds ->
  exists qs, numbers (truthy_column key ds) = Ok qs.
Proof.
  unfold truthy_column. induction 1 as [| d ds N _ IH]; [exists []; reflexivity |].
  cbn [map filter]. destruct (get d key) as [| q | | |]; try discriminate N.
  - exact IH.
  - destruct (truthy (VNum q)); [| exact IH].
    destruct IH as [qs E]. exists (q :: qs). cbn [numbers]. rewrite E. reflexivity.
Qed.

Lemma field_statistics_numbers (xs : list value) (qs : list Q) :
  numbers xs = Ok qs -> exists v, field_statistics xs = Ok v.
Proof.
  intros N. unfold field_statistics.
  destruct (truthy (VList xs)) eqn:T; [| eexists; reflexivity].
  destruct qs as [| q qs].
  - apply numbers_length in N. destruct xs; [discriminate T | discriminate N].
  - destruct (@sum_from_total exact xs (q :: qs) 0 N) as [s S].
    unfold sum, min, max. rewrite S, N. cbn [bind]. eexists. reflexivity.
Qed.

Lemma statistics_of_stored (ds : list dict) :
  Forall (fun d =>
            Spec.numeric_or_absent (get d "temperature") = true
            /\ Spec.numeric_or_absent (get d "humidity") = true
            /\ Spec.numeric_or_absent (get d "pressure") = true) ds ->
  exists v, statistics_of ds = Ok v.
Proof.
  intros F. destruct ds as [| d ds]; [eexists; reflexivity |].
  unfold statistics_of.
  destruct (@truthy_column_numbers "temperature" (d :: ds)) as [q1 N1].
  { eapply Forall_impl; [| exact F]. simpl. tauto. }
  destruct (@truthy_column_numbers "humidity" (d :: ds)) as [q2 N2].
  { eapply Forall_impl; [| exact F]. simpl. tauto. }
  destruct (@truthy_column_numbers "pressure" (d :: ds)) as [q3 N3].
  { eapply Forall_impl; [| exact F]. simpl. tauto. }
  destruct (@field_statistics_numbers _ _ N1) as [v1 E1].
  destruct (@field_statistics_numbers _ _ N2) as [v2 E2].
  destruct (@field_statistics_numbers _ _ N3) as [v3 E3].
  rewrite E1, E2, E3. cbn [bind]. eexists. reflexivity.
Qed.

End Queries.

(** ** the order of the sort key *)

Section SortKey.

Local Open Scope string_scope.

Lemma ascii_compare_refl (a : ascii) : Ascii.compare a a = Eq.
Proof. apply N.compare_refl. Qed.

Lemma ascii_compare_lt_trans (a b c : ascii) :
  Ascii.compare a b = Lt -> Ascii.compare b c = Lt -> Ascii.compare a c = Lt.
Proof.
  unfold Ascii.compare. rewrite !N.compare_lt_iff. apply N.lt_trans.
Qed.

Lemma compare_lt_trans (a b c : string) :
  String.compare a b = Lt -> String.compare b c = Lt ->
  String.compare a c = Lt.
Proof.
  revert b c. induction a as [| x a IH]; intros [| y b] [| z c];
    simpl; try discriminate; try reflexivity.
  destruct (Ascii.compare x y) eqn:XY; try discriminate;
    destruct (Ascii.compare y z) eqn:YZ; try discriminate; intros H1 H2.
  - apply Ascii.compare_eq_iff in XY, YZ. subst.
    rewrite ascii_compare_refl. exact (IH _ _ H1 H2).
  - apply Ascii.compare_eq_iff in XY. subst. rewrite YZ. reflexivity.
  - apply Ascii.compare_eq_iff in YZ. subst. rewrite XY. reflexivity.
  - rewrite (ascii_compare_lt_trans _ _ _ XY YZ). reflexivity.
Qed.

Lemma leb_trans (a b c : string) :
  String.leb a b = true -> String.leb b c = true -> String.leb a c = true.
Proof.
  unfold String.leb.
  destruct (String.compare a b) eqn:AB; try discriminate; intros _.
  - apply String.compare_eq_iff in AB. subst. trivial.
  - destruct (String.compare b c) eqn:BC; try discriminate; intros _.
    + apply String.compare_eq_iff in BC. subst. rewrite AB. reflexivity.
    + rewrite (compare_lt_trans _ _ _ AB BC). reflexivity.
Qed.

Lemma leb_refl (a : string) : String.leb a a = true.
Proof. destruct (String.leb_total a a); assumption. Qed.

(** The first item of [sort_desc] has the greatest sort key. *)
Lemma insert_desc_head (item : dict) (sorted : list dict) (x : dict)
    (xs : list dict) :
  (forall h t, sorted = h :: t ->
     forall y, In y sorted ->
       String.leb (timestamp_of y) (timestamp_of h) = true) ->
  insert_desc item sorted = x :: xs ->
  forall y, In y (item :: sorted) ->
    String.leb (timestamp_of y) (timestamp_of x) = true.
Proof.
  intros S E y I. destruct sorted as [| h t]; cbn [insert_desc] in E.
  - injection E as <- <-. destruct I as [<- | []]. apply leb_refl.
  - specialize (S h t eq_refl).
    destruct (String.leb (timestamp_of h) (timestamp_of item)) eqn:L.
    + injection E as <- <-. destruct I as [<- | I]; [apply leb_refl |].
      exact (leb_trans _ _ _ (S y I) L).
    + injection E as <- _. destruct I as [<- | I]; [| exact (S y I)].
      destruct (String.leb_total (timestamp_of item) (timestamp_of h))
        as [T | T]; [exact T | congruence].
Qed.

Lemma sort_desc_head (items : list dict) (x : dict) (xs : list dict) :
  sort_desc items = x :: xs ->
  forall y, In y items ->
    String.leb (timestamp_of y) (timestamp_of x) = true.
Proof.
  revert x xs. induction items as [| item items IH]; intros x xs E y I;
    [destruct I |].
  cbn [sort_desc fold_right] in E. fold (sort_desc items) in E.
  apply (@insert_desc_head item (sort_desc items) x xs); [| exact E |].
  - intros h t H z Z. apply (IH h t H). apply sort_desc_in, Z.
  - destruct I as [<- | I]; [left; reflexivity |].
    right. apply sort_desc_in, I.
Qed.

End SortKey.

(** ** what the two handlers answer *)

Section NotFound.

Local Open Scope Q_scope.
Local Open Scope string_scope.

Lemma current_data_shows (e : env) (item : dict) :
  stored_record item = true ->
  exists data, current_data e item = Ok data /\ shows_record item data.
Proof.
  unfold stored_record, current_data, shows_record. intros S.
  destruct (get_default item "data_quality_score" (VNum 0)) as [| score | | |];
    try discriminate S.
  destruct (get_default item "weather_data" (VDict [])) as [| | | | wd];
    try discriminate S.
  cbn [float bind as_dict]. eexists. split; [reflexivity |].
  eexists. exists wd, score. eexists. eexists. eexists. eexists.
  split; [reflexivity |]. split; [reflexivity |]. split; [reflexivity |].
  split; [reflexivity |]. split; [reflexivity |]. split; [reflexivity |].
  split; [reflexivity |]. split; [reflexivity |].
  split.
  { intros field I. unfold BLOCK_FIELDS in I. cbn [In] in I.
    destruct I as [<- | [<- | [<- | [<- | [<- | [<- | [<- | []]]]]]]];
      (eexists; split; [reflexivity |];
       split; [reflexivity |]; split; reflexivity). }
  split; [reflexivity |]. split; [reflexivity |]. split; [reflexivity |].
  split; [reflexivity |]. split; [reflexivity |]. split; [reflexivity |].
  split; reflexivity.
Qed.

Lemma history_entry_lists (e : env) (item : dict) :
  stored_record item = true ->
  exists entry, history_entry e item = Ok entry /\ lists_record item entry.
Proof.
  unfold stored_record, history_entry, lists_record. intros S.
  destruct (get_default item "data_quality_score" (VNum 0)) as [| score | | |];
    try discriminate S.
  destruct (get_default item "weather_data" (VDict [])) as [| | | | wd];
    try discriminate S.
  destruct (get_default wd "sources" (VList [])) as [| | | sources |] eqn:Src;
    try discriminate S.
  cbn [float bind as_dict]. rewrite Src. cbn [len_of bind].
  eexists. split; [reflexivity |]. exists wd, score, sources.
  split; [reflexivity |]. split; [reflexivity |]. split; [exact Src |].
  split; [reflexivity |]. split; [reflexivity |]. split; [reflexivity |].
  split; [reflexivity |]. split; [reflexivity |]. split; [reflexivity |].
  split; [reflexivity |]. split; reflexivity.
Qed.

Lemma history_entries_list (e : env) (items history : list dict) :
  Forall (fun item => stored_record item = true) items ->
  history_entries e items = Ok history ->
  Forall2 lists_record items history.
Proof.
  intros F. revert history.
  induction F as [| item items S _ IH]; intros history H;
    cbn [history_entries] in H.
  - injection H as <-. constructor.
  - destruct (@history_entry_lists e item S) as [entry [E L]].
    rewrite E in H. cbn [bind] in H.
    destruct (history_entries e items) as [ds |]; cbn [bind] in H;
      [| discriminate H].
    injection H as <-. constructor; [exact L | exact (IH ds eq_refl)].
Qed.

Lemma statistics_of_shape (ds : list dict) (v : value) :
  ds <> [] ->
  statistics_of ds = Ok v ->
  exists t h p,
    v = VDict [("temperature", t); ("humidity", h); ("pressure", p)]
    /\ field_statistics (truthy_column "temperature" ds) = Ok t
    /\ field_statistics (truthy_column "humidity" ds) = Ok h
    /\ field_statistics (truthy_column "pressure" ds) = Ok p.
Proof.
  intros N H. destruct ds as [| d ds]; [congruence |].
  unfold statistics_of in H.
  destruct (field_statistics (truthy_column "temperature" (d :: ds)))
    as [t |]; cbn [bind] in H; [| discriminate H].
  destruct (field_statistics (truthy_column "humidity" (d :: ds)))
    as [h |]; cbn [bind] in H; [| discriminate H].
  destruct (field_statistics (truthy_column "pressure" (d :: ds)))
    as [p |]; cbn [bind] in H; [| discriminate H].
  injection H as <-. exists t, h, p. repeat split; reflexivity.
Qed.

Lemma history_window_ends (e : env) (hours : Z) (lo hi : string) :
  history_window e hours = Ok (lo, hi) ->
  lo = isoformat e (clock e 0%nat - hours * 3600000000)
  /\ hi = isoformat e (clock e 0%nat).
Proof.
  unfold history_window, timedelta_hours, datetime_sub. intros H.
  destruct ((-999999999 <=? hours * 3600000000 / 86400000000)
            && (hours * 3600000000 / 86400000000 <=? 999999999))%Z;
    cbn [bind] in H; [| discriminate H].
  destruct ((MIN_INSTANT <=? clock e 0%nat - hours * 3600000000)
            && (clock e 0%nat - hours * 3600000000 <=? MAX_INSTANT))%Z;
    cbn [bind] in H; [| discriminate H].
  injection H as <- <-. split; reflexivity.
Qed.

(** C7. [get_current_weather]: when the store fails the response is a 500;
    when it answers, the response is a 404 exactly when no item of the table
    has the location; otherwise the response is built from an item of the
    location whose timestamp no other item of the location exceeds, and when
    that item is a stored record the response is a 200 whose body shows it.
    [get_historical_weather]: when the store fails, or the window cannot be
    computed, the response is a 500. When the start of the window is printed
    after its end, the store refuses the query and the response is the 500
    of a database error, whatever the table holds. Hence the response is a
    404 exactly when the window is in order and no item of the location lies
    in it; when the window is in order and items lie in it that are stored
    records, the response is a 200 that lists them, newest first, one entry
    per item, with their number and their statistics. With timestamps that
    are printed in the order of the instants, the window is in order for
    every [hours >= 0] and never for [hours < 0]. *)
Theorem not_found_exactly_when_empty (e : env) (hours : Z) :
  (* getLatest *)
  (forall x, query_error e = Some x -> status (get_current_weather e) = VNum 500)
  /\ (query_error e = None ->
      (status (get_current_weather e) = VNum 404 <->
       forall item, In item (rows e) -> location_eq (LOCATION e) item = false))
  /\ (query_error e = None ->
      (exists item, In item (rows e) /\ location_eq (LOCATION e) item = true) ->
      exists latest,
        In latest (rows e) /\ location_eq (LOCATION e) latest = true
        /\ (forall other,
              In other (rows e) -> location_eq (LOCATION e) other = true ->
              String.leb (timestamp_of other) (timestamp_of latest) = true)
        /\ (stored_record latest = true ->
            status (get_current_weather e) = VNum 200
            /\ shows_record latest (get (get_current_weather e) "body")))
  (* getHistory *)
  /\ (forall x, query_error e = Some x ->
        status (get_historical_weather e hours) = VNum 500)
  /\ (forall x, history_window e hours = Raise x ->
        status (get_historical_weather e hours) = VNum 500)
  /\ (forall lo hi,
        query_error e = None ->
        history_window e hours = Ok (lo, hi) ->
        let hits := filter (in_window e lo hi) (rows e) in
        (String.leb lo hi = false ->
         status (get_historical_weather e hours) = VNum 500
         /\ get (get_historical_weather e hours) "body"
            = VDict [("error", VStr "Database error");
                     ("message", VStr "Failed to retrieve historical data")])
        /\ (status (get_historical_weather e hours) = VNum 404 <->
            String.leb lo hi = true
            /\ forall item, In item (rows e) -> in_window e lo hi item = false)
        /\ (String.leb lo hi = true ->
            hits <> [] ->
            Forall (fun item => stored_record item = true) hits ->
            exists history statistics body t h p,
              Forall2 lists_record (sort_desc hits) history
              /\ (forall item,
                    In item (sort_desc hits) <->
                    In item (rows e) /\ in_window e lo hi item = true)
              /\ status (get_historical_weather e hours) = VNum 200
              /\ get (get_historical_weather e hours) "body" = VDict body
              /\ get body "location" = VStr (LOCATION e)
              /\ get body "period"
                 = VDict [("start", VStr lo); ("end", VStr hi);
                          ("hours", VNum (inject_Z hours))]
              /\ get body "data_points"
                 = VNum (num_of_nat (List.length hits))
              /\ get body "history" = VList (map VDict history)
              /\ get body "statistics" = statistics
              /\ statistics
                 = VDict [("temperature", t); ("humidity", h);
                          ("pressure", p)]
              /\ field_statistics (truthy_column "temperature" history)
                 = Ok t
              /\ field_statistics (truthy_column "humidity" history) = Ok h
              /\ field_statistics (truthy_column "pressure" history)
                 = Ok p))
  (* the window of a request *)
  /\ (forall lo hi,
        history_window e hours = Ok (lo, hi) ->
        (forall a b, (a <= b)%Z ->
           String.leb (isoformat e a) (isoformat e b) = true) ->
        (0 <= hours)%Z ->
        String.leb lo hi = true)
  /\ (forall lo hi,
        history_window e hours = Ok (lo, hi) ->
        (forall a b, (a < b)%Z ->
           String.leb (isoformat e b) (isoformat e a) = false) ->
        (hours < 0)%Z ->
        String.leb lo hi = false).
Proof.
  split; [| split; [| split; [| split; [| split; [| split; [| split]]]]]].
  - intros x Q. pose proof (get_current_weather_cases e) as C.
    rewrite Q in C. rewrite C. apply status_handle_errors_raise.
  - intros Q. pose proof (get_current_weather_cases e) as C. rewrite Q in C.
    rewrite <- filter_nil, <- sort_desc_nil.
    destruct (sort_desc _) as [| item items]; rewrite C.
    + split; reflexivity.
    + split; [| discriminate]. intros H. exfalso.
      destruct (current_data e item) as [data | x]; cbn [bind] in H.
      * discriminate H.
      * rewrite status_handle_errors_raise in H. discriminate H.
  - intros Q [item [I L]].
    pose proof (get_current_weather_cases e) as C. rewrite Q in C.
    destruct (sort_desc _) as [| latest items] eqn:S.
    + exfalso. apply (proj1 (sort_desc_nil _)) in S.
      pose proof (proj1 (filter_nil _ _) S item I) as S'.
      rewrite S' in L. discriminate L.
    + assert (In latest (sort_desc (filter (location_eq (LOCATION e)) (rows e))))
        as M by (rewrite S; left; reflexivity).
      apply sort_desc_in, filter_In in M. destruct M as [M1 M2].
      exists latest. split; [exact M1 |]. split; [exact M2 |].
      split.
      * intros other O1 O2. apply (sort_desc_head _ S).
        apply filter_In. split; assumption.
      * intros St.
        destruct (@current_data_shows e latest St) as [data [D Sh]].
        rewrite C, D. cbn [bind handle_errors]. split; [reflexivity |].
        exact Sh.
  - intros x Q.
    destruct (history_window e hours) as [[lo hi] | y] eqn:W.
    + rewrite (@get_historical_weather_window e hours lo hi W).
      unfold query_between. rewrite Q. apply status_handle_errors_raise.
    + rewrite (@get_historical_weather_no_window e hours y W).
      apply status_handle_errors_raise.
  - intros x W. rewrite (@get_historical_weather_no_window e hours x W).
    apply status_handle_errors_raise.
  - intros lo hi Q W hits.
    rewrite (@get_historical_weather_window e hours lo hi W).
    unfold query_between. rewrite Q.
    change (fun item : dict =>
              location_eq (LOCATION e) item && timestamp_between lo hi item)
      with (in_window e lo hi).
    fold hits.
    destruct (String.leb lo hi) eqn:L; cbn [bind].
    + split; [intros H; discriminate H |]. split.
      * rewrite <- filter_nil, <- sort_desc_nil. fold hits.
        destruct (sort_desc hits) as [| item items].
        -- split; [intros _; split; reflexivity | reflexivity].
        -- split; [| intros [_ H]; discriminate H]. intros H. exfalso.
           destruct (history_entries e (item :: items)) as [hd | x];
             cbn [bind] in H.
           ++ destruct (statistics_of hd) as [st | x]; cbn [bind] in H.
              ** discriminate H.
              ** rewrite status_handle_errors_raise in H. discriminate H.
           ++ rewrite status_handle_errors_raise in H. discriminate H.
      * intros _ NE St.
        assert (F : Forall (fun item => stored_record item = true)
                      (sort_desc hits)).
        { apply Forall_forall. intros x X.
          apply (proj1 (sort_desc_in _ _)) in X.
          exact (proj1 (Forall_forall _ _) St x X). }
        destruct (@history_entries_stored e _ F) as [hd [E [Len P]]].
        destruct (@statistics_of_stored hd P) as [st Es].
        pose proof (@history_entries_list e _ hd F E) as Ls.
        pose proof (sort_desc_length hits) as Lh.
        assert (Nh : hd <> []).
        { intros ->. rewrite Lh in Len. destruct hits; [congruence |].
          discriminate Len. }
        destruct (@statistics_of_shape hd st Nh Es)
          as [t [h [p [Sv [T [H P']]]]]].
        exists hd, st. eexists. exists t, h, p.
        split; [exact Ls |].
        split.
        { intros item. rewrite sort_desc_in. unfold hits.
          rewrite filter_In. reflexivity. }
        destruct (sort_desc hits) as [| first rest] eqn:S.
        { exfalso. apply (proj1 (sort_desc_nil _)) in S. congruence. }
        rewrite E. cbn [bind]. rewrite Es. cbn [bind handle_errors].
        split; [reflexivity |]. split; [reflexivity |].
        split; [reflexivity |]. split; [reflexivity |].
        split.
        { cbn [get get_default lookup String.eqb Ascii.eqb Bool.eqb andb].
          rewrite Len, <- Lh. reflexivity. }
        split; [reflexivity |]. split; [reflexivity |].
        split; [exact Sv |]. split; [exact T |]. split; [exact H | exact P'].
    + split; [intros _; split; reflexivity |]. split.
      * split; [intros H; discriminate H | intros [H _]; discriminate H].
      * intros H. discriminate H.
  - intros lo hi W Mono Pos.
    destruct (@history_window_ends e hours lo hi W) as [-> ->].
    apply Mono. lia.
  - intros lo hi W Mono Neg.
    destruct (@history_window_ends e hours lo hi W) as [-> ->].
    apply Mono. lia.
Qed.

End NotFound.

(** ** statistics of a window; the router *)

Section HistoryAndRouting.

Local Open Scope Q_scope.

Lemma truthy_column_skips_zero (key : string) (d : dict) (ds : list dict) :
  get d key = VNum 0 ->
  truthy_column key (d :: ds) = truthy_column key ds.
Proof.
  intros H. unfold truthy_column. cbn [map filter]. rewrite H. reflexivity.
Qed.

(** C5. A window of two records whose [temperature_avg] are 0 and 10:
    [get_historical_weather] counts two data points and reports the
    temperature statistics of the second record alone (avg, min and max all
    10, where the two values have mean 5 and minimum 0). In a window whose
    only record is at 0 degrees, avg, min and max of the temperature are all
    [None], although one record contributes: [if d.get('temperature')] drops
    a zero average with the absent ones. *)
Theorem statistics_drop_zero_average :
  exists body,
    get (get_historical_weather (Example.api Example.freezing) 24) "body"
    = VDict body
    /\ get body "data_points" = VNum 2
    /\ get body "statistics"
       = VDict
           [("temperature"%string,
             VDict [("avg"%string, VNum 10); ("min"%string, VNum 10);
                    ("max"%string, VNum 10)]);
            ("humidity"%string,
             VDict [("avg"%string, VNum 65); ("min"%string, VNum 65);
                    ("max"%string, VNum 65)]);
            ("pressure"%string,
             VDict [("avg"%string, VNum 1013); ("min"%string, VNum 1013);
                    ("max"%string, VNum 1013)])]
    /\ (exists alone,
          get
            (get_historical_weather
               (Example.api
                  [Example.record "2024-01-15T10:00:00+00:00" (VNum 0)])
               24)
            "body"
          = VDict alone
          /\ get alone "data_points" = VNum 1
          /\ attr_get (get alone "statistics") "temperature"
             = Ok (VDict [("avg"%string, VNone); ("min"%string, VNone);
                          ("max"%string, VNone)])).
Proof.
  eexists. split; [vm_compute; reflexivity |].
  split; [vm_compute; reflexivity |].
  split; [vm_compute; reflexivity |].
  eexists. split; [vm_compute; reflexivity |].
  split; vm_compute; reflexivity.
Qed.

Lemma lambda_handler_history (e : env) (given : value) :
  lambda_handler e (history_event given)
  = (hours <- int given ;;
     Ok (get_historical_weather e (Z.min hours 168))).
Proof. reflexivity. Qed.

(** C10. There is an event for which [lambda_handler] raises: the route
    /weather/history with hours=abc ends in the ValueError of [int], which
    nothing catches; any exception of [int] leaves the handler the same way.
    When [int] returns, [get_historical_weather] is called with the minimum
    of the hours and 168, which for negative hours is the hours themselves. *)
Theorem history_hours_unvalidated :
  (exists event, forall e, lambda_handler e event = Raise ValueError)
  /\ (forall e, lambda_handler e (history_event (VStr "abc")) = Raise ValueError)
  /\ (forall e given x,
        int given = Raise x -> lambda_handler e (history_event given) = Raise x)
  /\ (forall e given hours,
        int given = Ok hours ->
        lambda_handler e (history_event given)
        = Ok (get_historical_weather e (Z.min hours 168))
        /\ ((hours < 0)%Z ->
            lambda_handler e (history_event given)
            = Ok (get_historical_weather e hours))).
Proof.
  split; [| split; [| split]].
  - exists (history_event (VStr "abc")). intros e. reflexivity.
  - intros e. reflexivity.
  - intros e given x H. rewrite lambda_handler_history, H. reflexivity.
  - intros e given hours H. rewrite lambda_handler_history, H. cbn [bind].
    split; [reflexivity |]. intros N. rewrite Z.min_l by lia. reflexivity.
Qed.

(** C10 at hours=-5. *)
Lemma history_hours_unvalidated_witness :
  lambda_handler (Example.api []) (history_event (VStr "-5"))
  = Ok (get_historical_weather (Example.api []) (-5)).
Proof.
  apply (proj2 (proj2 (proj2 history_hours_unvalidated))
           (Example.api []) (VStr "-5") (-5)%Z eq_refl).
  reflexivity.
Defined.

End HistoryAndRouting.

(** ** the properties at a concrete table *)

Section ApiWitnesses.

Local Open Scope Q_scope.

(** C7 at a table of two records of the last day: the current weather is
    the record of 11:00, and the history of 24 hours lists both. *)
Lemma not_found_exactly_when_empty_witness :
  status (get_current_weather (Example.api Example.freezing)) = VNum 200
  /\ (exists data,
        get (get_current_weather (Example.api Example.freezing)) "body"
        = VDict data
        /\ get data "timestamp" = VStr "2024-01-15T11:00:00+00:00")
  /\ status (get_historical_weather (Example.api Example.freezing) 24)
     = VNum 200
  /\ status (get_current_weather (Example.api [])) = VNum 404
  /\ status (get_historical_weather (Example.api []) 24) = VNum 404.
Proof.
  pose proof (@not_found_exactly_when_empty (Example.api Example.freezing) 24)
    as [_ [_ [C [_ [_ [H _]]]]]].
  destruct (C eq_refl) as [latest [I [_ [Top Sh]]]].
  { eexists. split; [left; reflexivity | reflexivity]. }
  assert (E : latest
              = Example.record "2024-01-15T11:00:00+00:00" (VNum 10)).
  { destruct I as [<- | [<- | []]]; [| reflexivity].
    specialize (Top (Example.record "2024-01-15T11:00:00+00:00" (VNum 10))
                  ltac:(right; left; reflexivity) eq_refl).
    vm_compute in Top. discriminate Top. }
  subst latest. destruct (Sh eq_refl) as [S200 Shows].
  split; [exact S200 |]. split.
  { destruct Shows
      as [data [wd [score [c [w [sp [dr [B [_ [_ [_ [T _]]]]]]]]]]]].
    exists data. split; [exact B | exact T]. }
  destruct (H "2024-01-14T12:00:00+00:00"%string Example.noon eq_refl eq_refl)
    as [_ [_ Hist]].
  destruct (Hist eq_refl ltac:(discriminate)
              ltac:(repeat constructor))
    as [history [statistics [body [t [h [p [_ [_ [S _]]]]]]]]].
  split; [exact S |].
  pose proof (@not_found_exactly_when_empty (Example.api []) 24)
    as [_ [L [_ [_ [_ [H0 _]]]]]].
  split.
  - apply (proj2 (L eq_refl)). intros item [].
  - apply (proj2 (proj1 (proj2 (H0 "2024-01-14T12:00:00+00:00"%string
                                   Example.noon eq_refl eq_refl)))).
    split; [reflexivity | intros item []].
Defined.

(** C7, at a window of minus five hours over an empty table: the window
    runs from 17:00 back to noon and holds no record, the store refuses the
    query, and the response is the 500 of a database error, not a 404. The
    router passes such a request on: it bounds [hours] only from above. *)
Lemma empty_window_without_not_found :
  history_window (Sample.reader []) (-5)
  = Ok ("2024-01-15T17:00:00+00:00"%string, Example.noon)
  /\ filter (in_window (Sample.reader []) "2024-01-15T17:00:00+00:00"
               Example.noon)
       (rows (Sample.reader []))
     = []
  /\ status (get_historical_weather (Sample.reader []) (-5)) = VNum 500
  /\ status (get_historical_weather (Sample.reader []) (-5)) <> VNum 404
  /\ lambda_handler (Sample.reader []) (history_event (VStr "-5"))
     = Ok (get_historical_weather (Sample.reader []) (-5)).
Proof.
  split; [reflexivity |]. split; [reflexivity |]. split; [reflexivity |].
  split; [intros H; discriminate H | reflexivity].
Qed.

End ApiWitnesses.

End ApiFacts.

(* ================================================================== *)
(** * Properties of the provider adapters *)
(* ================================================================== *)

Module AdapterFacts.
Import Py Collector Spec Adapters Facts.

Section Readings.

Local Open Scope Q_scope.
Local Open Scope string_scope.

(** Runs a [try] body that ended in a reading back through its binds. *)
Ltac returned H :=
  repeat
    match type of H with
    | or_none (bind ?m _) = Some _ =>
        let x := fresh "x" in
        let E := fresh "E" in
        destruct m as [x |] eqn:E; cbn [bind or_none] in H; [| discriminate H]
    end;
  cbn [or_none] in H.

Lemma openweathermap_keys (response : outcome value) (r : dict) :
  OpenWeatherMapClient_fetch_data response = Some r ->
  map fst r = reading_keys "openweathermap"
  /\ get r "source" = VStr "openweathermap".
Proof.
  unfold OpenWeatherMapClient_fetch_data. intros H. returned H.
  injection H as <-. split; reflexivity.
Qed.

Lemma weatherapi_keys (fl : rounding) (response : outcome value) (r : dict) :
  WeatherAPIComClient_fetch_data fl response = Some r ->
  map fst r = reading_keys "weatherapi" /\ get r "source" = VStr "weatherapi".
Proof.
  unfold WeatherAPIComClient_fetch_data. intros H. returned H.
  injection H as <-. split; reflexivity.
Qed.

Lemma visualcrossing_keys (fl : rounding) (response : outcome value)
    (r : dict) :
  VisualCrossingClient_fetch_data fl response = Some r ->
  map fst r = reading_keys "visualcrossing"
  /\ get r "source" = VStr "visualcrossing".
Proof.
  unfold VisualCrossingClient_fetch_data. intros H. returned H.
  injection H as <-. split; reflexivity.
Qed.

Lemma openmeteo_keys (response : outcome value) (r : dict) :
  OpenMeteoClient_fetch_data response = Some r ->
  map fst r = reading_keys "openmeteo" /\ get r "source" = VStr "openmeteo".
Proof.
  unfold OpenMeteoClient_fetch_data. intros H. returned H.
  injection H as <-. split; reflexivity.
Qed.

Lemma tomorrow_io_keys (response : outcome value) (r : dict) :
  TomorrowIOClient_fetch_data response = Some r ->
  map fst r = reading_keys "tomorrow_io" /\ get r "source" = VStr "tomorrow_io".
Proof.
  unfold TomorrowIOClient_fetch_data. intros H. returned H.
  injection H as <-. split; reflexivity.
Qed.

Lemma fetch_data_keys (fl : rounding) (responses : string -> outcome value)
    (name : string) (r : dict) :
  Adapters.fetch_data fl responses name = Some r ->
  map fst r = reading_keys name /\ get r "source" = VStr name.
Proof.
  unfold Adapters.fetch_data. intros H.
  destruct (String.eqb_spec name "openweathermap") as [-> | _];
    [exact (openweathermap_keys _ H) |].
  destruct (String.eqb_spec name "weatherapi") as [-> | _];
    [exact (weatherapi_keys _ _ H) |].
  destruct (String.eqb_spec name "visualcrossing") as [-> | _];
    [exact (visualcrossing_keys _ _ H) |].
  destruct (String.eqb_spec name "openmeteo") as [-> | _];
    [exact (openmeteo_keys _ H) |].
  destruct (String.eqb_spec name "tomorrow_io") as [-> | _];
    [exact (tomorrow_io_keys _ H) |].
  discriminate H.
Qed.

(** X1. A reading that an adapter returns has the keys of that adapter's dict
    literal, in its order, whatever the provider's document holds, and its
    [source] is the adapter's name: twelve keys for OpenWeatherMap and
    Open-Meteo, thirteen for the other three. It is never the empty dict,
    so [if data:] in the collection loop keeps every reading returned. *)
Theorem reading_schema :
  (forall response r,
      OpenWeatherMapClient_fetch_data response = Some r ->
      map fst r = reading_keys "openweathermap"
      /\ get r "source" = VStr "openweathermap")
  /\ (forall fl response r,
        WeatherAPIComClient_fetch_data fl response = Some r ->
        map fst r = reading_keys "weatherapi"
        /\ get r "source" = VStr "weatherapi")
  /\ (forall fl response r,
        VisualCrossingClient_fetch_data fl response = Some r ->
        map fst r = reading_keys "visualcrossing"
        /\ get r "source" = VStr "visualcrossing")
  /\ (forall response r,
        OpenMeteoClient_fetch_data response = Some r ->
        map fst r = reading_keys "openmeteo"
        /\ get r "source" = VStr "openmeteo")
  /\ (forall response r,
        TomorrowIOClient_fetch_data response = Some r ->
        map fst r = reading_keys "tomorrow_io"
        /\ get r "source" = VStr "tomorrow_io")
  /\ (forall fl responses name r,
        Adapters.fetch_data fl responses name = Some r ->
        truthy (VDict r) = true
        /\ (12 <= List.length r <= 13)%nat).
Proof.
  split; [exact openweathermap_keys |].
  split; [intros fl; exact (@weatherapi_keys fl) |].
  split; [intros fl; exact (@visualcrossing_keys fl) |].
  split; [exact openmeteo_keys |].
  split; [exact tomorrow_io_keys |].
  intros fl responses name r H.
  destruct (fetch_data_keys _ _ _ H) as [K _].
  assert (L : List.length r = List.length (reading_keys name)).
  { rewrite <- K. symmetry. apply length_map. }
  unfold Adapters.fetch_data in H. unfold reading_keys in L.
  destruct (String.eqb name "openweathermap");
    [destruct r;
       [discriminate L | simpl in L |- *; split; [reflexivity | lia]] |].
  destruct (String.eqb name "weatherapi");
    [destruct r;
       [discriminate L | simpl in L |- *; split; [reflexivity | lia]] |].
  destruct (String.eqb name "visualcrossing");
    [destruct r;
       [discriminate L | simpl in L |- *; split; [reflexivity | lia]] |].
  destruct (String.eqb name "openmeteo");
    [destruct r;
       [discriminate L | simpl in L |- *; split; [reflexivity | lia]] |].
  destruct (String.eqb name "tomorrow_io");
    [destruct r;
       [discriminate L | simpl in L |- *; split; [reflexivity | lia]] |].
  discriminate H.
Qed.

(** X2. Visual Crossing: a document without a [days] entry, or with an empty
    one, gives no reading, even when it has [currentConditions]: the default
    of [data.get("currentConditions", data["days"][0])] is evaluated before
    the call. *)
Theorem visualcrossing_needs_first_day (fl : rounding) (d : dict) :
  lookup d "days" = None \/ lookup d "days" = Some (VList []) ->
  VisualCrossingClient_fetch_data fl (Ok (VDict d)) = None.
Proof.
  intros H. unfold VisualCrossingClient_fetch_data, getitem, subscript.
  cbn [bind attr_get attr_get_default].
  destruct H as [H | H]; rewrite H; reflexivity.
Qed.

Lemma codes_get_value (codes : list (Z * string)) (code : value)
    (default w : string) :
  codes_get codes code default = Ok w ->
  w = default \/ In w (map snd codes).
Proof.
  unfold codes_get. intros H.
  destruct code as [| q | s | l | d]; try discriminate H;
    try (injection H as <-; left; reflexivity).
  destruct (find _ codes) as [kv |] eqn:F.
  - injection H as <-. right. apply find_some in F. apply in_map, F.
  - injection H as <-. left. reflexivity.
Qed.

Lemma open_meteo_descriptions :
  Forall (fun w => w <> EmptyString) (map snd OPEN_METEO_CODES).
Proof. repeat constructor; discriminate. Qed.

Lemma tomorrow_io_descriptions :
  Forall (fun w => w <> EmptyString) (map snd TOMORROW_IO_CODES).
Proof. repeat constructor; discriminate. Qed.

(** X3. The [weather] of an Open-Meteo or Tomorrow.io reading is never
    absent: it is a non-empty string, equal to [description], and either an
    entry of the adapter's code table or "Unknown". *)
Theorem coded_weather_never_absent :
  (forall response r,
      OpenMeteoClient_fetch_data response = Some r ->
      exists w,
        get r "weather" = VStr w /\ get r "description" = VStr w
        /\ w <> EmptyString
        /\ (w = "Unknown" \/ In w (map snd OPEN_METEO_CODES)))
  /\ (forall response r,
        TomorrowIOClient_fetch_data response = Some r ->
        exists w,
          get r "weather" = VStr w /\ get r "description" = VStr w
          /\ w <> EmptyString
          /\ (w = "Unknown" \/ In w (map snd TOMORROW_IO_CODES))).
Proof.
  split; intros response r H.
  - unfold OpenMeteoClient_fetch_data in H. returned H. injection H as <-.
    match goal with
    | C : codes_get _ _ _ = Ok ?w |- _ =>
        exists w; apply codes_get_value in C
    end.
    split; [reflexivity |]. split; [reflexivity |]. split; [| assumption].
    match goal with
    | C : _ \/ _ |- _ => destruct C as [-> | I]; [discriminate |]
    end.
    exact (proj1 (Forall_forall _ _) open_meteo_descriptions _ I).
  - unfold TomorrowIOClient_fetch_data in H. returned H. injection H as <-.
    match goal with
    | C : codes_get _ _ _ = Ok ?w |- _ =>
        exists w; apply codes_get_value in C
    end.
    split; [reflexivity |]. split; [reflexivity |]. split; [| assumption].
    match goal with
    | C : _ \/ _ |- _ => destruct C as [-> | I]; [discriminate |]
    end.
    exact (proj1 (Forall_forall _ _) tomorrow_io_descriptions _ I).
Qed.

(** X4. Open-Meteo: when [current] has no [weather_code] the reading says
    "Clear sky" with code 0, and when the code is null it says "Unknown";
    the measurements are optional, a missing one is [None]. Tomorrow.io:
    when [values] has no [weatherCode] the reading says "Clear". *)
Theorem missing_weather_code_reads_clear :
  (forall d current,
      lookup d "current" = Some (VDict current) ->
      lookup current "weather_code" = None ->
      exists r,
        OpenMeteoClient_fetch_data (Ok (VDict d)) = Some r
        /\ get r "weather" = VStr "Clear sky"
        /\ get r "weather_code" = VNum 0
        /\ get r "temperature" = get current "temperature_2m")
  /\ (forall d current,
        lookup d "current" = Some (VDict current) ->
        lookup current "weather_code" = Some VNone ->
        exists r,
          OpenMeteoClient_fetch_data (Ok (VDict d)) = Some r
          /\ get r "weather" = VStr "Unknown")
  /\ (forall d inner values,
        lookup d "data" = Some (VDict inner) ->
        lookup inner "values" = Some (VDict values) ->
        lookup values "weatherCode" = None ->
        exists r,
          TomorrowIOClient_fetch_data (Ok (VDict d)) = Some r
          /\ get r "weather" = VStr "Clear"
          /\ get r "temperature" = get values "temperature").
Proof.
  split; [| split].
  - intros d current C W.
    unfold OpenMeteoClient_fetch_data, getitem, subscript, attr_get,
      attr_get_default, get_default.
    cbn [bind]. rewrite C. cbn [bind]. rewrite W. cbn [bind or_none].
    eexists. split; [reflexivity |]. repeat split.
  - intros d current C W.
    unfold OpenMeteoClient_fetch_data, getitem, subscript, attr_get,
      attr_get_default, get_default.
    cbn [bind]. rewrite C. cbn [bind]. rewrite W. cbn [bind or_none].
    eexists. split; reflexivity.
  - intros d inner values D V W.
    unfold TomorrowIOClient_fetch_data, getitem, subscript, attr_get,
      attr_get_default, get_default.
    cbn [bind]. rewrite D. cbn [bind]. rewrite V. cbn [bind]. rewrite W.
    cbn [bind or_none]. eexists. split; [reflexivity |]. repeat split.
Qed.

(** X5. Visual Crossing: when the current conditions have neither
    [windspeed] nor [visibility], the reading holds the number 0 for
    [wind_speed] and for [visibility], not [None] (in any arithmetic that
    keeps 0). *)
Theorem visualcrossing_absent_reads_zero (fl : rounding) (d current : dict)
    (day : value) (days : list value) :
  (forall q, q == 0 -> fl q == 0) ->
  lookup d "currentConditions" = Some (VDict current) ->
  lookup d "days" = Some (VList (day :: days)) ->
  lookup current "windspeed" = None ->
  lookup current "visibility" = None ->
  exists r wind_speed visibility,
    VisualCrossingClient_fetch_data fl (Ok (VDict d)) = Some r
    /\ get r "wind_speed" = VNum wind_speed /\ wind_speed == 0
    /\ get r "visibility" = VNum visibility /\ visibility == 0.
Proof.
  intros Z C D W V.
  unfold VisualCrossingClient_fetch_data, getitem, subscript, attr_get,
    attr_get_default, get_default.
  cbn [bind]. rewrite C, D. cbn [bind getitem0 first]. rewrite W, V.
  cbn [bind mul_float mul_int or_none].
  eexists. eexists. eexists. split; [reflexivity |].
  split; [reflexivity |]. split; [apply Z; ring |].
  split; [reflexivity |]. apply Z. ring.
Qed.

(** X6. A measurement that cannot be converted loses the whole reading:
    WeatherAPI returns [None] when [wind_kph] is not a number, Visual
    Crossing when [windspeed] is present and not a number (null included);
    OpenWeatherMap returns [None] when the document lacks one of [main],
    [wind], [clouds], [weather] and [dt]. *)
Theorem unusable_measurement_loses_reading :
  (forall fl d current v,
      lookup d "current" = Some (VDict current) ->
      lookup current "wind_kph" = Some v ->
      (forall q, v <> VNum q) ->
      WeatherAPIComClient_fetch_data fl (Ok (VDict d)) = None)
  /\ (forall fl d current v,
        lookup d "currentConditions" = Some (VDict current) ->
        lookup current "windspeed" = Some v ->
        (forall q, v <> VNum q) ->
        VisualCrossingClient_fetch_data fl (Ok (VDict d)) = None)
  /\ (forall d k,
        In k ["main"; "wind"; "clouds"; "weather"; "dt"] ->
        lookup d k = None ->
        OpenWeatherMapClient_fetch_data (Ok (VDict d)) = None).
Proof.
  split; [| split].
  - intros fl d current v C W N.
    unfold WeatherAPIComClient_fetch_data, getitem, subscript.
    cbn [bind]. rewrite C. cbn [bind].
    destruct (lookup current "temp_c"); cbn [bind or_none]; [| reflexivity].
    destruct (lookup current "feelslike_c"); cbn [bind or_none];
      [| reflexivity].
    destruct (lookup current "humidity"); cbn [bind or_none]; [| reflexivity].
    destruct (lookup current "pressure_mb"); cbn [bind or_none];
      [| reflexivity].
    rewrite W. destruct v; try reflexivity. exfalso. exact (N _ eq_refl).
  - intros fl d current v C W N.
    unfold VisualCrossingClient_fetch_data, getitem, subscript, attr_get,
      attr_get_default, get_default.
    cbn [bind]. rewrite C.
    destruct (lookup d "days") as [days |]; cbn [bind or_none]; [| reflexivity].
    destruct (getitem0 days); cbn [bind or_none]; [| reflexivity].
    rewrite W. destruct v; try reflexivity. exfalso. exact (N _ eq_refl).
  - intros d k I L.
    unfold OpenWeatherMapClient_fetch_data, getitem, subscript, attr_get,
      attr_get_default.
    cbn [bind].
    simpl in I.
    repeat (destruct I as [<- | I]; [rewrite L |]); try destruct I;
      repeat
        (cbn [bind or_none];
         match goal with
         | |- None = None => reflexivity
         | |- or_none (bind ?m _) = None => destruct m
         end).
Qed.

End Readings.

End AdapterFacts.

(* ================================================================== *)
(** * Further properties of weather_collector/handler.py *)
(* ================================================================== *)

Module CycleFacts.
Import Py Collector Spec Aux Cycle Facts CollectorFacts.

(** ** what aggregate_weather_data does with any list *)

Section AnyReadings.

Local Open Scope Q_scope.
Local Open Scope string_scope.

Lemma add_consensus_other (readings : list dict) (r r' : dict) (k : string) :
  add_consensus readings r = Ok r' -> k <> "weather_consensus" ->
  lookup r' k = lookup r k.
Proof.
  unfold add_consensus. intros H N.
  destruct (truthy (VList (weather_descriptions readings))).
  - destruct (Counter (weather_descriptions readings)) as [c |];
      cbn [bind] in H; [| discriminate H].
    destruct (first (most_common_1 c)) as [top |]; cbn [bind] in H;
      [| discriminate H].
    injection H as <-. rewrite lookup_set.
    destruct (String.eqb_spec "weather_consensus" k);
      [congruence | reflexivity].
  - injection H as <-. reflexivity.
Qed.

Lemma fixed_key_not_derived (k f : string) :
  In k ["sources"; "timestamp"; "raw_data"] -> In f NUMERIC_FIELDS ->
  ~ In k (Spec.derived_keys f).
Proof.
  intros K I D. apply (@derived_key_fresh f k I D).
  simpl in K |- *. tauto.
Qed.

(** The three keys the result dict starts with are never overwritten. *)
Lemma aggregate_fixed_keys (fl : rounding) (now : string)
    (dps : list (option dict)) (d : dict) (ds : list dict) (r : dict) :
  not_none dps = d :: ds ->
  aggregate_weather_data fl now dps = Ok r ->
  lookup r "sources"
  = Some (VList (map (fun x => get x "source") (d :: ds)))
  /\ lookup r "timestamp" = Some (VStr now)
  /\ lookup r "raw_data" = Some (VList (map VDict (d :: ds))).
Proof.
  intros V H. rewrite (@aggregate_unfold fl now dps d ds V) in H.
  destruct (stats_loop fl _ NUMERIC_FIELDS _) as [r1 |] eqn:S;
    cbn [bind] in H; [| discriminate H].
  assert (K : forall k, In k ["sources"; "timestamp"; "raw_data"] ->
              lookup r k
              = lookup (result_init now
                          (fold_left collect_point (d :: ds) aggregated_init)
                          (d :: ds)) k).
  { intros k I.
    rewrite (@add_consensus_other (d :: ds) r1 r k H)
      by (simpl in I; intuition (subst; discriminate)).
    eapply stats_loop_other; [| exact S].
    intros f F. apply fixed_key_not_derived; assumption. }
  rewrite !K by (simpl; tauto).
  unfold result_init. rewrite aggregated_sources. repeat split.
Qed.

Lemma numbers_in_bad (xs : list value) (v : value) :
  In v xs -> Spec.numeric_or_absent v = false -> numbers xs = Raise TypeError.
Proof.
  induction xs as [| x xs IH]; intros I B; [destruct I |].
  destruct I as [-> | I].
  - destruct v; try discriminate B; reflexivity.
  - cbn [numbers]. destruct x; try reflexivity.
    rewrite (IH I B). reflexivity.
Qed.

Lemma sum_from_raise (fl : rounding) (xs : list value) (acc : Q) (x : exn) :
  numbers xs = Raise x -> sum_from fl acc xs = Raise TypeError.
Proof.
  revert acc x. induction xs as [| v xs IH]; intros acc x H;
    [discriminate H |].
  cbn [numbers sum_from] in *. destruct v; try reflexivity.
  destruct (numbers xs) as [qs | y]; [discriminate H |].
  apply (IH _ y). reflexivity.
Qed.

Lemma field_stats_raise (fl : rounding) (agg : collected) (r : dict)
    (f : string) (x : exn) :
  numbers (item agg f) = Raise x -> field_stats fl agg r f = Raise TypeError.
Proof.
  intros N. unfold field_stats, sum.
  destruct (item agg f) as [| v vs]; [discriminate N |].
  cbn [truthy]. rewrite (@sum_from_raise fl (v :: vs) 0 x N). reflexivity.
Qed.

Lemma stats_loop_bad (fl : rounding) (agg : collected) (fs : list string)
    (r0 : dict) (f : string) (x : exn) :
  In f fs -> numbers (item agg f) = Raise x ->
  stats_loop fl agg fs (Ok r0) = Raise TypeError.
Proof.
  revert r0. induction fs as [| g fs IH]; intros r0 I N; [destruct I |].
  rewrite stats_loop_cons.
  destruct (numbers (item agg g)) as [qs | y] eqn:G.
  - destruct (@field_stats_total fl agg r0 g qs G) as [r1 F]. rewrite F.
    destruct I as [-> | I]; [congruence |]. exact (IH r1 I N).
  - rewrite (@field_stats_raise fl agg r0 g y G). apply stats_loop_raise.
Qed.

Lemma column_in (readings : list dict) (d : dict) (f : string) :
  In d readings -> is_none (get d f) = false ->
  In (get d f) (column f readings).
Proof.
  intros I N. unfold column. apply in_flat_map. exists d. split; [exact I |].
  unfold present. rewrite N. left. reflexivity.
Qed.

Lemma non_number_raises (fl : rounding) (now : string)
    (readings : list dict) (d : dict) (f : string) :
  In d readings -> In f NUMERIC_FIELDS ->
  Spec.numeric_or_absent (get d f) = false ->
  aggregate_weather_data fl now (map Some readings) = Raise TypeError.
Proof.
  intros I F B.
  destruct readings as [| d0 ds]; [destruct I |].
  rewrite (@aggregate_unfold fl now (map Some (d0 :: ds)) d0 ds)
    by apply not_none_map_Some.
  assert (N : numbers
                (item (fold_left collect_point (d0 :: ds) aggregated_init) f)
              = Raise TypeError).
  { rewrite aggregated_field by exact F.
    apply (@numbers_in_bad _ (get d f)); [| exact B].
    apply column_in; [exact I |].
    destruct (get d f); try reflexivity. discriminate B. }
  rewrite (@stats_loop_bad fl _ NUMERIC_FIELDS _ f TypeError F N).
  reflexivity.
Qed.

(** X7. [aggregate_weather_data] raises TypeError as soon as one reading
    supplies, for one of the nine numeric fields, a value that is neither
    [None] nor a number: [sum] meets it. *)
Theorem aggregate_rejects_non_numbers (fl : rounding) (now : string)
    (data_points : list (option dict)) (d : dict) (f : string) :
  In (Some d) data_points -> In f NUMERIC_FIELDS ->
  Spec.numeric_or_absent (get d f) = false ->
  aggregate_weather_data fl now data_points = Raise TypeError.
Proof.
  intros I F B.
  assert (V : In d (not_none data_points)).
  { unfold not_none. apply in_flat_map. exists (Some d).
    split; [exact I | left; reflexivity]. }
  destruct (not_none data_points) as [| d0 ds] eqn:E; [destruct V |].
  rewrite (@aggregate_unfold fl now data_points d0 ds E).
  rewrite <- (@aggregate_unfold fl now (map Some (d0 :: ds)) d0 ds
                (not_none_map_Some (d0 :: ds))).
  exact (@non_number_raises fl now (d0 :: ds) d f V F B).
Qed.

(** X8. When [aggregate_weather_data] returns, either no data point is a
    reading and the result is the empty dict, or [raw_data] is the list of
    the readings ([None] entries dropped, order kept), [sources] holds the
    [source] of each of them in the same order ([None] for a reading without
    one), and [timestamp] is the reading of the clock. *)
Theorem aggregate_sources_and_raw_data (fl : rounding) (now : string)
    (data_points : list (option dict)) (r : dict) :
  aggregate_weather_data fl now data_points = Ok r ->
  (not_none data_points = [] /\ r = [])
  \/ (not_none data_points <> []
      /\ get r "raw_data" = VList (map VDict (not_none data_points))
      /\ get r "sources"
         = VList (map (fun d => get d "source") (not_none data_points))
      /\ get r "timestamp" = VStr now).
Proof.
  intros H. destruct (not_none data_points) as [| d ds] eqn:V.
  - left. split; [reflexivity |].
    rewrite (@aggregate_no_readings fl now data_points V) in H.
    injection H as <-. reflexivity.
  - right. split; [discriminate |].
    destruct (@aggregate_fixed_keys fl now data_points d ds r V H)
      as [S [T R]].
    unfold get, get_default. rewrite S, T, R. repeat split.
Qed.

End AnyReadings.

(** ** the run of one cycle *)

Section Runs.

Local Open Scope Q_scope.
Local Open Scope string_scope.

Lemma status_failure_response (message : string) :
  get (failure_response message) "statusCode" = VNum 500.
Proof. reflexivity. Qed.

(** The part of the cycle after the fetch loop, case by case. *)
Lemma finish_aggregate_raises (e : env) (d : dict) (ds : list dict)
    (s : state) (x : exn) :
  aggregate_weather_data (float_arithmetic e) (iso (clock e (ticks s)))
    (map Some (d :: ds)) = Raise x ->
  finish e (d :: ds) s
  = (Raise x,
     {| table := table s; attempted := attempted s; ticks := S (ticks s) |}).
Proof.
  intros A. unfold finish, mbind, read_clock, lift. rewrite A. reflexivity.
Qed.

Lemma finish_store_fails (e : env) (d : dict) (ds : list dict) (s : state)
    (agg : dict) (x : exn) :
  aggregate_weather_data (float_arithmetic e) (iso (clock e (ticks s)))
    (map Some (d :: ds)) = Ok agg ->
  put_item_error e = Some x ->
  finish e (d :: ds) s
  = (Raise x,
     {| table := table s; attempted := attempted s;
        ticks := S (S (S (ticks s))) |}).
Proof.
  intros A P.
  unfold finish, mbind, read_clock, lift, store_in_dynamodb, put_item.
  rewrite A. cbn [table attempted ticks]. unfold mbind, read_clock.
  cbn [table attempted ticks]. rewrite P. reflexivity.
Qed.

Lemma finish_stores (e : env) (d : dict) (ds : list dict) (s : state)
    (agg : dict) :
  aggregate_weather_data (float_arithmetic e) (iso (clock e (ticks s)))
    (map Some (d :: ds)) = Ok agg ->
  put_item_error e = None ->
  let score :=
    calculate_data_quality_score (float_arithmetic e) (map Some (d :: ds)) in
  let item :=
    [("location", VStr (LOCATION e));
     ("timestamp", VStr (iso (clock e (S (S (ticks s))))));
     ("weather_data", VDict (convert_to_dynamodb_format agg));
     ("data_quality_score", VNum (Decimal_str score));
     ("ttl",
      VNum (inject_Z (epoch (clock e (S (ticks s))) + 30 * 24 * 60 * 60)))] in
  finish e (d :: ds) s
  = (Ok [("statusCode", VNum 200);
         ("body",
          VDict
            [("message", VStr "Weather data collected successfully");
             ("location", VStr (LOCATION e));
             ("sources_count", VNum (num_of_nat (List.length (d :: ds))));
             ("quality_score", VNum score);
             ("timestamp", VStr (iso (clock e (ticks s))))])],
     {| table :=
          (filter (fun old => negb (same_key old item)) (table s)
           ++ [item])%list;
        attempted := attempted s;
        ticks := S (S (S (ticks s))) |}).
Proof.
  intros A P score item.
  destruct (@aggregate_fixed_keys (float_arithmetic e) (iso (clock e (ticks s)))
              (map Some (d :: ds)) d ds agg (not_none_map_Some (d :: ds)) A)
    as [_ [T _]].
  unfold finish, mbind, read_clock, lift, store_in_dynamodb, put_item.
  rewrite A. cbn [table attempted ticks]. unfold mbind, read_clock.
  cbn [table attempted ticks]. rewrite P.
  unfold subscript. rewrite T. reflexivity.
Qed.

(** Every run of the handler is one of two kinds. *)
Lemma lambda_handler_cases (e : env) (s : state) :
  (exists message s',
      lambda_handler e s = (Ok (failure_response message), s')
      /\ table s' = table s)
  \/ (exists api_keys clients d ds agg,
        get_api_keys e = Ok api_keys
        /\ make_clients api_keys = Ok clients
        /\ successes e clients = d :: ds
        /\ aggregate_weather_data (float_arithmetic e)
             (iso (clock e (ticks s))) (map Some (d :: ds)) = Ok agg
        /\ put_item_error e = None
        /\ lambda_handler e s
           = finish e (d :: ds)
               {| table := table s;
                  attempted := (attempted s ++ map api_name clients)%list;
                  ticks := ticks s |}).
Proof.
  destruct (get_api_keys e) as [k | x] eqn:K.
  2:{ left. destruct (@lambda_handler_no_clients e s) as [ex R].
      { intros k cs K'. congruence. }
      eexists. exists s. split; [exact R | reflexivity]. }
  destruct (make_clients k) as [cs | x] eqn:C.
  2:{ left. destruct (@lambda_handler_no_clients e s) as [ex R].
      { intros k' cs K' C'. congruence. }
      eexists. exists s. split; [exact R | reflexivity]. }
  rewrite (@lambda_handler_clients e s k cs K C).
  set (s1 := {| table := table s;
                attempted := (attempted s ++ map api_name cs)%list;
                ticks := ticks s |}).
  destruct (successes e cs) as [| d ds] eqn:S.
  - left. unfold catch. rewrite finish_no_data. cbn [ret].
    eexists. exists s1. split; reflexivity.
  - destruct (aggregate_weather_data (float_arithmetic e)
                (iso (clock e (ticks s))) (map Some (d :: ds)))
      as [agg | x] eqn:A.
    + destruct (put_item_error e) as [x |] eqn:P.
      * left. unfold catch.
        rewrite (@finish_store_fails e d ds s1 agg x A P). cbn [ret].
        eexists. eexists. split; reflexivity.
      * right. exists k, cs, d, ds, agg.
        repeat (split; [assumption || reflexivity |]).
        unfold catch.
        pose proof (@finish_stores e d ds s1 agg A P) as F.
        cbv zeta in F. fold s1. rewrite F. reflexivity.
    + left. unfold catch.
      rewrite (@finish_aggregate_raises e d ds s1 x A). cbn [ret].
      eexists. eexists. split; reflexivity.
Qed.

(** X9. The collector's [lambda_handler] never raises: it returns a response
    whose status is 200 or 500. When the status is 500 the table is as it
    was before the cycle, and the status is 500 whenever [put_item]
    fails. *)
Theorem failed_cycle_leaves_table (e : env) (s : state) :
  exists response,
    fst (lambda_handler e s) = Ok response
    /\ (get response "statusCode" = VNum 200
        \/ get response "statusCode" = VNum 500)
    /\ (get response "statusCode" = VNum 500 ->
        table (snd (lambda_handler e s)) = table s)
    /\ (forall x, put_item_error e = Some x ->
        get response "statusCode" = VNum 500).
Proof.
  destruct (lambda_handler_cases e s)
    as [[message [s' [R T]]] | [k [cs [d [ds [agg [K [C [S [A [P R]]]]]]]]]]].
  - rewrite R. eexists. split; [reflexivity |].
    split; [right; reflexivity |]. split; [intros _; exact T |].
    intros x _. reflexivity.
  - rewrite R.
    pose proof (@finish_stores e d ds
                  {| table := table s;
                     attempted := (attempted s ++ map api_name cs)%list;
                     ticks := ticks s |} agg A P) as F.
    cbv zeta in F. rewrite F. cbn [fst snd].
    eexists. split; [reflexivity |]. split; [left; reflexivity |].
    split; [intros H; discriminate H |]. intros x X. congruence.
Qed.


(** X11. When reading the secret fails with anything but a ClientError, or
    the secret is not a JSON object, the cycle ends in the 500 response at
    once: no adapter is called (Open-Meteo included), the clock is not read
    and the table is not written. *)
Theorem secret_failure_stops_cycle (e : env) (s : state) :
  (forall x,
      secret e = Raise x -> x <> ClientError ->
      lambda_handler e s
      = (Ok (failure_response (str_exn (builtin_message e) x)), s))
  /\ (forall v,
        secret e = Ok v -> (forall keys, v <> VDict keys) ->
        lambda_handler e s
        = (Ok (failure_response (builtin_message e AttributeError)), s)).
Proof.
  split.
  - intros x X N. rewrite lambda_handler_unfold.
    unfold catch, mbind, lift, get_api_keys. rewrite X.
    destruct x; try reflexivity. congruence.
  - intros v V N. rewrite lambda_handler_unfold.
    unfold catch, mbind, lift, get_api_keys. rewrite V.
    destruct v; try reflexivity. exfalso. exact (N _ eq_refl).
Qed.

(** X12. When one adapter that is called returns a reading that holds, for a
    numeric field, a value that is neither [None] nor a number, the cycle
    answers 500 with the message of the TypeError and the table is left as
    it was: the readings of the other adapters are lost with it. *)
Theorem malformed_reading_fails_cycle (e : env) (s : state) (keys : dict)
    (name : string) (d : dict) (f : string) :
  get_api_keys e = Ok (VDict keys) ->
  In name (key_names keys) ->
  fetch_data e name = Some d ->
  d <> [] ->
  In f NUMERIC_FIELDS ->
  Spec.numeric_or_absent (get d f) = false ->
  fst (lambda_handler e s)
  = Ok (failure_response (builtin_message e TypeError))
  /\ table (snd (lambda_handler e s)) = table s.
Proof.
  intros K I F N Fi B.
  destruct (make_clients_names keys) as [cs [C Nm]].
  rewrite (@lambda_handler_clients e s (VDict keys) cs K C).
  assert (D : In d (successes e cs)).
  { unfold successes. apply in_flat_map.
    rewrite <- Nm in I. apply in_map_iff in I. destruct I as [c [E Ic]].
    exists c. split; [exact Ic |]. rewrite E, F.
    destruct d; [congruence | left; reflexivity]. }
  destruct (successes e cs) as [| d0 ds] eqn:S; [destruct D |].
  unfold catch.
  rewrite (@finish_aggregate_raises e d0 ds _ TypeError).
  - split; reflexivity.
  - apply (@non_number_raises (float_arithmetic e) _
             (d0 :: ds) d f D Fi B).
Qed.

End Runs.

(** ** the cycle over the adapters *)

Section OverAdapters.

Local Open Scope Q_scope.
Local Open Scope string_scope.

Variable e : env.
Variable responses : string -> outcome value.
Hypothesis adapters :
  forall name,
    fetch_data e name = Adapters.fetch_data (float_arithmetic e) responses name.

Lemma successes_answered (clients : list client) :
  map (fun d => get d "source") (successes e clients)
  = map VStr
      (filter (Adapters.answered (float_arithmetic e) responses)
         (map api_name clients)).
Proof.
  unfold successes, Adapters.answered.
  induction clients as [| c cs IH]; [reflexivity |].
  cbn [flat_map map filter]. rewrite map_app, IH, adapters.
  destruct (Adapters.fetch_data (float_arithmetic e) responses (api_name c))
    as [d |] eqn:F; [| reflexivity].
  destruct (AdapterFacts.fetch_data_keys _ _ _ F) as [K Src].
  assert (T : truthy (VDict d) = true).
  { destruct d; [| reflexivity].
    unfold Adapters.fetch_data, Adapters.reading_keys in *.
    repeat
      match goal with
      | H : context [if ?b then _ else _] |- _ =>
          destruct b; [discriminate K |]
      end.
    discriminate F. }
  rewrite T. cbn [map app]. rewrite Src. reflexivity.
Qed.

(** X13. When the clients are the adapters above, a cycle that answers 200
    has stored an item whose [weather_data.sources] are the names of the
    adapters that returned a reading, in the order openweathermap,
    weatherapi, visualcrossing, openmeteo, tomorrow_io, and the body's
    [sources_count] is their number. *)
Theorem record_lists_answering_adapters (s : state) (keys response : dict) :
  get_api_keys e = Ok (VDict keys) ->
  fst (lambda_handler e s) = Ok response ->
  get response "statusCode" = VNum 200 ->
  exists item agg body,
    In item (table (snd (lambda_handler e s)))
    /\ get item "weather_data" = VDict agg
    /\ get agg "sources"
       = VList
           (map VStr
              (filter (Adapters.answered (float_arithmetic e) responses)
                 (key_names keys)))
    /\ get response "body" = VDict body
    /\ get body "sources_count"
       = VNum
           (num_of_nat
              (List.length
                 (filter (Adapters.answered (float_arithmetic e) responses)
                    (key_names keys)))).
Proof.
  intros K R H.
  destruct (lambda_handler_cases e s)
    as [[message [s' [F T]]] | [k [cs [d [ds [agg [K' [C [S [A [P F]]]]]]]]]]].
  - rewrite F in R. injection R as <-. discriminate H.
  - rewrite K in K'. injection K' as <-.
    destruct (make_clients_names keys) as [cs' [C' Nm]].
    rewrite C in C'. injection C' as <-.
    rewrite F in R |- *.
    pose proof (@finish_stores e d ds
                  {| table := table s;
                     attempted := (attempted s ++ map api_name cs)%list;
                     ticks := ticks s |} agg A P) as G.
    cbv zeta in G. rewrite G in R |- *. cbn [fst snd] in *.
    injection R as <-.
    destruct (@aggregate_fixed_keys (float_arithmetic e)
                (iso (clock e (ticks s))) (map Some (d :: ds)) d ds agg
                (not_none_map_Some (d :: ds)) A) as [Src _].
    pose proof (successes_answered cs) as Q. rewrite S, Nm in Q.
    eexists. exists (convert_to_dynamodb_format agg). eexists.
    split; [apply in_or_app; right; left; reflexivity |].
    split; [reflexivity |].
    split.
    { rewrite get_convert. unfold get, get_default. rewrite Src, Q.
      cbn [convert_value]. rewrite map_map. reflexivity. }
    split; [reflexivity |].
    change (get _ "sources_count")
      with (VNum (num_of_nat (List.length (d :: ds)))).
    rewrite <- (length_map (fun x => get x "source") (d :: ds)), Q, length_map.
    reflexivity.
Qed.

End OverAdapters.

(** ** the range of the quality score *)

Section ScoreRange.

Local Open Scope Q_scope.

Variable fl : rounding.
Variable bound : nat.
Hypothesis fl_monotone : forall x y, x <= y -> fl x <= fl y.
Hypothesis fl_counts :
  forall n, (n <= bound)%nat -> fl (num_of_nat n) == num_of_nat n.

Lemma num_of_nat_S (n : nat) : num_of_nat (S n) == num_of_nat n + 1.
Proof.
  unfold num_of_nat. rewrite Nat2Z.inj_succ. unfold Z.succ.
  rewrite inject_Z_plus. reflexivity.
Qed.

Lemma num_of_nat_le (m n : nat) :
  (m <= n)%nat -> num_of_nat m <= num_of_nat n.
Proof.
  intros H. unfold num_of_nat. rewrite <- Zle_Qle. lia.
Qed.

Lemma fl_between (lo hi : nat) (x : Q) :
  (hi <= bound)%nat -> (lo <= hi)%nat ->
  num_of_nat lo <= x <= num_of_nat hi ->
  num_of_nat lo <= fl x <= num_of_nat hi.
Proof.
  intros B L [X1 X2]. split.
  - rewrite <- (fl_counts (n := lo)) by lia. apply fl_monotone, X1.
  - rewrite <- (fl_counts (n := hi)) by lia. apply fl_monotone, X2.
Qed.

Lemma ratio_between (p : dict) :
  p <> [] ->
  0 <= num_of_nat
         (List.length (filter (fun v => negb (is_none v)) (values p)))
       / num_of_nat (len p) <= 1.
Proof.
  intros N.
  assert (P : 0 < num_of_nat (len p)).
  { apply num_of_nat_pos. unfold len. destruct p; [congruence | simpl; lia]. }
  assert (L : num_of_nat
                (List.length (filter (fun v => negb (is_none v)) (values p)))
              <= num_of_nat (len p)).
  { apply num_of_nat_le. unfold len, values.
    rewrite <- (length_map snd p). apply filter_length_le. }
  assert (Z : 0 <= num_of_nat
                     (List.length
                        (filter (fun v => negb (is_none v)) (values p)))).
  { apply (num_of_nat_le (m := 0)). lia. }
  generalize dependent
    (num_of_nat (List.length (filter (fun v => negb (is_none v)) (values p)))).
  generalize dependent (num_of_nat (len p)). intros n P v L Z. split.
  - apply Qle_shift_div_l; [exact P | lra].
  - apply Qle_shift_div_r; [exact P | lra].
Qed.

Lemma add_point_score_between (k : nat) (acc : Q) (point : option dict) :
  (S k <= bound)%nat ->
  0 <= acc <= num_of_nat k ->
  0 <= add_point_score fl acc point <= num_of_nat (S k).
Proof.
  intros B [A1 A2].
  assert (Up : num_of_nat k <= num_of_nat (S k)) by (apply num_of_nat_le; lia).
  unfold add_point_score.
  destruct point as [p |];
    [| split; [exact A1 | exact (Qle_trans _ _ _ A2 Up)]].
  destruct p as [| kv p];
    [split; [exact A1 | exact (Qle_trans _ _ _ A2 Up)] |].
  cbn [truthy].
  pose proof (@ratio_between (kv :: p) ltac:(discriminate)) as R.
  pose proof (@fl_between 0 1 _ ltac:(lia) ltac:(lia) R) as [R1 R2].
  change (num_of_nat 0) with 0 in *. change (num_of_nat 1) with 1 in *.
  apply (@fl_between 0 (S k)); [exact B | lia |].
  change (num_of_nat 0) with 0. rewrite num_of_nat_S. split; lra.
Qed.

Lemma score_loop_between (points : list (option dict)) (k : nat) (acc : Q) :
  (k + List.length points <= bound)%nat ->
  0 <= acc <= num_of_nat k ->
  0 <= fold_left (add_point_score fl) points acc
    <= num_of_nat (k + List.length points).
Proof.
  revert k acc. induction points as [| p ps IH]; intros k acc B A.
  - cbn [fold_left List.length]. rewrite Nat.add_0_r. exact A.
  - cbn [fold_left List.length] in *.
    replace (k + S (List.length ps))%nat with (S k + List.length ps)%nat
      by lia.
    apply IH; [lia |]. apply add_point_score_between; [lia | exact A].
Qed.

(** X14. The quality score lies between 0 and 1 for every list of data
    points ([None] and empty readings included), in any arithmetic whose
    rounding is monotone and leaves the integers up to the length of the
    list unchanged. *)
Theorem quality_score_between_0_and_1 (data_points : list (option dict)) :
  (List.length data_points <= bound)%nat ->
  0 <= calculate_data_quality_score fl data_points <= 1.
Proof.
  intros B. unfold calculate_data_quality_score.
  destruct data_points as [| p ps]; [split; discriminate |].
  set (points := p :: ps) in *.
  assert (P : 0 < num_of_nat (List.length points)).
  { apply num_of_nat_pos. simpl. lia. }
  pose proof (@score_loop_between points 0 0 B) as T.
  change (num_of_nat 0) with 0 in T.
  specialize (T ltac:(split; apply Qle_refl)).
  cbn [Nat.add] in T. destruct T as [T1 T2].
  assert (One : (1 <= bound)%nat) by (simpl in B; lia).
  assert (Q1 : 0 <= fold_left (add_point_score fl) points 0
                    / num_of_nat (List.length points) <= 1).
  { split.
    - apply Qle_shift_div_l; [exact P | lra].
    - apply Qle_shift_div_r; [exact P | lra]. }
  pose proof (@fl_between 0 1 _ One ltac:(lia) Q1) as [F1 F2].
  change (num_of_nat 0) with 0 in *. change (num_of_nat 1) with 1 in *.
  unfold round.
  apply (@fl_between 0 1 _ One ltac:(lia)).
  change (num_of_nat 0) with (round2 0). change (num_of_nat 1) with (round2 1).
  split; apply round2_mono; assumption.
Qed.

End ScoreRange.

End CycleFacts.

(* ================================================================== *)
(** * Further properties of weather_api/handler.py *)
(* ================================================================== *)

Module ServingFacts.
Import Py Api Spec Read Facts ApiFacts.

(** ** which record is served *)

Section Served.

Local Open Scope Q_scope.
Local Open Scope string_scope.

(** X15. When the table holds an item of the location and the store answers,
    [get_current_weather] builds its response from an item of the location
    whose timestamp is greater than or equal to that of every other item of
    the location. *)
Theorem current_weather_serves_latest (e : env) (item : dict) :
  query_error e = None ->
  In item (rows e) ->
  location_eq (LOCATION e) item = true ->
  exists latest,
    In latest (rows e)
    /\ location_eq (LOCATION e) latest = true
    /\ (forall other,
          In other (rows e) -> location_eq (LOCATION e) other = true ->
          String.leb (timestamp_of other) (timestamp_of latest) = true)
    /\ get_current_weather e
       = handle_errors e "Failed to retrieve weather data"
           (data <- current_data e latest ;;
            Ok (create_response e 200 data None)).
Proof.
  intros Q I L. pose proof (get_current_weather_cases e) as C.
  rewrite Q in C.
  destruct (sort_desc (filter (location_eq (LOCATION e)) (rows e)))
    as [| latest rest] eqn:S.
  - exfalso. apply (proj1 (sort_desc_nil _)) in S.
    assert (F : In item (filter (location_eq (LOCATION e)) (rows e)))
      by (apply filter_In; split; assumption).
    rewrite S in F. destruct F.
  - exists latest.
    assert (F : In latest (filter (location_eq (LOCATION e)) (rows e))).
    { apply sort_desc_in. rewrite S. left. reflexivity. }
    apply filter_In in F. destruct F as [F1 F2].
    split; [exact F1 |]. split; [exact F2 |]. split; [| exact C].
    intros other O1 O2. apply (sort_desc_head _ S).
    apply filter_In. split; assumption.
Qed.






End Served.

(** ** the router *)

Section Router.

Local Open Scope Q_scope.
Local Open Scope string_scope.

Lemma eq_str_true (v : value) (s : string) :
  eq_str v s = true <-> v = VStr s.
Proof.
  unfold eq_str. destruct v; try (split; intros H; discriminate H).
  split; intros H.
  - apply String.eqb_eq in H. subst. reflexivity.
  - injection H as ->. apply String.eqb_refl.
Qed.

Lemma int_raises (v : value) (x : exn) :
  int v = Raise x -> x = ValueError \/ x = TypeError.
Proof.
  unfold int. intros H. destruct v; try discriminate H;
    try (injection H as <-; right; reflexivity).
  destruct (int_of_string s); [discriminate H |].
  injection H as <-. left. reflexivity.
Qed.

(** [int] on a few strings: blanks at both ends are skipped, a sign and a
    single underscore between digits are read, the digits of another script
    count (here U+0663, ARABIC-INDIC DIGIT THREE), a no-break space counts as
    a blank behind them, and the separator U+001C does not. *)
Lemma int_samples :
  int (VStr " 24 ") = Ok 24%Z
  /\ int (VStr "-1_0") = Ok (-10)%Z
  /\ int (VStr "abc") = Raise ValueError
  /\ int (VStr "2 4") = Raise ValueError
  /\ int (VStr (String (ascii_of_nat 217) (String (ascii_of_nat 163) "")))
     = Ok 3%Z
  /\ int (VStr (String (ascii_of_nat 217) (String (ascii_of_nat 163)
                 (String (ascii_of_nat 194) (String (ascii_of_nat 160) "")))))
     = Ok 3%Z
  /\ int (VStr (String (ascii_of_nat 28) "5")) = Raise ValueError
  /\ int (VNum (- (7 # 2))) = Ok (-3)%Z.
Proof. vm_compute. repeat split; reflexivity. Qed.

(** X17. The API's [lambda_handler] raises only on the history route: when it
    raises, the method is not OPTIONS, the path is /weather/history, and the
    exception is the AttributeError of [query_params.get] or the ValueError
    or TypeError of [int]. *)
Theorem router_raises_only_for_history (e : env) (event : dict) (x : exn) :
  lambda_handler e event = Raise x ->
  get event "httpMethod" <> VStr "OPTIONS"
  /\ get_default event "path" (VStr "/") = VStr "/weather/history"
  /\ (x = AttributeError \/ x = ValueError \/ x = TypeError).
Proof.
  unfold lambda_handler. intros H.
  destruct (eq_str (get event "httpMethod") "OPTIONS") eqn:O;
    [discriminate H |].
  split.
  { intros E. apply eq_str_true in E. congruence. }
  destruct (eq_str (get_default event "path" (VStr "/")) "/weather/current");
    [discriminate H |].
  destruct (eq_str (get_default event "path" (VStr "/")) "/weather/history")
    eqn:P.
  - split; [apply eq_str_true, P |].
    destruct (attr_get_default _ "hours" (VNum 24)) as [given | y] eqn:G;
      cbn [bind] in H.
    + destruct (int given) as [hours | y] eqn:I; cbn [bind] in H;
        [discriminate H |].
      injection H as <-. right. exact (int_raises _ I).
    + injection H as <-. left.
      unfold attr_get_default in G.
      destruct (if truthy _ then _ else _); try discriminate G;
        injection G as <-; reflexivity.
  - destruct (eq_str (get_default event "path" (VStr "/")) "/weather/sources");
      [discriminate H |].
    destruct (eq_str (get_default event "path" (VStr "/")) "/health");
      discriminate H.
Qed.

(** X18. A request for /weather/history whose [queryStringParameters] are
    missing, null, or hold no [hours] is answered with the history of the
    last 24 hours. *)
Theorem history_defaults_to_a_day (e : env) (event : dict) :
  get event "httpMethod" <> VStr "OPTIONS" ->
  lookup event "path" = Some (VStr "/weather/history") ->
  lookup event "queryStringParameters" = None
  \/ lookup event "queryStringParameters" = Some VNone
  \/ (exists params,
        lookup event "queryStringParameters" = Some (VDict params)
        /\ lookup params "hours" = None) ->
  lambda_handler e event = Ok (get_historical_weather e 24).
Proof.
  intros O P Q. unfold lambda_handler.
  destruct (eq_str (get event "httpMethod") "OPTIONS") eqn:E;
    [apply eq_str_true in E; congruence |].
  unfold get_default at 1 2. rewrite P.
  cbn [eq_str String.eqb Ascii.eqb Bool.eqb].
  cbn [andb].
  assert (G : attr_get_default
                (if truthy
                      (get_default event "queryStringParameters" (VDict []))
                 then get_default event "queryStringParameters" (VDict [])
                 else VDict [])
                "hours" (VNum 24)
              = Ok (VNum 24)).
  { unfold get_default at 1 2.
    destruct Q as [Q | [Q | [params [Q H]]]]; rewrite Q; try reflexivity.
    destruct params as [| kv params]; [reflexivity |].
    cbn [truthy attr_get_default]. unfold get_default. rewrite H.
    reflexivity. }
  rewrite G. reflexivity.
Qed.

Lemma headers_create_response (e : env) (code : Z) (body : value) :
  get (create_response e code body None) "headers"
  = VDict (Http.default_headers e).
Proof. reflexivity. Qed.

Lemma headers_handle_errors (e : env) (what : string) (r : outcome dict) :
  (forall response, r = Ok response ->
     get response "headers" = VDict (Http.default_headers e)) ->
  get (handle_errors e what r) "headers" = VDict (Http.default_headers e).
Proof.
  intros H. destruct r as [response | x]; [exact (H response eq_refl) |].
  destruct x; reflexivity.
Qed.

Lemma headers_get_current_weather (e : env) :
  get (get_current_weather e) "headers" = VDict (Http.default_headers e).
Proof.
  unfold get_current_weather. apply headers_handle_errors. intros response H.
  destruct (query_latest e (Some 1%nat)) as [items |]; cbn [bind] in H;
    [| discriminate H].
  destruct items as [| item items].
  - injection H as <-. reflexivity.
  - destruct (current_data e item); cbn [bind] in H; [| discriminate H].
    injection H as <-. reflexivity.
Qed.

Lemma headers_get_historical_weather (e : env) (hours : Z) :
  get (get_historical_weather e hours) "headers"
  = VDict (Http.default_headers e).
Proof.
  unfold get_historical_weather. apply headers_handle_errors.
  intros response H.
  destruct (timedelta_hours hours); cbn [bind] in H; [| discriminate H].
  destruct (datetime_sub _ _); cbn [bind] in H; [| discriminate H].
  destruct (query_between e _ _) as [items |]; cbn [bind] in H;
    [| discriminate H].
  destruct items as [| item items].
  - injection H as <-. reflexivity.
  - destruct (history_entries e _); cbn [bind] in H; [| discriminate H].
    destruct (statistics_of _); cbn [bind] in H; [| discriminate H].
    injection H as <-. reflexivity.
Qed.

(** X19. Every response the API's [lambda_handler] returns on the OPTIONS
    method or on a path other than /health carries the four default headers
    (content type and CORS), error responses included; so does every
    response of [get_health_status]. *)
Theorem responses_carry_cors_headers :
  (forall e event response,
      lambda_handler e event = Ok response ->
      get event "httpMethod" = VStr "OPTIONS"
      \/ get_default event "path" (VStr "/") <> VStr "/health" ->
      get response "headers" = VDict (Http.default_headers e))
  /\ (forall e fromisoformat,
        get (Health.get_health_status e fromisoformat) "headers"
        = VDict (Http.default_headers e)).
Proof.
  split.
  - intros e event response H C. unfold lambda_handler in H.
    destruct (eq_str (get event "httpMethod") "OPTIONS") eqn:O.
    { injection H as <-. reflexivity. }
    destruct C as [C | C]; [apply eq_str_true in C; congruence |].
    destruct (eq_str (get_default event "path" (VStr "/")) "/weather/current").
    { injection H as <-. apply headers_get_current_weather. }
    destruct (eq_str (get_default event "path" (VStr "/")) "/weather/history").
    { destruct (attr_get_default _ "hours" (VNum 24)); cbn [bind] in H;
        [| discriminate H].
      destruct (int _); cbn [bind] in H; [| discriminate H].
      injection H as <-. apply headers_get_historical_weather. }
    destruct (eq_str (get_default event "path" (VStr "/")) "/weather/sources").
    { injection H as <-. reflexivity. }
    destruct (eq_str (get_default event "path" (VStr "/")) "/health") eqn:P.
    { apply eq_str_true in P. congruence. }
    injection H as <-. reflexivity.
  - intros e fromisoformat. unfold Health.get_health_status.
    destruct (Health.freshness e fromisoformat) as [[[fresh last] | x] reads];
      reflexivity.
Qed.

(** X20. When [hours] is so negative that the start of the window would lie
    after the year 9999, [get_historical_weather] answers 500 "Internal
    server error" with the message of the OverflowError, without querying
    the table. *)
Theorem distant_window_is_internal_error (e : env) (hours : Z) :
  (clock e 0%nat - hours * 3600000000 > MAX_INSTANT)%Z ->
  get_historical_weather e hours
  = create_response e 500 (Http.internal_error e OverflowError) None.
Proof.
  intros H. unfold get_historical_weather, timedelta_hours, datetime_sub.
  destruct ((-999999999 <=? hours * 3600000000 / 86400000000)%Z
            && (hours * 3600000000 / 86400000000 <=? 999999999)%Z);
    cbn [bind]; [| reflexivity].
  assert (R : ((MIN_INSTANT <=? clock e 0%nat - hours * 3600000000)
               && (clock e 0%nat - hours * 3600000000 <=? MAX_INSTANT))%Z
              = false).
  { apply andb_false_iff. right. apply Z.leb_gt. lia. }
  rewrite R. reflexivity.
Qed.

Lemma lookup_update (headers acc : dict) (k : string) :
  NoDup (map fst headers) ->
  lookup (fold_left (fun a kv => set a (fst kv) (snd kv)) headers acc) k
  = match lookup headers k with
    | Some v => Some v
    | None => lookup acc k
    end.
Proof.
  revert acc. induction headers as [| [k0 v0] hs IH]; intros acc N;
    [reflexivity |].
  cbn [fold_left fst snd lookup]. inversion N as [| ? ? N1 N2]; subst.
  rewrite (IH _ N2), lookup_set.
  destruct (String.eqb_spec k0 k) as [-> | D]; [| reflexivity].
  destruct (lookup hs k) as [v |] eqn:L; [| reflexivity].
  exfalso. apply N1. clear - L.
  induction hs as [| [k1 v1] hs IH]; [discriminate L |].
  cbn [lookup] in L. destruct (String.eqb_spec k1 k) as [-> | D].
  - left. reflexivity.
  - right. exact (IH L).
Qed.

(** X21. [create_response] with custom headers: a custom header replaces the
    default of the same name, the other defaults stay, and the status code
    and the body are those given. *)
Theorem custom_headers_override (e : env) (status_code : Z) (body : value)
    (headers : dict) (k : string) :
  NoDup (map fst headers) ->
  exists sent,
    get (create_response e status_code body (Some headers)) "headers"
    = VDict sent
    /\ lookup sent k
       = match lookup headers k with
         | Some v => Some v
         | None => lookup (Http.default_headers e) k
         end
    /\ get (create_response e status_code body (Some headers)) "statusCode"
       = VNum (inject_Z status_code)
    /\ get (create_response e status_code body (Some headers)) "body" = body.
Proof.
  intros N. unfold create_response.
  destruct headers as [| h hs].
  - eexists. split; [reflexivity |]. split; [reflexivity |].
    split; reflexivity.
  - eexists. split; [reflexivity |].
    split; [exact (lookup_update (h :: hs) (Http.default_headers e) k N) |].
    split; reflexivity.
Qed.

End Router.

(** ** the statistics of a window *)

Section WindowStatistics.

Local Open Scope Q_scope.
Local Open Scope string_scope.

Lemma field_statistics_ordered (q : Q) (qs : list Q) :
  (forall x, In x (q :: qs) -> Http.two_decimals x) ->
  exists stats,
    field_statistics (map VNum (q :: qs)) = Ok stats
    /\ Http.ordered_statistics stats.
Proof.
  intros D. unfold field_statistics, sum, min, max.
  rewrite numbers_map_VNum.
  destruct (@numbers_sum_from (map VNum (q :: qs)) (q :: qs) 0
              (numbers_map_VNum (q :: qs))) as [s [S E]].
  cbn [truthy map] in *. rewrite S. cbn [bind].
  eexists. split; [reflexivity |].
  exists (round2 (s / num_of_nat (List.length (VNum q :: map VNum qs)))),
    (min_from q qs), (max_from q qs).
  split; [reflexivity |].
  destruct (min_from_spec qs q) as [[lo [L1 L2]] L3].
  destruct (max_from_spec qs q) as [[hi [H1 H2]] H3].
  destruct (@mean_bounds (q :: qs) (min_from q qs) (max_from q qs)
              ltac:(discriminate) L3 H3) as [M1 M2].
  assert (A : s / num_of_nat (List.length (VNum q :: map VNum qs))
              == Spec.mean (q :: qs)).
  { unfold Spec.mean. cbn [List.length]. rewrite length_map, E, Qplus_0_l.
    reflexivity. }
  rewrite (@round2_compat _ _ A).
  assert (Lo : round2 (min_from q qs) == min_from q qs).
  { rewrite <- (@round2_compat lo (min_from q qs) L2).
    pose proof (D lo L1) as T. unfold Http.two_decimals in T.
    rewrite T. exact L2. }
  assert (Hi : round2 (max_from q qs) == max_from q qs).
  { rewrite <- (@round2_compat hi (max_from q qs) H2).
    pose proof (D hi H1) as T. unfold Http.two_decimals in T.
    rewrite T. exact H2. }
  split.
  - rewrite <- Lo. apply round2_mono, M1.
  - rewrite <- Hi. apply round2_mono, M2.
Qed.

Lemma truthy_column_source (key : string) (ds : list dict) (v : value) :
  In v (truthy_column key ds) -> exists d, In d ds /\ get d key = v.
Proof.
  unfold truthy_column. intros I. apply filter_In in I. destruct I as [I _].
  apply in_map_iff in I. destruct I as [d [E I]]. exists d. auto.
Qed.

Lemma tracked_statistics (key : string) (ds : list dict) :
  Forall (fun d => Spec.numeric_or_absent (get d key) = true) ds ->
  (forall d q, In d ds -> get d key = VNum q -> Http.two_decimals q) ->
  exists stats,
    field_statistics (truthy_column key ds) = Ok stats
    /\ (stats = VDict [("avg", VNone); ("min", VNone); ("max", VNone)]
        \/ Http.ordered_statistics stats).
Proof.
  intros N D. destruct (@truthy_column_numbers key ds N) as [qs Q].
  pose proof (@numbers_inv _ _ Q) as E.
  destruct qs as [| q qs].
  - rewrite E. eexists. split; [reflexivity | left; reflexivity].
  - destruct (@field_statistics_ordered q qs) as [stats [F O]].
    + intros x X.
      destruct (@truthy_column_source key ds (VNum x)) as [d [I G]].
      { rewrite E. apply in_map, X. }
      exact (D d x I G).
    + rewrite E. exists stats. split; [exact F | right; exact O].
Qed.

(** X22. For a non-empty window whose tracked values are numbers or [None],
    each with at most two decimals (as the collector stores its averages),
    each of the three statistics is either all [None] or has
    min <= avg <= max. *)
Theorem window_statistics_ordered (historical_data : list dict) :
  historical_data <> [] ->
  (forall d key,
      In d historical_data -> In key ["temperature"; "humidity"; "pressure"] ->
      Spec.numeric_or_absent (get d key) = true
      /\ forall q, get d key = VNum q -> Http.two_decimals q) ->
  exists t h p,
    statistics_of historical_data
    = Ok (VDict [("temperature", t); ("humidity", h); ("pressure", p)])
    /\ Forall
         (fun stats =>
            stats = VDict [("avg", VNone); ("min", VNone); ("max", VNone)]
            \/ Http.ordered_statistics stats)
         [t; h; p].
Proof.
  intros NE W.
  assert (T : forall key,
             In key ["temperature"; "humidity"; "pressure"] ->
             exists stats,
               field_statistics (truthy_column key historical_data) = Ok stats
               /\ (stats
                   = VDict [("avg", VNone); ("min", VNone); ("max", VNone)]
                   \/ Http.ordered_statistics stats)).
  { intros key K. apply tracked_statistics.
    - apply Forall_forall. intros d I. exact (proj1 (W d key I K)).
    - intros d q I G. exact (proj2 (W d key I K) q G). }
  destruct (T "temperature" ltac:(simpl; tauto)) as [t [Et Ot]].
  destruct (T "humidity" ltac:(simpl; tauto)) as [h [Eh Oh]].
  destruct (T "pressure" ltac:(simpl; tauto)) as [p [Ep Op]].
  exists t, h, p. split.
  - unfold statistics_of. destruct historical_data; [congruence |].
    rewrite Et, Eh, Ep. reflexivity.
  - constructor; [exact Ot |]. constructor; [exact Oh |].
    constructor; [exact Op | constructor].
Qed.

(** An average with more than two decimals: the window of one record at
    0.004 degrees reports avg 0 below min 0.004. *)
Lemma unrounded_average_below_minimum :
  field_statistics
    (truthy_column "temperature" [[("temperature", VNum (4 # 1000))]])
  = Ok (VDict [("avg", VNum 0); ("min", VNum (4 # 1000));
               ("max", VNum (4 # 1000))]).
Proof. reflexivity. Qed.

End WindowStatistics.

End ServingFacts.

(* ================================================================== *)
(** * Properties of get_health_status *)
(* ================================================================== *)

Module HealthFacts.
Import Py Api Read Health Facts ApiFacts.

Section HealthCheck.

Local Open Scope Q_scope.
Local Open Scope string_scope.

Variable e : env.
Variable fromisoformat : string -> outcome parsed.

(** X23. [get_health_status], when the latest item of the location has a
    timestamp that parses to an instant with an offset: the status is
    "healthy" exactly when that instant is less than 1800 seconds before the
    clock (an instant in the future counts as fresh), and "degraded"
    otherwise; the response is a 200 that carries the timestamp as
    [last_update], stamped with the second reading of the clock. *)
Theorem health_follows_latest_record (latest : dict) (rest : list dict)
    (last_update : string) (t : Z) :
  query_latest e (Some 1%nat) = Ok (latest :: rest) ->
  get latest "timestamp" = VStr last_update ->
  fromisoformat (replace_Z last_update) = Ok (Aware t) ->
  exists body data,
    get_health_status e fromisoformat
    = create_response e 200 (VDict body) None
    /\ get body "status"
       = VStr (if (clock e 0%nat - t <? 1800000000)%Z
               then "healthy" else "degraded")
    /\ ((clock e 0%nat <= t)%Z -> get body "status" = VStr "healthy")
    /\ get body "timestamp" = VStr (isoformat e (clock e 1%nat))
    /\ get body "data" = VDict data
    /\ get data "last_update" = VStr last_update.
Proof.
  intros Q L P. unfold get_health_status, freshness.
  rewrite Q, L. cbn [attr_replace_Z bind]. rewrite P.
  eexists. eexists. split; [reflexivity |].
  unfold FRESH. split; [reflexivity |].
  split; [| split; [reflexivity | split; reflexivity]].
  intros F. cbn [get get_default lookup String.eqb Ascii.eqb Bool.eqb].
  assert (R : (clock e 0%nat - t <? 1800000000)%Z = true)
    by (apply Z.ltb_lt; lia).
  rewrite R. reflexivity.
Qed.

(** X24. [get_health_status] answers 200 or 503 and nothing else: 503 with
    status "unhealthy" when the query fails; 200 with status "degraded",
    no [last_update] and [is_fresh] false when the table has no item of the
    location; 503 when the latest item's timestamp is not a string that
    parses to an instant with an offset. *)
Theorem health_status_codes :
  (get (get_health_status e fromisoformat) "statusCode" = VNum 200
   \/ get (get_health_status e fromisoformat) "statusCode" = VNum 503)
  /\ (forall x,
        query_error e = Some x ->
        get_health_status e fromisoformat
        = create_response e 503
            (VDict
               [("status", VStr "unhealthy");
                ("error", VStr (str_exn (builtin_message e) x));
                ("timestamp", VStr (isoformat e (clock e 0%nat)))])
            None)
  /\ (query_error e = None ->
      (forall item, In item (rows e) ->
                    location_eq (LOCATION e) item = false) ->
      get_health_status e fromisoformat
      = create_response e 200
          (VDict
             [("status", VStr "degraded");
              ("timestamp", VStr (isoformat e (clock e 0%nat)));
              ("location", VStr (LOCATION e));
              ("database", VDict
                 [("status", VStr "connected");
                  ("table", VStr (TABLE_NAME e))]);
              ("data", VDict
                 [("last_update", VNone); ("is_fresh", VNum 0)]);
              ("version", VStr "1.0.0")])
          None)
  /\ (forall latest rest,
        query_latest e (Some 1%nat) = Ok (latest :: rest) ->
        (forall last_update t,
            get latest "timestamp" = VStr last_update ->
            fromisoformat (replace_Z last_update) <> Ok (Aware t)) ->
        get (get_health_status e fromisoformat) "statusCode" = VNum 503).
Proof.
  split; [| split; [| split]].
  - unfold get_health_status.
    destruct (freshness e fromisoformat) as [[[fresh last] | x] reads];
      [left | right]; reflexivity.
  - intros x Q. unfold get_health_status, freshness, query_latest.
    rewrite Q. reflexivity.
  - intros Q N. unfold get_health_status, freshness, query_latest.
    rewrite Q.
    assert (E : filter (location_eq (LOCATION e)) (rows e) = []).
    { apply filter_nil. exact N. }
    rewrite E. reflexivity.
  - intros latest rest Q N. unfold get_health_status, freshness.
    rewrite Q. destruct (get latest "timestamp") as [| q | s | l | d] eqn:G;
      try reflexivity.
    cbn [attr_replace_Z bind].
    destruct (fromisoformat (replace_Z s)) as [[t | t] | x] eqn:P;
      try reflexivity.
    exfalso. exact (N s t eq_refl P).
Qed.

End HealthCheck.

End HealthFacts.

(* ================================================================== *)
(** * From the collector to the read API *)
(* ================================================================== *)

Module EndToEnd.
Import Py Spec Aux Facts CollectorFacts ApiFacts CycleFacts.

Section WrittenThenRead.

Local Open Scope Q_scope.
Local Open Scope string_scope.

Lemma field_stats_keeps_numbers (fl : rounding) (agg : Collector.collected)
    (r r' : dict) (f k : string) :
  Collector.field_stats fl agg r f = Ok r' ->
  numeric_or_absent (get r k) = true ->
  numeric_or_absent (get r' k) = true.
Proof.
  unfold Collector.field_stats. intros H N.
  destruct (truthy (VList (Collector.item agg f))).
  - destruct (sum fl (Collector.item agg f)); cbn [bind] in H;
      [| discriminate H].
    destruct (min (Collector.item agg f)); cbn [bind] in H;
      [| discriminate H].
    destruct (max (Collector.item agg f)); cbn [bind] in H;
      [| discriminate H].
    injection H as <-. unfold get, get_default in *. rewrite !lookup_set.
    repeat
      match goal with
      | |- context [String.eqb ?a ?b] => destruct (String.eqb a b)
      end; try reflexivity; exact N.
  - injection H as <-. exact N.
Qed.

Lemma stats_loop_keeps_numbers (fl : rounding) (agg : Collector.collected)
    (fs : list string) (r0 r : dict) (k : string) :
  stats_loop fl agg fs (Ok r0) = Ok r ->
  numeric_or_absent (get r0 k) = true ->
  numeric_or_absent (get r k) = true.
Proof.
  revert r0. induction fs as [| f fs IH]; intros r0 H N.
  - injection H as <-. exact N.
  - rewrite stats_loop_cons in H.
    destruct (Collector.field_stats fl agg r0 f) as [r1 |] eqn:F.
    + exact (IH r1 H (@field_stats_keeps_numbers fl agg r0 r1 f k F N)).
    + rewrite stats_loop_raise in H. discriminate H.
Qed.

(** Whatever the readings, an average that [aggregate_weather_data] returns
    is a number. *)
Lemma aggregate_averages_numeric (fl : rounding) (now : string)
    (dps : list (option dict)) (r : dict) (k : string) :
  Collector.aggregate_weather_data fl now dps = Ok r ->
  In k ["temperature_avg"; "humidity_avg"; "pressure_avg"] ->
  numeric_or_absent (get r k) = true.
Proof.
  intros H K. destruct (Collector.not_none dps) as [| d ds] eqn:V.
  - rewrite (@aggregate_no_readings fl now dps V) in H. injection H as <-.
    reflexivity.
  - rewrite (@aggregate_unfold fl now dps d ds V) in H.
    destruct (stats_loop fl _ Collector.NUMERIC_FIELDS _) as [r1 |] eqn:S;
      cbn [bind] in H; [| discriminate H].
    unfold get, get_default.
    rewrite (@add_consensus_other (d :: ds) r1 r k H)
      by (simpl in K; intuition (subst; discriminate)).
    apply (@stats_loop_keeps_numbers fl _ _ _ r1 k S).
    simpl in K. destruct K as [<- | [<- | [<- | []]]]; reflexivity.
Qed.

(** X25. What the collector writes, the read API can serve: after a cycle
    that answers 200 on a table of stored records, every item of the table
    is a stored record, and [get_current_weather] on that table, for the
    same location, answers 200. *)
Theorem collected_record_can_be_served (ce : Collector.env)
    (s : Collector.state) (response : dict) (ae : Api.env) :
  fst (Collector.lambda_handler ce s) = Ok response ->
  get response "statusCode" = VNum 200 ->
  Forall (fun item => Read.stored_record item = true) (Collector.table s) ->
  Api.rows ae = Collector.table (snd (Collector.lambda_handler ce s)) ->
  Api.LOCATION ae = Collector.LOCATION ce ->
  Api.query_error ae = None ->
  Forall (fun item => Read.stored_record item = true) (Api.rows ae)
  /\ Read.status (Api.get_current_weather ae) = VNum 200.
Proof.
  intros R H W T L Q.
  destruct (lambda_handler_cases ce s)
    as [[message [s' [F _]]] | [k [cs [d [ds [agg [_ [_ [_ [A [P F]]]]]]]]]]].
  { rewrite F in R. injection R as <-. discriminate H. }
  rewrite F in T.
  pose proof (@finish_stores ce d ds
                {| Collector.table := Collector.table s;
                   Collector.attempted :=
                     (Collector.attempted s ++ map Collector.api_name cs)%list;
                   Collector.ticks := Collector.ticks s |} agg A P) as G.
  cbv zeta in G. rewrite G in T. cbn [snd Collector.table] in T.
  destruct (@aggregate_fixed_keys (Collector.float_arithmetic ce) _
              (map Some (d :: ds)) d ds agg (not_none_map_Some (d :: ds)) A)
    as [Src _].
  match type of T with
  | _ = (_ ++ [?i])%list => set (item := i) in *
  end.
  assert (SI : Read.stored_record item = true).
  { unfold Read.stored_record, item.
    cbn [get_default lookup String.eqb Ascii.eqb Bool.eqb andb].
    unfold get_default at 1. rewrite lookup_convert, Src.
    cbn [option_map Collector.convert_value].
    rewrite !get_convert, !numeric_or_absent_convert.
    rewrite (@aggregate_averages_numeric _ _ _ agg "temperature_avg" A)
      by (simpl; tauto).
    rewrite (@aggregate_averages_numeric _ _ _ agg "humidity_avg" A)
      by (simpl; tauto).
    rewrite (@aggregate_averages_numeric _ _ _ agg "pressure_avg" A)
      by (simpl; tauto).
    reflexivity. }
  assert (All : Forall (fun i => Read.stored_record i = true) (Api.rows ae)).
  { rewrite T. apply Forall_app. split.
    - apply Forall_forall. intros i I. apply filter_In in I.
      exact (proj1 (Forall_forall _ _) W i (proj1 I)).
    - constructor; [exact SI | constructor]. }
  split; [exact All |].
  pose proof (get_current_weather_cases ae) as C. rewrite Q in C.
  destruct (Api.sort_desc (filter (Api.location_eq (Api.LOCATION ae))
                             (Api.rows ae)))
    as [| latest rest] eqn:S.
  - exfalso. apply (proj1 (sort_desc_nil _)) in S.
    assert (I : In item (filter (Api.location_eq (Api.LOCATION ae))
                           (Api.rows ae))).
    { apply filter_In. split.
      - rewrite T. apply in_or_app. right. left. reflexivity.
      - rewrite L. unfold Api.location_eq, item, eq_str.
        cbn [get get_default lookup String.eqb Ascii.eqb Bool.eqb andb].
        apply String.eqb_refl. }
    rewrite S in I. destruct I.
  - assert (I : In latest (Api.rows ae)).
    { assert (J : In latest (filter (Api.location_eq (Api.LOCATION ae))
                               (Api.rows ae))).
      { apply sort_desc_in. rewrite S. left. reflexivity. }
      apply filter_In in J. tauto. }
    destruct (@current_data_stored ae latest
                (proj1 (Forall_forall _ _) All latest I)) as [data D].
    rewrite C, D. reflexivity.
Qed.

(** X26. When no reading names a weather, the aggregated record has no
    [weather_consensus]; for an item that stores this record, as it is or
    as [convert_to_dynamodb_format] writes it, [get_current_weather]'s data
    say "Unknown" for the weather, and the item's history entry says
    [None]. *)
Theorem absent_consensus_reads_unknown (fl : rounding) (now : string)
    (readings : list dict) (r stored : dict) (e : Api.env) (item : dict)
    (score : Q) :
  well_formed readings ->
  weather_strings readings = [] ->
  Collector.aggregate_weather_data fl now (map Some readings) = Ok r ->
  stored = r \/ stored = Collector.convert_to_dynamodb_format r ->
  lookup item "weather_data" = Some (VDict stored) ->
  lookup item "data_quality_score" = Some (VNum score) ->
  lookup r "weather_consensus" = None
  /\ (exists data conditions,
        Api.current_data e item = Ok (VDict data)
        /\ get data "current_conditions" = VDict conditions
        /\ get conditions "weather" = VStr "Unknown")
  /\ (forall entry,
        Api.history_entry e item = Ok entry -> get entry "weather" = VNone).
Proof.
  intros W N A St I Sc.
  assert (C : lookup r "weather_consensus" = None).
  { destruct readings as [| d ds].
    - cbn in A. injection A as <-. reflexivity.
    - destruct (@aggregate_readings fl now (map Some (d :: ds)) d ds
                  (not_none_map_Some (d :: ds)) W)
        as [r1 [r' [S [Ad [A' _]]]]].
      rewrite A in A'. injection A' as E1. subst r'.
      rewrite (@add_consensus_none (d :: ds) r1 W N) in Ad.
      injection Ad as E2. subst r1.
      rewrite (@stats_loop_other fl _ Collector.NUMERIC_FIELDS _ r
                 "weather_consensus"
                 (fun f F K => @derived_not_consensus f _ F K eq_refl) S).
      reflexivity. }
  assert (C' : lookup stored "weather_consensus" = None).
  { destruct St as [-> | ->]; [exact C |].
    rewrite lookup_convert, C. reflexivity. }
  split; [exact C |]. split.
  - unfold Api.current_data, get_default. rewrite I, Sc.
    cbn [float bind Api.as_dict]. rewrite C'.
    eexists. eexists. split; [reflexivity |]. split; reflexivity.
  - intros entry H. unfold Api.history_entry, get_default in H.
    rewrite I, Sc in H. cbn [float bind Api.as_dict] in H.
    destruct (len_of _); cbn [bind] in H; [| discriminate H].
    injection H as <-.
    cbn [get get_default lookup String.eqb Ascii.eqb Bool.eqb andb].
    unfold get, get_default. rewrite C'. reflexivity.
Qed.

End WrittenThenRead.

End EndToEnd.

(* ================================================================== *)
(** * The further properties at concrete documents, cycles and tables *)
(* ================================================================== *)

Module Instances.
Import Py Facts.

Section AtSamples.

Local Open Scope Q_scope.
Local Open Scope string_scope.

(** The document of the unit test gives a reading with the twelve keys. *)
Lemma reading_schema_witness :
  exists r,
    Adapters.OpenWeatherMapClient_fetch_data
      (Ok Sample.openweathermap_document) = Some r
    /\ map fst r = Adapters.reading_keys "openweathermap"
    /\ get r "source" = VStr "openweathermap".
Proof.
  destruct (Adapters.OpenWeatherMapClient_fetch_data
              (Ok Sample.openweathermap_document)) as [r |] eqn:F;
    [| vm_compute in F; discriminate F].
  exists r. split; [reflexivity |].
  exact (proj1 AdapterFacts.reading_schema
           (Ok Sample.openweathermap_document) r F).
Defined.

(** Code 2 of the unit test's Open-Meteo document is "Partly cloudy". *)
Lemma coded_weather_never_absent_witness :
  exists r w,
    Adapters.OpenMeteoClient_fetch_data (Ok Sample.openmeteo_document)
    = Some r
    /\ get r "weather" = VStr w /\ w <> EmptyString.
Proof.
  destruct (Adapters.OpenMeteoClient_fetch_data
              (Ok Sample.openmeteo_document)) as [r |] eqn:F;
    [| vm_compute in F; discriminate F].
  destruct (proj1 AdapterFacts.coded_weather_never_absent
              (Ok Sample.openmeteo_document) r F) as [w [W [_ [N _]]]].
  exists r, w. split; [reflexivity |]. split; [exact W | exact N].
Defined.

(** An Open-Meteo document with an empty [current]. *)
Lemma missing_weather_code_reads_clear_witness :
  exists r,
    Adapters.OpenMeteoClient_fetch_data (Ok (VDict [("current", VDict [])]))
    = Some r
    /\ get r "weather" = VStr "Clear sky"
    /\ get r "temperature" = VNone.
Proof.
  destruct (proj1 AdapterFacts.missing_weather_code_reads_clear
              [("current", VDict [])] [] eq_refl eq_refl)
    as [r [F [W [_ T]]]].
  exists r. split; [exact F |]. split; [exact W | exact T].
Defined.

(** A WeatherAPI document whose wind speed is null. *)
Lemma unusable_measurement_loses_reading_witness :
  Adapters.WeatherAPIComClient_fetch_data binary64
    (Ok (VDict Sample.weatherapi_calm_document)) = None.
Proof.
  apply (proj1 AdapterFacts.unusable_measurement_loses_reading binary64
           Sample.weatherapi_calm_document
           [("temp_c", VNum 24); ("feelslike_c", VNum 25);
            ("humidity", VNum 70); ("pressure_mb", VNum 1015);
            ("wind_kph", VNone)]
           VNone eq_refl eq_refl).
  intros q E. discriminate E.
Defined.

(** The sample cycle answers 200. *)
Lemma failed_cycle_leaves_table_witness :
  exists response,
    fst (Collector.lambda_handler (Sample.cycle Sample.responses)
           Example.fresh) = Ok response
    /\ (get response "statusCode" = VNum 200
        \/ get response "statusCode" = VNum 500).
Proof.
  destruct (@CycleFacts.failed_cycle_leaves_table
              (Sample.cycle Sample.responses) Example.fresh)
    as [response [R [S _]]].
  exists response. split; [exact R | exact S].
Defined.

(** A secret that is not valid JSON. *)
Lemma secret_failure_stops_cycle_witness :
  Collector.lambda_handler Sample.locked Example.fresh
  = (Ok (Cycle.failure_response "Expecting value"), Example.fresh).
Proof.
  apply (proj1 (@CycleFacts.secret_failure_stops_cycle Sample.locked
                  Example.fresh)
           (OtherError "JSONDecodeError") eq_refl).
  discriminate.
Defined.

(** Current conditions without a day give no reading. *)
Lemma visualcrossing_needs_first_day_witness :
  Adapters.VisualCrossingClient_fetch_data binary64
    (Ok (VDict Sample.visualcrossing_document)) = None.
Proof.
  apply (@AdapterFacts.visualcrossing_needs_first_day binary64
           Sample.visualcrossing_document).
  left. reflexivity.
Defined.

(** With a day beside them, the missing wind speed and visibility read 0. *)
Lemma visualcrossing_absent_reads_zero_witness :
  exists r wind_speed visibility,
    Adapters.VisualCrossingClient_fetch_data binary64
      (Ok (VDict Sample.visualcrossing_with_day)) = Some r
    /\ get r "wind_speed" = VNum wind_speed /\ wind_speed == 0
    /\ get r "visibility" = VNum visibility /\ visibility == 0.
Proof.
  apply (@AdapterFacts.visualcrossing_absent_reads_zero binary64
           Sample.visualcrossing_with_day
           [("temp", VNum 22); ("humidity", VNum 55);
            ("conditions", VStr "Clear")]
           (VDict [("temp", VNum 21)]) []);
    [exact CollectorFacts.binary64_zero | reflexivity | reflexivity
    | reflexivity | reflexivity].
Defined.

(** A reading whose temperature is a string. *)
Lemma aggregate_rejects_non_numbers_witness :
  Collector.aggregate_weather_data binary64 Example.noon
    [None; Some [("source", VStr "openmeteo"); ("temperature", VStr "23.5")]]
  = Raise TypeError.
Proof.
  apply (@CycleFacts.aggregate_rejects_non_numbers binary64 Example.noon
           [None;
            Some [("source", VStr "openmeteo"); ("temperature", VStr "23.5")]]
           [("source", VStr "openmeteo"); ("temperature", VStr "23.5")]
           "temperature");
    [right; left; reflexivity | left; reflexivity | reflexivity].
Defined.

(** The readings of the specification's example, after a [None]. *)
Lemma aggregate_sources_and_raw_data_witness :
  exists r,
    Collector.aggregate_weather_data binary64 Example.noon
      (None :: map Some Example.readings) = Ok r
    /\ get r "sources" = VList [VStr "a"; VStr "b"; VStr "c"]
    /\ get r "raw_data" = VList (map VDict Example.readings).
Proof.
  destruct (Collector.aggregate_weather_data binary64 Example.noon
              (None :: map Some Example.readings)) as [r |] eqn:A;
    [| vm_compute in A; discriminate A].
  exists r. split; [reflexivity |].
  destruct (@CycleFacts.aggregate_sources_and_raw_data binary64 Example.noon
              (None :: map Some Example.readings) r A)
    as [[E _] | [_ [R [S _]]]]; [discriminate E |].
  split; [exact S | exact R].
Defined.


(** Open-Meteo answers with a temperature that is a string: the reading of
    OpenWeatherMap is lost with it. *)
Lemma malformed_reading_fails_cycle_witness :
  fst (Collector.lambda_handler (Sample.cycle Sample.text_responses)
         Example.fresh)
  = Ok (Cycle.failure_response EmptyString)
  /\ Collector.table
       (snd (Collector.lambda_handler (Sample.cycle Sample.text_responses)
               Example.fresh))
     = [].
Proof.
  destruct (Adapters.fetch_data binary64 Sample.text_responses "openmeteo")
    as [d |] eqn:F; [| vm_compute in F; discriminate F].
  apply (@CycleFacts.malformed_reading_fails_cycle
           (Sample.cycle Sample.text_responses) Example.fresh
           [("openweathermap", VStr "test_key");
            ("visualcrossing", VStr "test_key")]
           "openmeteo" d "temperature");
    [reflexivity | vm_compute; tauto | exact F
    | vm_compute in F; injection F as <-; discriminate
    | left; reflexivity
    | vm_compute in F; injection F as <-; reflexivity].
Defined.

(** Of the three adapters called, Visual Crossing does not answer. *)
Lemma record_lists_answering_adapters_witness :
  exists item agg,
    In item
      (Collector.table
         (snd (Collector.lambda_handler (Sample.cycle Sample.responses)
                 Example.fresh)))
    /\ get item "weather_data" = VDict agg
    /\ get agg "sources" = VList [VStr "openweathermap"; VStr "openmeteo"].
Proof.
  destruct (fst (Collector.lambda_handler (Sample.cycle Sample.responses)
                   Example.fresh)) as [response |] eqn:R;
    [| vm_compute in R; discriminate R].
  destruct (@CycleFacts.record_lists_answering_adapters
              (Sample.cycle Sample.responses) Sample.responses
              (fun name => eq_refl) Example.fresh
              [("openweathermap", VStr "test_key");
               ("visualcrossing", VStr "test_key")]
              response eq_refl R)
    as [item [agg [body [I [W [S _]]]]]].
  - vm_compute in R. injection R as <-. reflexivity.
  - exists item, agg. split; [exact I |]. split; [exact W | exact S].
Defined.

(** The readings of the specification's example, without rounding error. *)
Lemma quality_score_between_0_and_1_witness :
  0 <= Collector.calculate_data_quality_score exact
         (map Some Example.readings) <= 1.
Proof.
  apply (@CycleFacts.quality_score_between_0_and_1 exact 3
           (fun x y H => H) (fun n _ => Qeq_refl _)
           (map Some Example.readings)).
  simpl. lia.
Defined.

(** Of the two records of [Example.freezing], the one of 11:00 is served. *)
Lemma current_weather_serves_latest_witness :
  exists latest,
    In latest Example.freezing
    /\ forall other,
         In other Example.freezing ->
         String.leb (Api.timestamp_of other) (Api.timestamp_of latest) = true.
Proof.
  destruct (@ServingFacts.current_weather_serves_latest
              (Example.api Example.freezing)
              (Example.record "2024-01-15T10:00:00+00:00" (VNum 0))
              eq_refl (or_introl eq_refl) eq_refl)
    as [latest [I [_ [M _]]]].
  exists latest. split; [exact I |].
  intros other O. apply (M other O).
  destruct O as [<- | [<- | []]]; reflexivity.
Defined.


(** hours=abc *)
Lemma router_raises_only_for_history_witness :
  get_default (Read.history_event (VStr "abc")) "path" (VStr "/")
  = VStr "/weather/history".
Proof.
  exact (proj1 (proj2 (@ServingFacts.router_raises_only_for_history
                         (Example.api []) (Read.history_event (VStr "abc"))
                         ValueError eq_refl))).
Defined.

(** A request for the history that names no hours. *)
Lemma history_defaults_to_a_day_witness :
  Api.lambda_handler (Example.api [])
    [("httpMethod", VStr "GET"); ("path", VStr "/weather/history");
     ("queryStringParameters", VNone)]
  = Ok (Api.get_historical_weather (Example.api []) 24).
Proof.
  apply (@ServingFacts.history_defaults_to_a_day (Example.api [])
           [("httpMethod", VStr "GET"); ("path", VStr "/weather/history");
            ("queryStringParameters", VNone)]);
    [discriminate | reflexivity | right; left; reflexivity].
Defined.

(** Eighty million hours ahead of noon on 2024-01-15 lies after the year
    9999. *)
Lemma distant_window_is_internal_error_witness :
  Api.get_historical_weather (Example.api []) (-80000000)
  = Api.create_response (Example.api []) 500
      (Http.internal_error (Example.api []) OverflowError) None.
Proof.
  apply (@ServingFacts.distant_window_is_internal_error (Example.api [])
           (-80000000)%Z).
  reflexivity.
Defined.

(** A response that names its own origin and a cache policy. *)
Lemma custom_headers_override_witness :
  exists sent,
    get (Api.create_response (Example.api []) 200 (VDict [])
           (Some [("Access-Control-Allow-Origin", VStr "https://example.org");
                  ("Cache-Control", VStr "no-store")]))
      "headers" = VDict sent
    /\ lookup sent "Access-Control-Allow-Origin"
       = Some (VStr "https://example.org").
Proof.
  destruct (@ServingFacts.custom_headers_override (Example.api []) 200
              (VDict [])
              [("Access-Control-Allow-Origin", VStr "https://example.org");
               ("Cache-Control", VStr "no-store")]
              "Access-Control-Allow-Origin")
    as [sent [S [L _]]].
  - repeat constructor; simpl; intuition discriminate.
  - exists sent. split; [exact S | exact L].
Defined.

(** The entries of two stored records. *)
Lemma window_statistics_ordered_witness :
  exists t h p,
    Api.statistics_of
      [[("temperature", VNum (1539 # 100)); ("humidity", VNum 65);
        ("pressure", VNone)];
       [("temperature", VNum (154 # 10)); ("humidity", VNum 70);
        ("pressure", VNone)]]
    = Ok (VDict [("temperature", t); ("humidity", h); ("pressure", p)])
    /\ Http.ordered_statistics t.
Proof.
  destruct (@ServingFacts.window_statistics_ordered
              [[("temperature", VNum (1539 # 100)); ("humidity", VNum 65);
                ("pressure", VNone)];
               [("temperature", VNum (154 # 10)); ("humidity", VNum 70);
                ("pressure", VNone)]])
    as [t [h [p [E F]]]].
  - discriminate.
  - intros d key [<- | [<- | []]] [<- | [<- | [<- | []]]];
      (split; [reflexivity |]); intros q G; try discriminate G;
      injection G as <-; reflexivity.
  - exists t, h, p. split; [exact E |].
    apply Forall_inv in F. destruct F as [F | F]; [| exact F].
    exfalso. vm_compute in E. injection E as <- _ _. discriminate F.
Defined.

(** The latest record of [Example.freezing] is an hour old at noon. *)
Lemma health_follows_latest_record_witness :
  exists body,
    Health.get_health_status (Example.api Example.freezing)
      Sample.fromisoformat
    = Api.create_response (Example.api Example.freezing) 200 (VDict body) None
    /\ get body "status" = VStr "degraded".
Proof.
  destruct (@HealthFacts.health_follows_latest_record
              (Example.api Example.freezing) Sample.fromisoformat
              (Example.record "2024-01-15T11:00:00+00:00" (VNum 10)) []
              "2024-01-15T11:00:00+00:00" 1705316400000000
              eq_refl eq_refl eq_refl)
    as [body [data [R [S _]]]].
  exists body. split; [exact R | exact S].
Defined.

(** The record of the sample cycle, read back from its table. *)
Lemma collected_record_can_be_served_witness :
  Read.status
    (Api.get_current_weather
       (Example.api
          (Collector.table
             (snd (Collector.lambda_handler (Sample.cycle Sample.responses)
                     Example.fresh)))))
  = VNum 200.
Proof.
  destruct (fst (Collector.lambda_handler (Sample.cycle Sample.responses)
                   Example.fresh)) as [response |] eqn:R;
    [| vm_compute in R; discriminate R].
  apply (@EndToEnd.collected_record_can_be_served
           (Sample.cycle Sample.responses) Example.fresh response
           (Example.api
              (Collector.table
                 (snd (Collector.lambda_handler
                         (Sample.cycle Sample.responses) Example.fresh))))
           R);
    [vm_compute in R; injection R as <-; reflexivity
    | constructor | reflexivity | reflexivity | reflexivity].
Defined.

(** One reading that names no weather. *)
Lemma absent_consensus_reads_unknown_witness :
  exists r,
    Collector.aggregate_weather_data binary64 Example.noon
      [Some [("source", VStr "a"); ("temperature", VNum 24)]] = Ok r
    /\ lookup r "weather_consensus" = None.
Proof.
  destruct (Collector.aggregate_weather_data binary64 Example.noon
              (map Some [[("source", VStr "a"); ("temperature", VNum 24)]]))
    as [r |] eqn:A; [| vm_compute in A; discriminate A].
  exists r. split; [exact A |].
  apply (@EndToEnd.absent_consensus_reads_unknown binary64 Example.noon
           [[("source", VStr "a"); ("temperature", VNum 24)]] r
           (Collector.convert_to_dynamodb_format r)
           (Example.api [])
           [("weather_data", VDict (Collector.convert_to_dynamodb_format r));
            ("data_quality_score", VNum 1)] 1);
    [repeat constructor | reflexivity | exact A | right; reflexivity
    | reflexivity | reflexivity].
Defined.

(** A path the router does not know. *)
Lemma responses_carry_cors_headers_witness :
  exists response,
    Api.lambda_handler (Example.api [])
      [("httpMethod", VStr "GET"); ("path", VStr "/nowhere")] = Ok response
    /\ get response "statusCode" = VNum 404
    /\ get response "headers" = VDict (Http.default_headers (Example.api [])).
Proof.
  destruct (Api.lambda_handler (Example.api [])
              [("httpMethod", VStr "GET"); ("path", VStr "/nowhere")])
    as [response |] eqn:R; [| vm_compute in R; discriminate R].
  exists response. split; [reflexivity |]. split.
  - vm_compute in R. injection R as <-. reflexivity.
  - apply (proj1 ServingFacts.responses_carry_cors_headers (Example.api [])
             [("httpMethod", VStr "GET"); ("path", VStr "/nowhere")]
             response R).
    right. discriminate.
Defined.

(** An empty table is degraded, not unhealthy. *)
Lemma health_status_codes_witness :
  get (Health.get_health_status (Example.api []) Sample.fromisoformat)
    "statusCode" = VNum 200.
Proof.
  rewrite (proj1 (proj2 (proj2 (@HealthFacts.health_status_codes
                                  (Example.api []) Sample.fromisoformat)))
             eq_refl (fun item (I : In item []) => match I with end)).
  reflexivity.
Defined.

End AtSamples.

End Instances.
